(** * activity-sync: the Strava -> Nextcloud synchronisation core

    A shallow embedding of [activity_sync/syncer.py],
    [activity_sync/nextcloud_client.py], [activity_sync/config.py] and
    [activity_sync/strava2gpx/client.py], and the properties of
    [StravaNextcloudSync.sync_activities] checked against it.

    Conventions of the embedding:
    - Python [int] is [Z] (identifiers, elapsed seconds, the clock) or [nat]
      (the two request counters, which only count up from zero);
    - Python [str] is [string]; [set[str]] is [gset string]; the local file
      system and the remote folder are [gmap string string];
    - a Python [float] is represented by its exact value, a rational [Q];
    - effects are threaded through a state-and-exception monad over a
      [World]; every collaborator call is logged as a timed [Event];
    - the answers of the two remote services are given by an [Env], which is
      universally quantified in the theorems;
    - the [while True] retry loop takes fuel.

    What is left out: logging and printing; the temporary copies that the
    state store writes and removes around its uploads; failures of local
    file operations other than a missing file; the pagination inside
    [get_activities_list] and the transparent 429 handling inside
    [_make_request], whose outcome (an answer or an exception) is what the
    [Env] gives.  Only sleeping moves the clock.  [datetime.fromisoformat]
    is the one of Python 3.11, which reads the [Z] suffix. *)

From Stdlib Require Import ZArith QArith Ascii String List Lia.
From stdpp Require Import base option list strings pretty gmap.

Open Scope Z_scope.

(** ** Python built-ins used by the sources *)

Module Py.

(** [str(n)] for an [int]. *)
Definition str_int (n : Z) : string := pretty n.

(** [needle in hay] for two [str]. *)
Fixpoint contains (needle hay : string) : bool :=
  String.prefix needle hay ||
  match hay with
  | EmptyString => false
  | String _ rest => contains needle rest
  end.

(** [s.replace(old, new)] where [old] and [new] are one character long. *)
Fixpoint replace_char (old new : ascii) (s : string) : string :=
  match s with
  | EmptyString => EmptyString
  | String c rest =>
      String (if Ascii.eqb c old then new else c) (replace_char old new rest)
  end.

(** [s[:n]]. *)
Fixpoint slice_to (n : nat) (s : string) : string :=
  match n, s with
  | S n', String c rest => String c (slice_to n' rest)
  | _, _ => EmptyString
  end.

(** [" ".join(parts)] and friends. *)
Fixpoint join (sep : string) (parts : list string) : string :=
  match parts with
  | [] => EmptyString
  | [p] => p
  | p :: rest => p +:+ sep +:+ join sep rest
  end.

(** Truth value of an optional [str] ([None] and [""] are false). *)
Definition truthy (o : option string) : bool :=
  match o with
  | Some (String _ _) => true
  | _ => false
  end.

(** [all(xs)] over optional strings. *)
Definition all (xs : list (option string)) : bool := forallb truthy xs.

(** [n] written with at least [w] digits, zero padded ([%0wd], [n >= 0]). *)
Definition zpad (w : nat) (n : Z) : string :=
  let s := pretty n in
  String.concat "" (replicate (w - String.length s) "0"%string) +:+ s.

(** [f"{x:.{p}f}"] for a finite float of exact value [x] and [p > 0]: the
    decimal expansion of [x] correctly rounded (ties to even) at [p] places. *)
Definition format_f (p : nat) (x : Q) : string :=
  let scale := 10 ^ Z.of_nat p in
  let num := Z.abs (Qnum x) * scale in
  let den := Z.pos (Qden x) in
  let q := num / den in
  let r := num mod den in
  let n := if 2 * r <? den then q
           else if den <? 2 * r then q + 1
           else if Z.even q then q else q + 1 in
  (if (Qnum x <? 0)%Z then "-"%string else ""%string)
    +:+ pretty (n / scale) +:+ "." +:+ zpad p (n mod scale).

(** *** [datetime]: the proleptic Gregorian calendar, UTC *)

Definition days_from_civil (y m d : Z) : Z :=
  let y' := if m <=? 2 then y - 1 else y in
  let era := y' / 400 in
  let yoe := y' - era * 400 in
  let doy := (153 * (if 2 <? m then m - 3 else m + 9) + 2) / 5 + d - 1 in
  let doe := yoe * 365 + yoe / 4 - yoe / 100 + doy in
  era * 146097 + doe - 719468.

Definition civil_from_days (z : Z) : Z * Z * Z :=
  let z' := z + 719468 in
  let era := z' / 146097 in
  let doe := z' - era * 146097 in
  let yoe := (doe - doe / 1460 + doe / 36524 - doe / 146096) / 365 in
  let doy := doe - (365 * yoe + yoe / 4 - yoe / 100) in
  let mp := (5 * doy + 2) / 153 in
  let d := doy - (153 * mp + 2) / 5 + 1 in
  let m := if mp <? 10 then mp + 3 else mp - 9 in
  let y := yoe + era * 400 in
  (if m <=? 2 then y + 1 else y, m, d).

Definition is_leap (y : Z) : bool :=
  ((y mod 4 =? 0) && negb (y mod 100 =? 0)) || (y mod 400 =? 0).

Definition days_in_month (y m : Z) : Z :=
  if m =? 2 then (if is_leap y then 29 else 28)
  else if (m =? 4) || (m =? 6) || (m =? 9) || (m =? 11) then 30 else 31.

Definition digit (c : ascii) : option Z :=
  let n := Z.of_nat (nat_of_ascii c) in
  if (48 <=? n) && (n <=? 57) then Some (n - 48) else None.

Fixpoint digits_acc (acc : Z) (s : string) : option Z :=
  match s with
  | EmptyString => Some acc
  | String c rest =>
      match digit c with
      | Some d => digits_acc (10 * acc + d) rest
      | None => None
      end
  end.

(** A fixed-width unsigned decimal field at [s[i:i+w]]. *)
Definition field (s : string) (i w : nat) : option Z :=
  let f := substring i w s in
  if Nat.eqb (String.length f) w then digits_acc 0 f else None.

(** [datetime.fromisoformat(s)] on the two forms the activity source uses,
    [YYYY-MM-DDTHH:MM:SSZ] (read as UTC) and the same without the suffix;
    the result is the number of seconds since 1970-01-01T00:00:00.  [None]
    stands for the [ValueError] of a string that does not parse. *)
Definition fromisoformat (s : string) : option Z :=
  let n := String.length s in
  if negb (Nat.eqb n 19 || (Nat.eqb n 20 && String.eqb (substring 19 1 s) "Z"))
  then None
  else if negb (String.eqb (substring 4 1 s) "-" && String.eqb (substring 7 1 s) "-"
                && String.eqb (substring 10 1 s) "T"
                && String.eqb (substring 13 1 s) ":" && String.eqb (substring 16 1 s) ":")
  then None
  else
    y ← field s 0 4; m ← field s 5 2; d ← field s 8 2;
    hh ← field s 11 2; mm ← field s 14 2; ss ← field s 17 2;
    if (1 <=? y) && (1 <=? m) && (m <=? 12) && (1 <=? d) && (d <=? days_in_month y m)
       && (hh <? 24) && (mm <? 60) && (ss <? 60)
    then Some (days_from_civil y m d * 86400 + hh * 3600 + mm * 60 + ss)
    else None.

(** [dt.isoformat()] of a datetime without microseconds, without the offset
    part; [None] stands for the [OverflowError] outside years 1..9999. *)
Definition isoformat (t : Z) : option string :=
  let '(y, m, d) := civil_from_days (t / 86400) in
  let s := t mod 86400 in
  if (1 <=? y) && (y <=? 9999) then
    Some (zpad 4 y +:+ "-" +:+ zpad 2 m +:+ "-" +:+ zpad 2 d +:+ "T"
          +:+ zpad 2 (s / 3600) +:+ ":" +:+ zpad 2 (s mod 3600 / 60) +:+ ":"
          +:+ zpad 2 (s mod 60))
  else None.

End Py.

(** ** config.py *)

Record SyncConfig := {
  strava_client_id : option string;
  strava_refresh_token : option string;
  strava_client_secret : option string;
  nextcloud_url : option string;
  nextcloud_username : option string;
  nextcloud_password : option string;
  nextcloud_target_folder : string;
  sync_interval_seconds : Z
}.

(** [SyncConfig.strava_ready] *)
Definition strava_ready (c : SyncConfig) : bool :=
  Py.all [strava_client_id c; strava_refresh_token c; strava_client_secret c].

(** ** Data exchanged with the activity source *)

(** One row of [get_activities_list]: [[name, id, start_date, type]]. *)
Record ActivitySummary := {
  sum_name : string;
  sum_id : Z;
  sum_start_date : string;
  sum_type : string
}.

(** The detailed activity, as far as [write_to_gpx] reads it. *)
Record Activity := {
  act_name : string;
  act_id : Z;
  act_start_date : string;
  act_type : string;
  act_sport_type : string;
  act_device_watts : option bool;   (* activity.get("device_watts", False) *)
  act_has_heartrate : bool;         (* activity["has_heartrate"] is True *)
  act_average_cadence : bool;       (* "average_cadence" in activity *)
  act_average_temp : bool           (* "average_temp" in activity *)
}.

Record Stream (A : Type) := {
  original_size : Z;
  data : list A
}.
Arguments original_size {A} _.
Arguments data {A} _.

(** The answer of the streams endpoint, keyed by type; [None] is a missing
    key. *)
Record DataStreams := {
  ds_time : option (Stream Z);
  ds_latlng : option (Stream (Q * Q));
  ds_altitude : option (Stream Q);
  ds_temp : option (Stream Z);
  ds_watts : option (Stream Z);
  ds_heartrate : option (Stream Z);
  ds_cadence : option (Stream Z)
}.

(** [strava2gpx.streams], the optional streams switched by
    [detect_activity_streams] ([latlng] and [altitude] are always [1]). *)
Record StreamFlags := {
  fl_heartrate : bool;
  fl_cadence : bool;
  fl_watts : bool;
  fl_temp : bool
}.

(** ** Exceptions, events and the world *)

Inductive PyExc :=
| ValueError (msg : string)
| FileNotFoundError (path : string)
| LookupError (what : string)
| ServiceError (msg : string).

(** [str(e)] *)
Definition exc_str (e : PyExc) : string :=
  match e with
  | ValueError msg => msg
  | FileNotFoundError path =>
      "[Errno 2] No such file or directory: '" +:+ path +:+ "'"
  | LookupError what => what
  | ServiceError msg => msg
  end.

(** What a run does to the outside; the trace lists these in order, each
    with the time on the clock when it started. *)
Inductive Event :=
| EvLoadBackoff
| EvSleep (us : Z)
| EvConnect
| EvListActivities
| EvGetActivity (id : Z)
| EvGetStreams (id : Z)
| EvUploadGpx (local_path remote_path : string)
| EvSaveSyncedIds (ids : gset string)
| EvSaveBackoff (until : Z)
| EvRemove (path : string).

Record World := {
  clock : Z;                            (* datetime.now(timezone.utc), in microseconds *)
  calls : nat;                          (* collaborator calls made so far *)
  local_files : gmap string string;     (* working directory *)
  remote_files : gmap string string;    (* uploaded track logs, by remote path *)
  remote_synced : option (gset string); (* synced_activities.json *)
  remote_backoff : option Z;            (* activity_sync_backoff.json *)
  synced_ids : gset string;             (* StravaNextcloudSync.synced_ids *)
  streams : StreamFlags;                (* strava2gpx.streams *)
  trace : list (Z * Event)
}.

(** The remote services: the [n]-th collaborator call of a run raises when
    [failure n] is a message; the rest is what the activity source answers. *)
Record Env := {
  failure : nat → option string;
  activities : list ActivitySummary;
  detail : Z → Activity;
  data_streams : Z → DataStreams
}.

Inductive Outcome (A : Type) :=
| Returns (a : A)
| Raises (e : PyExc)
| OutOfFuel.
Arguments Returns {A} _.
Arguments Raises {A} _.
Arguments OutOfFuel {A}.

Definition M (A : Type) : Type := World → Outcome A * World.

#[global] Instance M_ret : MRet M := λ A a w, (Returns a, w).
#[global] Instance M_bind : MBind M := λ A B f c w,
  match c w with
  | (Returns a, w') => f a w'
  | (Raises e, w') => (Raises e, w')
  | (OutOfFuel, w') => (OutOfFuel, w')
  end.

Definition raise {A} (e : PyExc) : M A := λ w, (Raises e, w).
Definition out_of_fuel {A} : M A := λ w, (OutOfFuel, w).

(** [try: body / except Exception as e: handler e] *)
Definition try_except {A} (body : M A) (handler : PyExc → M A) : M A := λ w,
  match body w with
  | (Raises e, w') => handler e w'
  | r => r
  end.

Definition get_world : M World := λ w, (Returns w, w).

Definition emit (e : Event) : M unit := λ w,
  (Returns tt,
   {| clock := clock w; calls := calls w; local_files := local_files w;
      remote_files := remote_files w; remote_synced := remote_synced w;
      remote_backoff := remote_backoff w; synced_ids := synced_ids w;
      streams := streams w; trace := trace w ++ [(clock w, e)] |}).

(** A call that leaves the process: it is counted, and fails when the
    environment says so. *)
Definition call (env : Env) : M unit := λ w,
  let w' :=
    {| clock := clock w; calls := S (calls w); local_files := local_files w;
       remote_files := remote_files w; remote_synced := remote_synced w;
       remote_backoff := remote_backoff w; synced_ids := synced_ids w;
       streams := streams w; trace := trace w |} in
  match failure env (calls w) with
  | Some msg => (Raises (ServiceError msg), w')
  | None => (Returns tt, w')
  end.

(** [await asyncio.sleep(seconds)], the duration given in microseconds; only
    sleeping moves the clock. *)
Definition sleep (us : Z) : M unit := λ w,
  (Returns tt,
   {| clock := clock w + Z.max 0 us; calls := calls w;
      local_files := local_files w; remote_files := remote_files w;
      remote_synced := remote_synced w; remote_backoff := remote_backoff w;
      synced_ids := synced_ids w; streams := streams w;
      trace := trace w ++ [(clock w, EvSleep us)] |}).

Definition set_local_files (f : gmap string string) : M unit := λ w,
  (Returns tt,
   {| clock := clock w; calls := calls w; local_files := f;
      remote_files := remote_files w; remote_synced := remote_synced w;
      remote_backoff := remote_backoff w; synced_ids := synced_ids w;
      streams := streams w; trace := trace w |}).

Definition set_remote_files (f : gmap string string) : M unit := λ w,
  (Returns tt,
   {| clock := clock w; calls := calls w; local_files := local_files w;
      remote_files := f; remote_synced := remote_synced w;
      remote_backoff := remote_backoff w; synced_ids := synced_ids w;
      streams := streams w; trace := trace w |}).

Definition set_remote_synced (s : option (gset string)) : M unit := λ w,
  (Returns tt,
   {| clock := clock w; calls := calls w; local_files := local_files w;
      remote_files := remote_files w; remote_synced := s;
      remote_backoff := remote_backoff w; synced_ids := synced_ids w;
      streams := streams w; trace := trace w |}).

Definition set_remote_backoff (b : option Z) : M unit := λ w,
  (Returns tt,
   {| clock := clock w; calls := calls w; local_files := local_files w;
      remote_files := remote_files w; remote_synced := remote_synced w;
      remote_backoff := b; synced_ids := synced_ids w;
      streams := streams w; trace := trace w |}).

Definition set_synced_ids (s : gset string) : M unit := λ w,
  (Returns tt,
   {| clock := clock w; calls := calls w; local_files := local_files w;
      remote_files := remote_files w; remote_synced := remote_synced w;
      remote_backoff := remote_backoff w; synced_ids := s;
      streams := streams w; trace := trace w |}).

Definition set_streams (fl : StreamFlags) : M unit := λ w,
  (Returns tt,
   {| clock := clock w; calls := calls w; local_files := local_files w;
      remote_files := remote_files w; remote_synced := remote_synced w;
      remote_backoff := remote_backoff w; synced_ids := synced_ids w;
      streams := fl; trace := trace w |}).

(** [open(path, "w").write(content)] *)
Definition write_file (path content : string) : M unit :=
  w ← get_world; set_local_files (<[path := content]> (local_files w)).

(** [open(path, "a").write(content)] *)
Definition append_file (path content : string) : M unit :=
  w ← get_world;
  set_local_files (<[path := default "" (local_files w !! path) +:+ content]> (local_files w)).

(** [os.path.exists(path)] *)
Definition path_exists (path : string) : M bool :=
  w ← get_world; mret (bool_decide (is_Some (local_files w !! path))).

(** [os.remove(path)] *)
Definition os_remove (path : string) : M unit :=
  emit (EvRemove path);;
  w ← get_world;
  match local_files w !! path with
  | Some _ => set_local_files (delete path (local_files w))
  | None => raise (FileNotFoundError path)
  end.

(** ** nextcloud_client.py *)

Definition BACKOFF_FILENAME : string := "activity_sync_backoff.json".

(** [NextcloudClient.load_synced_ids]: the stored set, or the empty set on
    any failure (a missing document included). *)
Definition load_synced_ids (env : Env) : M (gset string) :=
  try_except
    (call env;;
     w ← get_world;
     match remote_synced w with
     | Some ids => mret ids
     | None => raise (LookupError "synced_activities.json")
     end)
    (λ _, mret ∅).

(** [NextcloudClient.save_synced_ids]: a failed upload of the document is
    logged, not raised. *)
Definition save_synced_ids (env : Env) (ids : gset string) : M unit :=
  emit (EvSaveSyncedIds ids);;
  try_except
    (call env;; set_remote_synced (Some ids))
    (λ _, mret tt).

(** [NextcloudClient.save_backoff_until] *)
Definition save_backoff_until (env : Env) (dt_utc : Z) : M unit :=
  emit (EvSaveBackoff dt_utc);;
  try_except
    (call env;; set_remote_backoff (Some dt_utc))
    (λ _, mret tt).

(** [NextcloudClient.load_backoff_until]: the stored instant, or [None] on
    any failure (a missing document included). *)
Definition load_backoff_until (env : Env) : M (option Z) :=
  emit EvLoadBackoff;;
  try_except
    (call env;;
     w ← get_world;
     match remote_backoff w with
     | Some dt => mret (Some dt)
     | None => raise (LookupError BACKOFF_FILENAME)
     end)
    (λ _, mret None).

(** [NextcloudClient.upload_gpx]: [nc.upload_file] inside a [try] whose
    handler logs the error and returns. *)
Definition upload_gpx (env : Env) (target_folder local_path remote_filename : string)
  : M unit :=
  let remote_path := target_folder +:+ "/" +:+ remote_filename in
  emit (EvUploadGpx local_path remote_path);;
  try_except
    (w ← get_world;
     match local_files w !! local_path with
     | None => raise (FileNotFoundError local_path)
     | Some content =>
         call env;;
         set_remote_files (<[remote_path := content]> (remote_files w))
     end)
    (λ _, mret tt).

(** ** strava2gpx/client.py *)

(** [strava2gpx.connect] (a token refresh) *)
Definition connect (env : Env) : M unit :=
  emit EvConnect;; call env.

(** [strava2gpx.get_activities_list], all pages *)
Definition get_activities_list (env : Env) : M (list ActivitySummary) :=
  emit EvListActivities;; call env;; mret (activities env).

(** [strava2gpx.get_strava_activity] *)
Definition get_strava_activity (env : Env) (activity_id : Z) : M Activity :=
  emit (EvGetActivity activity_id);; call env;; mret (detail env activity_id).

(** [strava2gpx.get_data_stream] *)
Definition get_data_stream (env : Env) (activity_id : Z) : M DataStreams :=
  emit (EvGetStreams activity_id);; call env;; mret (data_streams env activity_id).

(** [strava2gpx.detect_activity_streams] *)
Definition detect_activity_streams (activity : Activity) : M unit :=
  set_streams
    {| fl_watts := default false (act_device_watts activity);
       fl_heartrate := act_has_heartrate activity;
       fl_cadence := act_average_cadence activity;
       fl_temp := act_average_temp activity |}.

(** [strava2gpx.add_seconds_to_timestamp]: [isoformat()] ends in [+00:00]
    exactly when the start carried the [Z] suffix, and that offset is then
    cut out again after the [Z] has been appended; [None] is an exception of
    [datetime]. *)
Definition add_seconds_to_timestamp (start_timestamp : string) (seconds : Z)
  : option string :=
  start_time ← Py.fromisoformat start_timestamp;
  iso ← Py.isoformat (start_time + seconds);
  Some (iso +:+ "Z").

Definition schema_location : string :=
  Py.join " "
    [ "http://www.topografix.com/GPX/1.1";
      "http://www.topografix.com/GPX/1.1/gpx.xsd";
      "http://www.garmin.com/xmlschemas/GpxExtensions/v3";
      "http://www.garmin.com/xmlschemas/GpxExtensionsv3.xsd";
      "http://www.garmin.com/xmlschemas/TrackPointExtension/v1";
      "http://www.garmin.com/xmlschemas/TrackPointExtensionv1.xsd" ]%string.

Definition nl : string := String (ascii_of_nat 10) EmptyString.
Definition dq : string := String (ascii_of_nat 34) EmptyString.

Definition gpx_header (activity : Activity) : string :=
  String.concat ""
    [ "<?xml version=" +:+ dq +:+ "1.0" +:+ dq +:+ " encoding=" +:+ dq +:+ "UTF-8" +:+ dq +:+ "?>" +:+ nl;
      "<gpx ";
      "xmlns:xsi=" +:+ dq +:+ "http://www.w3.org/2001/XMLSchema-instance" +:+ dq +:+ " ";
      "xsi:schemaLocation=" +:+ dq +:+ schema_location +:+ dq +:+ " ";
      "creator=" +:+ dq +:+ "StravaGPX" +:+ dq +:+ " version=" +:+ dq +:+ "1.1" +:+ dq +:+ " ";
      "xmlns=" +:+ dq +:+ "http://www.topografix.com/GPX/1.1" +:+ dq +:+ " ";
      "xmlns:gpxtpx=" +:+ dq +:+ "http://www.garmin.com/xmlschemas/TrackPointExtension/v1" +:+ dq +:+ " ";
      "xmlns:gpxx=" +:+ dq +:+ "http://www.garmin.com/xmlschemas/GpxExtensions/v3" +:+ dq +:+ ">" +:+ nl;
      "  <metadata>" +:+ nl;
      "    <time>" +:+ act_start_date activity +:+ "</time>" +:+ nl;
      "  </metadata>" +:+ nl;
      "  <trk>" +:+ nl;
      "    <name>" +:+ act_name activity +:+ "</name>" +:+ nl;
      "    <type>" +:+ act_type activity +:+ "</type>" +:+ nl;
      "    <desc>" +:+ act_sport_type activity +:+ "</desc>" +:+ nl;
      "    <link>https://www.strava.com/activities/" +:+ Py.str_int (act_id activity)
        +:+ "</link>" +:+ nl;
      "    <trkseg>" ]%string.

Definition gpx_footer : string :=
  "    </trkseg>" +:+ nl +:+ "  </trk>" +:+ nl +:+ "</gpx>".

(** [stream["data"][i]] for a stream that may be missing ([KeyError]) or too
    short ([IndexError]). *)
Definition sample {A} (s : option (Stream A)) (i : nat) : option A :=
  st ← s; data st !! i.

(** An optional extension line: read only when the stream is switched on. *)
Definition extension (flag : bool) (tag : string) (s : option (Stream Z)) (i : nat)
  : option (list string) :=
  if flag then
    v ← sample s i;
    Some ["      <gpxtpx:" +:+ tag +:+ ">" +:+ Py.str_int v +:+ "</gpxtpx:" +:+ tag +:+ ">"]
  else Some [].

(** The body of the loop of [write_to_gpx] for index [i]; [None] is an
    exception raised on the way. *)
Definition trkpt (activity : Activity) (fl : StreamFlags) (ds : DataStreams) (i : nat)
  : option string :=
  elapsed ← sample (ds_time ds) i;
  time ← add_seconds_to_timestamp (act_start_date activity) elapsed;
  ll ← sample (ds_latlng ds) i;
  ele ← sample (ds_altitude ds) i;
  temp ← extension (fl_temp fl) "atemp" (ds_temp ds) i;
  watts ← extension (fl_watts fl) "watts" (ds_watts ds) i;
  hr ← extension (fl_heartrate fl) "hr" (ds_heartrate ds) i;
  cad ← extension (fl_cadence fl) "cad" (ds_cadence ds) i;
  Some (Py.join nl
    ([ nl +:+ "   <trkpt lat=" +:+ dq +:+ Py.format_f 7 ll.1 +:+ dq
          +:+ " lon=" +:+ dq +:+ Py.format_f 7 ll.2 +:+ dq +:+ ">";
       "    <ele>" +:+ Py.format_f 1 ele +:+ "</ele>";
       "    <time>" +:+ time +:+ "</time>";
       "    <extensions>";
       "     <gpxtpx:TrackPointExtension>" ]%string
     ++ temp ++ watts ++ hr ++ cad
     ++ [ "     </gpxtpx:TrackPointExtension>"; "    </extensions>"; "   </trkpt>" ]%string)).

(** [for i in range(n): ... trkpts.append(...)] *)
Definition trkpts (activity : Activity) (fl : StreamFlags) (ds : DataStreams) (n : Z)
  : option (list string) :=
  mapM (trkpt activity fl ds) (seq 0 (Z.to_nat n)).

Definition lift_exc {A} (what : string) (o : option A) : M A :=
  match o with
  | Some a => mret a
  | None => raise (LookupError what)
  end.

(** [strava2gpx.write_to_gpx] *)
Definition write_to_gpx (env : Env) (activity_id : Z) (output : string) : M unit :=
  activity ← get_strava_activity env activity_id;
  let gpx_content := gpx_header activity +:+ gpx_footer in
  try_except
    (write_file (output +:+ ".gpx") gpx_content;;
     detect_activity_streams activity;;
     ds ← get_data_stream env activity_id;
     latlng ← lift_exc "latlng" (ds_latlng ds);
     time ← lift_exc "time" (ds_time ds);
     if negb (original_size latlng =? original_size time) then
       mret tt                                   (* print("Error: ..."); return *)
     else
       w ← get_world;
       pts ← lift_exc "trkpt" (trkpts activity (streams w) ds (original_size time));
       append_file (output +:+ ".gpx") (String.concat "" pts);;
       append_file (output +:+ ".gpx") gpx_footer)
    (λ _, mret tt).                              (* print("Error writing GPX file") *)

(** ** strava_client.py *)

(** [StravaClient.write_activity_to_gpx] *)
Definition write_activity_to_gpx (env : Env) (activity_id : Z) (output : string)
  : M unit :=
  write_to_gpx env activity_id output.

(** ** syncer.py *)

Definition RATE_LIMIT : nat := 100.
Definition DAILY_LIMIT : nat := 1000.
Definition SLEEP_SECONDS : Z := 15 * 60 * 1000000.
Definition DAY : Z := 86400 * 1000000.

(** The two locals [batch_count] and [daily_count]. *)
Record Counters := {
  batch_count : nat;
  daily_count : nat
}.

(** [[a for a in activities_list if str(a[1]) not in self.synced_ids]] *)
Fixpoint new_activities (activities_list : list ActivitySummary) (synced : gset string)
  : list ActivitySummary :=
  match activities_list with
  | [] => []
  | a :: rest =>
      if bool_decide (Py.str_int (sum_id a) ∈ synced)
      then new_activities rest synced
      else a :: new_activities rest synced
  end.

(** [f"{start_date[:10]}_{name.replace(" ", "_").replace("/", "-")}.gpx"] *)
Definition remote_filename (a : ActivitySummary) : string :=
  let activity_date := Py.slice_to 10 (sum_start_date a) in
  let safe_name := Py.replace_char "/" "-" (Py.replace_char " " "_" (sum_name a)) in
  activity_date +:+ "_" +:+ safe_name +:+ ".gpx".

(** [(now + timedelta(days=1)).replace(hour=0, minute=0, second=0,
    microsecond=0)] *)
Definition next_utc_day (now : Z) : Z := (now + DAY) / DAY * DAY.

(** ["429" in err_msg or "Rate Limit Exceeded" in err_msg] *)
Definition is_rate_limit (err_msg : string) : bool :=
  Py.contains "429" err_msg || Py.contains "Rate Limit Exceeded" err_msg.

(** The [try] suite of the retry loop, up to its [break]. *)
Definition upload_block (env : Env) (folder : string) (a : ActivitySummary)
    (c : Counters) : M Counters :=
  let activity_id := sum_id a in
  write_activity_to_gpx env activity_id "temp_gpx";;
  let by_id := "temp_gpx_" +:+ Py.str_int activity_id +:+ ".gpx" in
  found ← path_exists by_id;
  let gpx_filename := if (found : bool) then by_id else "temp_gpx.gpx"%string in
  upload_gpx env folder gpx_filename (remote_filename a);;
  w ← get_world;
  set_synced_ids ({[Py.str_int activity_id]} ∪ synced_ids w);;
  w ← get_world;
  save_synced_ids env (synced_ids w);;
  os_remove gpx_filename;;
  mret {| batch_count := S (batch_count c); daily_count := S (daily_count c) |}.

(** How one pass through the [while True] body ends. *)
Inductive LoopExit :=
| Break (c : Counters)
| Continue.

(** One pass: the [try] suite and its [except Exception] handler. *)
Definition attempt (env : Env) (folder : string) (a : ActivitySummary)
    (c : Counters) : M LoopExit :=
  try_except
    (c' ← upload_block env folder a c; mret (Break c'))
    (λ e,
       if is_rate_limit (exc_str e)
       then sleep SLEEP_SECONDS;; mret Continue
       else mret (Break c)).

(** [while True: ...] for one delta entry. *)
Fixpoint retry_loop (fuel : nat) (env : Env) (folder : string) (a : ActivitySummary)
    (c : Counters) : M Counters :=
  match fuel with
  | O => out_of_fuel
  | S fuel' =>
      r ← attempt env folder a c;
      match r with
      | Break c' => mret c'
      | Continue => retry_loop fuel' env folder a c
      end
  end.

(** The burst check at the top of an iteration. *)
Definition burst_check (c : Counters) : M Counters :=
  if bool_decide (RATE_LIMIT ≤ batch_count c)%nat then
    sleep SLEEP_SECONDS;;
    mret {| batch_count := 0; daily_count := daily_count c |}
  else mret c.

(** The daily-limit branch, which ends the run. *)
Definition daily_backoff (env : Env) : M unit :=
  w ← get_world;
  let now := clock w in
  let next := next_utc_day now in
  save_backoff_until env next;;
  sleep (next - now).

(** [for idx, (name, activity_id, start_date, activity_type) in
    enumerate(new_activities): ...], returning the final value of the two
    counters. *)
Fixpoint for_loop (fuel : nat) (env : Env) (folder : string)
    (delta : list ActivitySummary) (c : Counters) : M Counters :=
  match delta with
  | [] => mret c
  | a :: rest =>
      c1 ← burst_check c;
      if bool_decide (DAILY_LIMIT ≤ daily_count c1)%nat then
        daily_backoff env;; mret c1                                  (* return *)
      else
        c2 ← retry_loop fuel env folder a c1;
        for_loop fuel env folder rest c2
  end.

(** The persistent backoff check at the start of a run. *)
Definition backoff_check (env : Env) : M unit :=
  backoff_until ← load_backoff_until env;
  w ← get_world;
  let now := clock w in
  match backoff_until with
  | Some b => if bool_decide (now < b)%Z then sleep (b - now) else mret tt
  | None => mret tt
  end.

(** [StravaNextcloudSync.__init__]: the synced set is read once, when the
    object is built. *)
Definition init (env : Env) : M unit :=
  ids ← load_synced_ids env; set_synced_ids ids.

(** [StravaNextcloudSync.sync_activities]; the Python function returns
    [None], the result here is the final value of the two counters. *)
Definition sync_activities (fuel : nat) (env : Env) (config : SyncConfig)
  : M Counters :=
  if negb (strava_ready config) then
    raise (ValueError "Strava credentials not properly configured")
  else
    backoff_check env;;
    connect env;;
    activities_list ← get_activities_list env;
    w ← get_world;
    let delta := new_activities activities_list (synced_ids w) in
    for_loop fuel env (nextcloud_target_folder config) delta
      {| batch_count := 0; daily_count := 0 |}.

(** ** Vocabulary of the statements *)


(** The flags [detect_activity_streams] derives from an activity. *)
Definition flags_of (a : Activity) : StreamFlags :=
  {| fl_watts := default false (act_device_watts a);
     fl_heartrate := act_has_heartrate a;
     fl_cadence := act_average_cadence a;
     fl_temp := act_average_temp a |}.

(** What [write_to_gpx] leaves in [temp_gpx.gpx]. *)
Definition written (env : Env) (activity_id : Z) (w : World) : string :=
  default ""%string
    (local_files (write_to_gpx env activity_id "temp_gpx" w).2 !! "temp_gpx.gpx"%string).

(** The local file the orchestrator picks for an activity. *)
Definition gpx_filename (a : ActivitySummary) (w : World) : string :=
  let by_id := "temp_gpx_" +:+ Py.str_int (sum_id a) +:+ ".gpx" in
  if bool_decide (is_Some (local_files w !! by_id)) then by_id else "temp_gpx.gpx"%string.

Definition remote_path (folder : string) (a : ActivitySummary) : string :=
  folder +:+ "/" +:+ remote_filename a.

Definition bump (c : Counters) : Counters :=
  {| batch_count := S (batch_count c); daily_count := S (daily_count c) |}.

(** The world after a pass whose activity-detail request was answered: the
    pass runs to its [break], whatever the later requests do. *)
Definition completed (env : Env) (folder : string) (a : ActivitySummary) (w : World)
  : World :=
  let id := sum_id a in
  let file := gpx_filename a w in
  let fs := <["temp_gpx.gpx"%string := written env id w]> (local_files w) in
  let ids := {[Py.str_int id]} ∪ synced_ids w in
  {| clock := clock w;
     calls := S (S (S (S (calls w))));
     local_files := delete file fs;
     remote_files :=
       match failure env (S (S (calls w))) with
       | None => <[remote_path folder a := default ""%string (fs !! file)]> (remote_files w)
       | Some _ => remote_files w
       end;
     remote_synced :=
       match failure env (S (S (S (calls w)))) with
       | None => Some ids
       | Some _ => remote_synced w
       end;
     remote_backoff := remote_backoff w;
     synced_ids := ids;
     streams := flags_of (detail env id);
     trace := trace w ++
       [ (clock w, EvGetActivity id); (clock w, EvGetStreams id);
         (clock w, EvUploadGpx file (remote_path folder a));
         (clock w, EvSaveSyncedIds ids); (clock w, EvRemove file) ] |}.

(** The world after a pass whose activity-detail request failed. *)
Definition failed (a : ActivitySummary) (w : World) : World :=
  {| clock := clock w; calls := S (calls w); local_files := local_files w;
     remote_files := remote_files w; remote_synced := remote_synced w;
     remote_backoff := remote_backoff w; synced_ids := synced_ids w;
     streams := streams w;
     trace := trace w ++ [(clock w, EvGetActivity (sum_id a))] |}.

(** The same, followed by the fifteen minutes of the rate-limit handler. *)
Definition cooled (a : ActivitySummary) (w : World) : World :=
  {| clock := clock w + SLEEP_SECONDS; calls := S (calls w);
     local_files := local_files w; remote_files := remote_files w;
     remote_synced := remote_synced w; remote_backoff := remote_backoff w;
     synced_ids := synced_ids w; streams := streams w;
     trace := trace w ++
       [(clock w, EvGetActivity (sum_id a)); (clock w, EvSleep SLEEP_SECONDS)] |}.

Definition is_upload (e : Event) : bool :=
  match e with EvUploadGpx _ _ => true | _ => false end.
Definition is_sleep (e : Event) : bool :=
  match e with EvSleep _ => true | _ => false end.
Definition is_fetch (e : Event) : bool :=
  match e with EvGetActivity _ | EvGetStreams _ => true | _ => false end.

(** Number of events of a kind in a piece of trace. *)
Definition count (k : Event → bool) (evs : list (Z * Event)) : nat :=
  length (filter (λ te, k te.2 = true) evs).

(** [w'] is a later state of [w]: time, the call count, the synced set and
    the trace only grow, a stored backoff marker is never removed, and the
    new events are no backoff loads and carry times between the two clocks. *)
Definition extends (w w' : World) : Prop :=
  clock w ≤ clock w' ∧ (calls w ≤ calls w')%nat ∧ synced_ids w ⊆ synced_ids w' ∧
  (is_Some (remote_backoff w) → is_Some (remote_backoff w')) ∧
  ∃ evs, trace w' = trace w ++ evs ∧
         Forall (λ te, clock w ≤ te.1 ∧ te.1 ≤ clock w' ∧ te.2 ≠ EvLoadBackoff) evs.

(** The marker as [load_backoff_until] sees it from [w]. *)
Definition loaded_marker (env : Env) (w : World) : option Z :=
  match failure env (calls w) with
  | None => remote_backoff w
  | Some _ => None
  end.

(** No call of the run fails. *)
Definition no_errors (env : Env) : Prop := ∀ n, failure env n = None.

(** The world after [asyncio.sleep(us)]. *)
Definition slept (us : Z) (w : World) : World :=
  {| clock := clock w + Z.max 0 us; calls := calls w; local_files := local_files w;
     remote_files := remote_files w; remote_synced := remote_synced w;
     remote_backoff := remote_backoff w; synced_ids := synced_ids w;
     streams := streams w; trace := trace w ++ [(clock w, EvSleep us)] |}.

(** The world after the daily-limit branch. *)
Definition backed_off (env : Env) (w : World) : World :=
  let next := next_utc_day (clock w) in
  {| clock := next; calls := S (calls w); local_files := local_files w;
     remote_files := remote_files w; remote_synced := remote_synced w;
     remote_backoff :=
       match failure env (calls w) with
       | None => Some next
       | Some _ => remote_backoff w
       end;
     synced_ids := synced_ids w; streams := streams w;
     trace := trace w ++
       [(clock w, EvSaveBackoff next); (clock w, EvSleep (next - clock w))] |}.

(** The world after a run of passes that all complete. *)
Definition completed_all (env : Env) (folder : string) (l : list ActivitySummary)
    (w : World) : World :=
  foldl (λ w a, completed env folder a w) w l.

Definition bump_by (k : nat) (c : Counters) : Counters :=
  {| batch_count := k + batch_count c; daily_count := k + daily_count c |}.

(** The counters and the world at the daily check of an iteration. *)
Definition after_burst_check (c : Counters) (w : World) : Counters * World :=
  if bool_decide (RATE_LIMIT ≤ batch_count c)%nat
  then ({| batch_count := 0; daily_count := daily_count c |}, slept SLEEP_SECONDS w)
  else (c, w).

(** The new events of [w'] with respect to an earlier [w]. *)
Definition since (w w' : World) : list (Z * Event) :=
  drop (length (trace w)) (trace w').

(** The world after a collaborator call announced by event [e], whether it
    was answered or not. *)
Definition called (e : Event) (w : World) : World :=
  {| clock := clock w; calls := S (calls w); local_files := local_files w;
     remote_files := remote_files w; remote_synced := remote_synced w;
     remote_backoff := remote_backoff w; synced_ids := synced_ids w;
     streams := streams w; trace := trace w ++ [(clock w, e)] |}.

(** The instant at which a run that starts in [w] goes on to authenticate. *)
Definition wake_time (env : Env) (w : World) : Z :=
  match loaded_marker env w with
  | Some b => if bool_decide (clock w < b)%Z then b else clock w
  | None => clock w
  end.

(** The wait the persistent backoff check inserts, as a piece of trace. *)
Definition backoff_wait (env : Env) (w : World) : list (Z * Event) :=
  match loaded_marker env w with
  | Some b => if bool_decide (clock w < b)%Z then [(clock w, EvSleep (b - clock w))] else []
  | None => []
  end.

(** The world after the persistent backoff check. *)
Definition after_backoff_check (env : Env) (w : World) : World :=
  {| clock := wake_time env w; calls := S (calls w); local_files := local_files w;
     remote_files := remote_files w; remote_synced := remote_synced w;
     remote_backoff := remote_backoff w; synced_ids := synced_ids w;
     streams := streams w;
     trace := trace w ++ (clock w, EvLoadBackoff) :: backoff_wait env w |}.

(** *** A small scenario, for concrete runs *)

Definition demo_config : SyncConfig :=
  {| strava_client_id := Some "12345"%string;
     strava_refresh_token := Some "refresh"%string;
     strava_client_secret := Some "secret"%string;
     nextcloud_url := Some "https://cloud.example"%string;
     nextcloud_username := Some "user"%string;
     nextcloud_password := Some "password"%string;
     nextcloud_target_folder := "/GPX/Strava";
     sync_interval_seconds := 600 |}.

(** 2024-03-01T10:00:00Z, nothing stored anywhere. *)
Definition demo_world : World :=
  {| clock := 1709287200000000; calls := 0; local_files := ∅; remote_files := ∅;
     remote_synced := None; remote_backoff := None; synced_ids := ∅;
     streams := {| fl_heartrate := false; fl_cadence := false;
                   fl_watts := false; fl_temp := false |};
     trace := [] |}.

Definition demo_summary (id : Z) : ActivitySummary :=
  {| sum_name := "Morning Run/2"; sum_id := id;
     sum_start_date := "2024-03-01T10:00:00Z"; sum_type := "Run" |}.

Definition demo_activity (id : Z) : Activity :=
  {| act_name := "Morning Run/2"; act_id := id;
     act_start_date := "2024-03-01T10:00:00Z"; act_type := "Run";
     act_sport_type := "Run"; act_device_watts := None;
     act_has_heartrate := true; act_average_cadence := false;
     act_average_temp := false |}.

(** Two samples, five seconds apart, with heart rate. *)
Definition latlng2 : Stream (Q * Q) :=
  {| original_size := 2;
     data := [((105 # 2)%Q, (4 # 1)%Q); ((211 # 4)%Q, (33 # 8)%Q)] |}.

Definition time2 : Stream Z := {| original_size := 2; data := [0; 5] |}.

Definition demo_streams : DataStreams :=
  {| ds_time := Some time2;
     ds_latlng := Some latlng2;
     ds_altitude := Some {| original_size := 2; data := [(10 # 1)%Q; (21 # 2)%Q] |};
     ds_temp := None; ds_watts := None;
     ds_heartrate := Some {| original_size := 2; data := [120; 121] |};
     ds_cadence := None |}.

(** A position stream of size 10 against a time stream of size 12. *)
Definition latlng10 : Stream (Q * Q) :=
  {| original_size := 10; data := replicate 10 ((105 # 2)%Q, (4 # 1)%Q) |}.

Definition time12 : Stream Z :=
  {| original_size := 12; data := map Z.of_nat (seq 0 12) |}.

Definition mismatched_streams : DataStreams :=
  {| ds_time := Some time12;
     ds_latlng := Some latlng10;
     ds_altitude := Some {| original_size := 10; data := replicate 10 (10 # 1)%Q |};
     ds_temp := None; ds_watts := None; ds_heartrate := None; ds_cadence := None |}.

(** One pending activity, number 7, and one failing call.  From
    [demo_world] the calls of a run are numbered 0 (backoff document),
    1 (token), 2 (listing), 3 (detail), 4 (streams), 5 (track-log upload),
    6 (synced document); those of the loop alone 0 (detail), 1 (streams),
    2 (track-log upload), 3 (synced document). *)
Definition demo_env (ds : DataStreams) (failing : nat) (msg : string) : Env :=
  {| failure := λ n, if Nat.eqb n failing then Some msg else None;
     activities := [demo_summary 7];
     detail := demo_activity;
     data_streams := λ _, ds |}.

(** An environment in which every call is answered. *)
Definition calm_env (l : list ActivitySummary) (ds : DataStreams) : Env :=
  {| failure := λ _, None;
     activities := l;
     detail := demo_activity;
     data_streams := λ _, ds |}.

(** The track points [write_to_gpx] builds for activity 7 of the scenario. *)
Definition demo_points : list string :=
  default [] (trkpts (demo_activity 7) (flags_of (demo_activity 7)) demo_streams 2).

(** The scenario one hour before a stored backoff marker. *)
Definition waiting_world : World :=
  {| clock := 1709287200000000; calls := 0; local_files := ∅; remote_files := ∅;
     remote_synced := None; remote_backoff := Some 1709290800000000;
     synced_ids := ∅;
     streams := {| fl_heartrate := false; fl_cadence := false;
                   fl_watts := false; fl_temp := false |};
     trace := [] |}.

(** The first hundred and one activities of a long listing. *)
Definition hundred : list ActivitySummary :=
  map (λ n, demo_summary (Z.of_nat n)) (seq 1 100).

(** Both counters at zero, as at the start of the loop. *)
Definition zero : Counters := {| batch_count := 0; daily_count := 0 |}.

(** The counters after a thousand completed entries. *)
Definition spent : Counters := {| batch_count := 100; daily_count := 1000 |}.



(** ** Further vocabulary: the orchestrator *)

(** [get_strava_activity] asks for this URL. *)
Definition detail_url (activity_id : Z) : string :=
  "https://www.strava.com/api/v3/activities/" +:+ Py.str_int activity_id
    +:+ "?include_all_efforts=false".

(** The world after [k] passes that each ended in the rate-limit wait. *)
Definition cooled_times (a : ActivitySummary) (k : nat) (w : World) : World :=
  Nat.iter k (cooled a) w.

(** The identifiers, as stored, of a list of activities. *)
Definition ids_of (l : list ActivitySummary) : gset string :=
  list_to_set (map (λ a, Py.str_int (sum_id a)) l).

(** [name.replace(" ", "_").replace("/", "-")] *)
Definition safe_name (name : string) : string :=
  Py.replace_char "/" "-" (Py.replace_char " " "_" name).

(** The name the orchestrator looks for first. *)
Definition by_id_file (a : ActivitySummary) : string :=
  "temp_gpx_" +:+ Py.str_int (sum_id a) +:+ ".gpx".

(** The events of the per-activity block. *)
Definition is_work (e : Event) : bool :=
  match e with
  | EvGetActivity _ | EvGetStreams _ | EvUploadGpx _ _ | EvSaveSyncedIds _
  | EvRemove _ => true
  | _ => false
  end.

(** ** More of strava2gpx/client.py *)

(** [strava2gpx.streams] as the dictionary it is, in insertion order;
    [latlng] and [altitude] are set to [1] once and for all. *)
Definition streams_dict (fl : StreamFlags) : list (string * Z) :=
  [ ("latlng", 1); ("altitude", 1);
    ("heartrate", if fl_heartrate fl then 1 else 0);
    ("cadence", if fl_cadence fl then 1 else 0);
    ("watts", if fl_watts fl then 1 else 0);
    ("temp", if fl_temp fl then 1 else 0) ]%string.

(** The [keys] of [get_data_stream]: [query_params = "time"], then
    [query_params += f",{key}"] for every item whose value is [1]. *)
Definition query_params (fl : StreamFlags) : string :=
  fold_left (λ q kv, if kv.2 =? 1 then q +:+ "," +:+ kv.1 else q)
    (streams_dict fl) "time"%string.

(** The URL [get_data_stream] asks for. *)
Definition streams_url (activity_id : Z) (fl : StreamFlags) : string :=
  "https://www.strava.com/api/v3/activities/" +:+ Py.str_int activity_id +:+ "/streams"
    +:+ "?keys=" +:+ query_params fl +:+ "&key_by_type=true".

(** Two stream answers that agree on every stream asked for under [fl]. *)
Definition same_requested (fl : StreamFlags) (ds ds' : DataStreams) : Prop :=
  ds_time ds = ds_time ds' ∧ ds_latlng ds = ds_latlng ds'
  ∧ ds_altitude ds = ds_altitude ds'
  ∧ (fl_heartrate fl = true → ds_heartrate ds = ds_heartrate ds')
  ∧ (fl_cadence fl = true → ds_cadence ds = ds_cadence ds')
  ∧ (fl_watts fl = true → ds_watts ds = ds_watts ds')
  ∧ (fl_temp fl = true → ds_temp ds = ds_temp ds').

(** The track points [write_to_gpx] gets to append for an activity, when it
    gets that far: the streams request answered, both streams there and of
    one size, every sample encoded. *)
Definition encoded (env : Env) (activity_id : Z) (w : World) : option (list string) :=
  match failure env (S (calls w)) with
  | Some _ => None
  | None =>
      let ds := data_streams env activity_id in
      ll ← ds_latlng ds;
      tm ← ds_time ds;
      if original_size ll =? original_size tm
      then trkpts (detail env activity_id) (flags_of (detail env activity_id)) ds
             (original_size tm)
      else None
  end.

(** *** The listing, page by page *)

(** [strava2gpx.get_strava_activities]: one page of the listing, already
    reduced to the four fields [get_activities_list] keeps of each
    activity. *)
Definition get_strava_activities (env : Env) (pages : Z → list ActivitySummary)
    (page : Z) : M (list ActivitySummary) :=
  emit EvListActivities;; call env;; mret (pages page).

(** [while len(activities) != 0: page += 1; ...; masterlist.extend(...)] *)
Fixpoint next_pages (fuel : nat) (env : Env) (pages : Z → list ActivitySummary)
    (page : Z) (activities masterlist : list ActivitySummary)
  : M (list ActivitySummary) :=
  match fuel with
  | O => out_of_fuel
  | S fuel' =>
      if bool_decide (length activities ≠ 0%nat) then
        activities' ← get_strava_activities env pages (page + 1);
        next_pages fuel' env pages (page + 1) activities' (masterlist ++ activities')
      else mret masterlist
  end.

(** [strava2gpx.get_activities_list], with its pages. *)
Definition get_activities_list_paged (fuel : nat) (env : Env)
    (pages : Z → list ActivitySummary) : M (list ActivitySummary) :=
  activities ← get_strava_activities env pages 1;
  next_pages fuel env pages 1 activities activities.

(** Pages [1] to [k], one after the other. *)
Definition pages_up_to (pages : Z → list ActivitySummary) (k : nat)
  : list ActivitySummary :=
  concat (map (λ i, pages (Z.of_nat i)) (seq 1 k)).

(** The world after [k] more listing requests. *)
Definition listed_times (k : nat) (w : World) : World :=
  Nat.iter k (called EvListActivities) w.

(** *** The request executor *)

(** The [X-RateLimit-Reset] header of a response: missing or empty, not a
    number ([int] raises), or a number of seconds. *)
Inductive ResetHeader :=
| NoReset
| BadReset (value : string)
| ResetAt (t : Z).

(** A response, as far as [_make_request] looks at it; [error_text] is what
    follows the status code in the text of the error [raise_for_status]
    raises for it. *)
Record Response (A : Type) := {
  status : Z;
  reset : ResetHeader;
  error_text : string;
  body : A
}.
Arguments status {A} _.
Arguments reset {A} _.
Arguments error_text {A} _.
Arguments body {A} _.

Definition SECOND : Z := 1000000.

(** [session.request(method, url, **kwargs)]: the answers come in the order
    of the requests. *)
Definition request {A} (http : nat → Response A) : M (Response A) := λ w,
  (Returns (http (calls w)),
   {| clock := clock w; calls := S (calls w); local_files := local_files w;
      remote_files := remote_files w; remote_synced := remote_synced w;
      remote_backoff := remote_backoff w; synced_ids := synced_ids w;
      streams := streams w; trace := trace w |}).

(** [datetime.utcnow().timestamp()]: the UTC wall clock read as local time,
    so off by the offset of the local zone. *)
Definition utcnow_timestamp (utc_offset : Z) (w : World) : Z := clock w - utc_offset.

(** [strava2gpx._handle_rate_limit] *)
Definition handle_rate_limit {A} (utc_offset : Z) (response : Response A) : M bool :=
  if status response =? 429 then
    match reset response with
    | NoReset => mret false
    | BadReset value =>
        raise (ValueError ("invalid literal for int() with base 10: '" +:+ value +:+ "'"))
    | ResetAt reset_timestamp =>
        w ← get_world;
        let now := utcnow_timestamp utc_offset w in
        let wait_seconds := Z.max 0 (reset_timestamp * SECOND - now) + 10 * SECOND in
        sleep wait_seconds;; mret true
    end
  else mret false.

(** The error of [response.raise_for_status()]. *)
Definition http_error {A} (response : Response A) : PyExc :=
  ServiceError (Py.str_int (status response) +:+ error_text response).

(** [response.raise_for_status()] *)
Definition raise_for_status {A} (response : Response A) : M unit :=
  if 400 <=? status response then raise (http_error response) else mret tt.

(** [strava2gpx._make_request] *)
Fixpoint make_request {A} (fuel : nat) (utc_offset : Z) (http : nat → Response A)
  : M A :=
  match fuel with
  | O => out_of_fuel
  | S fuel' =>
      response ← request http;
      if status response =? 200 then mret (body response)
      else
        handled ← handle_rate_limit utc_offset response;
        if (handled : bool) then make_request fuel' utc_offset http
        else raise_for_status response;; make_request fuel' utc_offset http
  end.

(** The world after [k] requests answered without a wait. *)
Definition requested_times (k : nat) (w : World) : World :=
  {| clock := clock w; calls := (k + calls w)%nat; local_files := local_files w;
     remote_files := remote_files w; remote_synced := remote_synced w;
     remote_backoff := remote_backoff w; synced_ids := synced_ids w;
     streams := streams w; trace := trace w |}.

(** ** activity_sync_service.py *)

(** [for _ in range(n): if not RUNNING: break; await asyncio.sleep(1)];
    [running] is the value of the flag, which a signal handler clears, at
    each instant. *)
Fixpoint wait_running (running : Z → bool) (n : nat) : M unit :=
  match n with
  | O => mret tt
  | S n' =>
      w ← get_world;
      if running (clock w) then sleep SECOND;; wait_running running n'
      else mret tt
  end.

(** The loop of [main]: a fresh orchestrator and a run per cycle, the
    interval after a run that returns, the backoff after one that raises. *)
Fixpoint service_loop (cycles fuel : nat) (env : Env) (config : SyncConfig)
    (running : Z → bool) (sleep_interval backoff : Z) : M unit :=
  match cycles with
  | O => out_of_fuel
  | S cycles' =>
      w ← get_world;
      if running (clock w) then
        backoff' ← try_except
          (init env;;
           sync_activities fuel env config;;
           wait_running running (Z.to_nat sleep_interval);;
           mret 900)
          (λ _,
             wait_running running (Z.to_nat backoff);;
             mret (Z.min (backoff * 2) 3600));
        service_loop cycles' fuel env config running sleep_interval backoff'
      else mret tt
  end.

(** [main]: the backoff starts at fifteen minutes. *)
Definition service_main (cycles fuel : nat) (env : Env) (config : SyncConfig)
    (running : Z → bool) (sleep_interval : Z) : M unit :=
  service_loop cycles fuel env config running sleep_interval 900.

(** The world after [k] sleeps of one second. *)
Definition waited (k : nat) (w : World) : World := Nat.iter k (slept SECOND) w.

(** *** More of the scenario *)

(** The scenario with activity 7 already synced. *)
Definition synced_world : World :=
  {| clock := 1709287200000000; calls := 0; local_files := ∅; remote_files := ∅;
     remote_synced := Some {["7"%string]}; remote_backoff := None;
     synced_ids := {["7"%string]};
     streams := {| fl_heartrate := false; fl_cadence := false;
                   fl_watts := false; fl_temp := false |};
     trace := [] |}.

(** The scenario with two identifiers in the stored document and none in
    memory. *)
Definition stored_world : World :=
  {| clock := 1709287200000000; calls := 0; local_files := ∅; remote_files := ∅;
     remote_synced := Some {["1"%string; "2"%string]}; remote_backoff := None;
     synced_ids := ∅;
     streams := {| fl_heartrate := false; fl_cadence := false;
                   fl_watts := false; fl_temp := false |};
     trace := [] |}.

(** The scenario with a stale [temp_gpx_7.gpx] in the working directory. *)
Definition stale_world : World :=
  {| clock := 1709287200000000; calls := 0;
     local_files := {["temp_gpx_7.gpx"%string := "stale"%string]}; remote_files := ∅;
     remote_synced := None; remote_backoff := None; synced_ids := ∅;
     streams := {| fl_heartrate := false; fl_cadence := false;
                   fl_watts := false; fl_temp := false |};
     trace := [] |}.

(** A configuration without the client secret. *)
Definition bare_config : SyncConfig :=
  {| strava_client_id := Some "12345"%string;
     strava_refresh_token := Some "refresh"%string;
     strava_client_secret := None;
     nextcloud_url := Some "https://cloud.example"%string;
     nextcloud_username := Some "user"%string;
     nextcloud_password := Some "password"%string;
     nextcloud_target_folder := "/GPX/Strava";
     sync_interval_seconds := 600 |}.

(** The first [k] calls are refused with a 429, the later ones answered. *)
Definition throttled_env (k : nat) : Env :=
  {| failure := λ n, if (n <? k)%nat then Some "429 Too Many Requests"%string else None;
     activities := [demo_summary 7];
     detail := demo_activity;
     data_streams := λ _, demo_streams |}.

(** Every call is refused with a 429. *)
Definition jammed_env : Env :=
  {| failure := λ _, Some "429 Too Many Requests"%string;
     activities := [demo_summary 7];
     detail := demo_activity;
     data_streams := λ _, demo_streams |}.

(** The streams of the scenario with a temperature stream added. *)
Definition demo_streams_with_temp : DataStreams :=
  {| ds_time := Some time2;
     ds_latlng := Some latlng2;
     ds_altitude := Some {| original_size := 2; data := [(10 # 1)%Q; (21 # 2)%Q] |};
     ds_temp := Some {| original_size := 2; data := [18; 19] |}; ds_watts := None;
     ds_heartrate := Some {| original_size := 2; data := [120; 121] |};
     ds_cadence := None |}.

(** A listing of two pages: activities 7 and 8, then 9. *)
Definition demo_pages (page : Z) : list ActivitySummary :=
  if page =? 1 then [demo_summary 7; demo_summary 8]
  else if page =? 2 then [demo_summary 9]
  else [].

(** A 429 that names the reset time 2024-03-01T10:15:00Z, then a 200. *)
Definition demo_http (n : nat) : Response string :=
  match n with
  | O => {| status := 429; reset := ResetAt 1709288100;
            error_text := ", message='Too Many Requests'"; body := "" |}
  | _ => {| status := 200; reset := NoReset; error_text := ""; body := "[]" |}
  end.

(** A 429 without a reset time. *)
Definition bare_429 (n : nat) : Response string :=
  {| status := 429; reset := NoReset;
     error_text := ", message='Too Many Requests'"; body := "" |}.

(** Nothing but 204. *)
Definition only_204 (n : nat) : Response string :=
  {| status := 204; reset := NoReset; error_text := ""; body := "" |}.

(** ** Symbolic execution *)

Ltac run :=
  repeat (progress (unfold mbind, mret, M_bind, M_ret, try_except, raise, out_of_fuel,
            get_world, emit, call, sleep,
            set_local_files, set_remote_files, set_remote_synced, set_remote_backoff,
            set_synced_ids, set_streams, write_file, append_file, path_exists,
            os_remove, lift_exc; simpl)).

(** ** The encoder, seen from the orchestrator *)

Lemma write_to_gpx_fail env id out w msg :
  failure env (calls w) = Some msg →
  write_to_gpx env id out w =
    (Raises (ServiceError msg),
     {| clock := clock w; calls := S (calls w); local_files := local_files w;
        remote_files := remote_files w; remote_synced := remote_synced w;
        remote_backoff := remote_backoff w; synced_ids := synced_ids w;
        streams := streams w; trace := trace w ++ [(clock w, EvGetActivity id)] |}).
Proof.
  intros H. unfold write_to_gpx, get_strava_activity. run. rewrite H. reflexivity.
Qed.

Lemma write_to_gpx_returns env id out w :
  failure env (calls w) = None →
  ∃ content,
  write_to_gpx env id out w =
    (Returns tt,
     {| clock := clock w; calls := S (S (calls w));
        local_files := <[out +:+ ".gpx" := content]> (local_files w);
        remote_files := remote_files w; remote_synced := remote_synced w;
        remote_backoff := remote_backoff w; synced_ids := synced_ids w;
        streams := flags_of (detail env id);
        trace := trace w ++ [(clock w, EvGetActivity id); (clock w, EvGetStreams id)] |}).
Proof.
  intros H. unfold write_to_gpx, get_strava_activity, get_data_stream, detect_activity_streams.
  run. rewrite H. simpl. rewrite <- app_assoc. simpl.
  destruct (failure env (S (calls w))) as [m|]; simpl; [eauto|].
  destruct (ds_latlng _) as [ll|]; simpl; [|eauto].
  destruct (ds_time _) as [tm|]; simpl; [|eauto].
  destruct (original_size ll =? original_size tm); simpl; [|eauto].
  destruct (trkpts _ _ _ _) as [pts|]; simpl; [|eauto].
  rewrite !lookup_insert_eq. simpl. rewrite !insert_insert_eq. eauto.
Qed.

Lemma write_to_gpx_written env id w :
  failure env (calls w) = None →
  write_to_gpx env id "temp_gpx" w =
    (Returns tt,
     {| clock := clock w; calls := S (S (calls w));
        local_files := <["temp_gpx.gpx"%string := written env id w]> (local_files w);
        remote_files := remote_files w; remote_synced := remote_synced w;
        remote_backoff := remote_backoff w; synced_ids := synced_ids w;
        streams := flags_of (detail env id);
        trace := trace w ++ [(clock w, EvGetActivity id); (clock w, EvGetStreams id)] |}).
Proof.
  intros H. destruct (write_to_gpx_returns env id "temp_gpx" w H) as [content Hc].
  unfold written. rewrite Hc. simpl. by rewrite lookup_insert_eq.
Qed.

Lemma lookup_by_id (fs : gmap string string) content s :
  <["temp_gpx.gpx"%string := content]> fs !! ("temp_gpx_" +:+ s) = fs !! ("temp_gpx_" +:+ s).
Proof. apply lookup_insert_ne. simpl. discriminate. Qed.

(** ** One pass through the retry loop *)

Lemma attempt_completes env folder a c w :
  failure env (calls w) = None →
  attempt env folder a c w = (Returns (Break (bump c)), completed env folder a w).
Proof.
  intros H. unfold attempt, upload_block, write_activity_to_gpx.
  unfold try_except at 1. unfold mbind at 1. unfold M_bind at 1. unfold mbind at 1. unfold M_bind at 1.
  rewrite (write_to_gpx_written env (sum_id a) w H).
  unfold upload_gpx, save_synced_ids, completed, gpx_filename, remote_path, bump. run.
  rewrite !lookup_by_id.
  destruct (local_files w !! _) as [old|] eqn:Hold; simpl.
  - rewrite ?lookup_by_id, ?Hold. simpl.
    destruct (failure env (S (S (calls w)))); simpl;
      destruct (failure env (S (S (S (calls w))))); simpl;
      rewrite ?lookup_by_id, ?Hold; simpl; rewrite <- !app_assoc; reflexivity.
  - rewrite ?lookup_insert_eq. simpl.
    destruct (failure env (S (S (calls w)))); simpl;
      destruct (failure env (S (S (S (calls w))))); simpl;
      rewrite lookup_insert_eq; simpl; rewrite <- !app_assoc; reflexivity.
Qed.

Lemma attempt_rate_limited env folder a c w msg :
  failure env (calls w) = Some msg → is_rate_limit msg = true →
  attempt env folder a c w = (Returns Continue, cooled a w).
Proof.
  intros H Hr. unfold attempt, upload_block, write_activity_to_gpx.
  unfold try_except at 1. unfold mbind at 1. unfold M_bind at 1. unfold mbind at 1. unfold M_bind at 1.
  rewrite (write_to_gpx_fail env (sum_id a) _ w msg H). simpl. rewrite Hr.
  unfold cooled. run. rewrite <- app_assoc. reflexivity.
Qed.

Lemma attempt_abandons env folder a c w msg :
  failure env (calls w) = Some msg → is_rate_limit msg = false →
  attempt env folder a c w = (Returns (Break c), failed a w).
Proof.
  intros H Hr. unfold attempt, upload_block, write_activity_to_gpx.
  unfold try_except at 1. unfold mbind at 1. unfold M_bind at 1. unfold mbind at 1. unfold M_bind at 1.
  rewrite (write_to_gpx_fail env (sum_id a) _ w msg H). simpl. rewrite Hr.
  reflexivity.
Qed.

Lemma retry_loop_S fuel env folder a c w :
  retry_loop (S fuel) env folder a c w =
    match failure env (calls w) with
    | None => (Returns (bump c), completed env folder a w)
    | Some msg =>
        if is_rate_limit msg
        then retry_loop fuel env folder a c (cooled a w)
        else (Returns c, failed a w)
    end.
Proof.
  cbn [retry_loop]. unfold mbind at 1, M_bind at 1.
  destruct (failure env (calls w)) as [msg|] eqn:H.
  - destruct (is_rate_limit msg) eqn:Hr.
    + by rewrite (attempt_rate_limited _ _ _ _ _ _ H Hr).
    + by rewrite (attempt_abandons _ _ _ _ _ _ H Hr).
  - by rewrite (attempt_completes _ _ _ _ _ H).
Qed.

(** ** The two checks at the top of an iteration *)

Lemma burst_check_eq c w :
  burst_check c w = (Returns (after_burst_check c w).1, (after_burst_check c w).2).
Proof.
  unfold burst_check, after_burst_check. case_bool_decide; reflexivity.
Qed.

Lemma daily_backoff_eq env w : daily_backoff env w = (Returns tt, backed_off env w).
Proof.
  unfold daily_backoff, save_backoff_until, backed_off. run.
  assert (Hc : clock w + Z.max 0 (next_utc_day (clock w) - clock w) = next_utc_day (clock w)).
  { unfold next_utc_day, DAY.
    pose proof (Z.mod_pos_bound (clock w + 86400 * 1000000) (86400 * 1000000) ltac:(lia)).
    pose proof (Z.div_mod (clock w + 86400 * 1000000) (86400 * 1000000) ltac:(lia)). lia. }
  destruct (failure env (calls w)); simpl; rewrite Hc, <- app_assoc; reflexivity.
Qed.

Lemma for_loop_cons fuel env folder a rest c w :
  for_loop fuel env folder (a :: rest) c w =
    let c1 := (after_burst_check c w).1 in
    let w1 := (after_burst_check c w).2 in
    if bool_decide (DAILY_LIMIT ≤ daily_count c1)%nat
    then (Returns c1, backed_off env w1)
    else (retry_loop fuel env folder a c1 ≫= for_loop fuel env folder rest) w1.
Proof.
  cbn [for_loop]. unfold mbind at 1, M_bind at 1. rewrite burst_check_eq.
  case_bool_decide; [|reflexivity].
  unfold mbind, M_bind. rewrite daily_backoff_eq. reflexivity.
Qed.

Lemma next_utc_day_spec now :
  now < next_utc_day now ∧ next_utc_day now ≤ now + DAY ∧ next_utc_day now mod DAY = 0.
Proof.
  unfold next_utc_day, DAY.
  pose proof (Z.mod_pos_bound (now + 86400 * 1000000) (86400 * 1000000) ltac:(lia)).
  pose proof (Z.div_mod (now + 86400 * 1000000) (86400 * 1000000) ltac:(lia)).
  split; [lia|]. split; [lia|]. apply Z.mod_mul. lia.
Qed.

(** ** Later worlds *)

Lemma extends_refl w : extends w w.
Proof.
  unfold extends. repeat split; try done. exists []. by rewrite app_nil_r.
Qed.

Lemma extends_trans w1 w2 w3 : extends w1 w2 → extends w2 w3 → extends w1 w3.
Proof.
  intros (Hc1 & Hn1 & Hs1 & Hb1 & evs1 & Ht1 & Hf1) (Hc2 & Hn2 & Hs2 & Hb2 & evs2 & Ht2 & Hf2).
  unfold extends. repeat split; [lia | lia | set_solver | auto |].
  exists (evs1 ++ evs2). split; [by rewrite Ht2, Ht1, app_assoc|].
  apply Forall_app. split.
  - eapply Forall_impl; [exact Hf1|]. simpl. intros te (? & ? & ?). repeat split; [lia | lia | done].
  - eapply Forall_impl; [exact Hf2|]. simpl. intros te (? & ? & ?). repeat split; [lia | lia | done].
Qed.

Ltac extends_now :=
  unfold extends; simpl; unfold SLEEP_SECONDS;
  split; [lia|]; split; [lia|]; split; [set_solver|]; split; [done|];
  eexists; split; [reflexivity|];
  repeat (apply Forall_cons_2; [simpl; repeat split; (lia || done)|]); apply Forall_nil_2.

Lemma extends_slept us w : extends w (slept us w).
Proof. extends_now. Qed.

Lemma extends_cooled a w : extends w (cooled a w).
Proof. extends_now. Qed.

Lemma extends_failed a w : extends w (failed a w).
Proof. extends_now. Qed.

Lemma extends_completed env folder a w : extends w (completed env folder a w).
Proof. extends_now. Qed.

Lemma extends_backed_off env w : extends w (backed_off env w).
Proof.
  pose proof (next_utc_day_spec (clock w)) as (? & ? & ?).
  unfold extends; simpl.
  split; [lia|]; split; [lia|]; split; [set_solver|]; split.
  - destruct (failure env (calls w)); eauto.
  - eexists; split; [reflexivity|].
    repeat (apply Forall_cons_2; [simpl; repeat split; (lia || done)|]); apply Forall_nil_2.
Qed.

Lemma extends_after_burst_check c w : extends w (after_burst_check c w).2.
Proof.
  unfold after_burst_check. case_bool_decide; simpl; [apply extends_slept | apply extends_refl].
Qed.

Lemma retry_loop_extends fuel env folder a c w :
  extends w (retry_loop fuel env folder a c w).2.
Proof.
  revert w. induction fuel as [|fuel IH]; intros w; [apply extends_refl|].
  rewrite retry_loop_S. destruct (failure env (calls w)) as [msg|].
  - destruct (is_rate_limit msg).
    + eapply extends_trans; [apply extends_cooled | apply IH].
    + apply extends_failed.
  - apply extends_completed.
Qed.

Lemma retry_loop_never_raises fuel env folder a c w e :
  (retry_loop fuel env folder a c w).1 ≠ Raises e.
Proof.
  revert w. induction fuel as [|fuel IH]; intros w; [done|].
  rewrite retry_loop_S. destruct (failure env (calls w)) as [msg|]; [|done].
  destruct (is_rate_limit msg); [apply IH | done].
Qed.

Lemma for_loop_extends fuel env folder delta c w :
  extends w (for_loop fuel env folder delta c w).2.
Proof.
  revert c w. induction delta as [|a rest IH]; intros c w; [apply extends_refl|].
  rewrite for_loop_cons. simpl.
  pose proof (extends_after_burst_check c w) as Hb.
  destruct (after_burst_check c w) as [c1 w1]; simpl in *.
  case_bool_decide; simpl.
  - eapply extends_trans; [exact Hb | apply extends_backed_off].
  - unfold mbind, M_bind.
    pose proof (retry_loop_extends fuel env folder a c1 w1) as Hr.
    destruct (retry_loop fuel env folder a c1 w1) as [[c2| |] w2]; simpl in *.
    + eapply extends_trans; [exact Hb|]. eapply extends_trans; [exact Hr | apply IH].
    + eapply extends_trans; eauto.
    + eapply extends_trans; eauto.
Qed.

Lemma for_loop_never_raises fuel env folder delta c w e :
  (for_loop fuel env folder delta c w).1 ≠ Raises e.
Proof.
  revert c w. induction delta as [|a rest IH]; intros c w; [done|].
  rewrite for_loop_cons. simpl. case_bool_decide; [done|].
  unfold mbind, M_bind.
  pose proof (retry_loop_never_raises fuel env folder a
                (after_burst_check c w).1 (after_burst_check c w).2 e) as Hr.
  destruct (retry_loop fuel env folder a _ _) as [[c2| |] w2]; simpl in *; [apply IH | done | done].
Qed.

(** ** The run up to the loop *)

Lemma backoff_check_eq env w :
  backoff_check env w = (Returns tt, after_backoff_check env w).
Proof.
  unfold backoff_check, load_backoff_until, after_backoff_check, wake_time, backoff_wait,
    loaded_marker.
  run.
  destruct (failure env (calls w)) as [msg|]; simpl; [reflexivity|].
  destruct (remote_backoff w) as [b|]; simpl; [|reflexivity].
  case_bool_decide; simpl; [|reflexivity].
  rewrite <- app_assoc. simpl. do 3 f_equal. lia.
Qed.

Lemma sync_activities_not_ready fuel env config w :
  strava_ready config = false →
  sync_activities fuel env config w =
    (Raises (ValueError "Strava credentials not properly configured"), w).
Proof. intros H. unfold sync_activities. rewrite H. reflexivity. Qed.

Lemma sync_activities_ready fuel env config w :
  strava_ready config = true →
  sync_activities fuel env config w =
    let w1 := after_backoff_check env w in
    let w2 := called EvConnect w1 in
    let w3 := called EvListActivities w2 in
    match failure env (calls w1) with
    | Some msg => (Raises (ServiceError msg), w2)
    | None =>
        match failure env (calls w2) with
        | Some msg => (Raises (ServiceError msg), w3)
        | None =>
            for_loop fuel env (nextcloud_target_folder config)
              (new_activities (activities env) (synced_ids w3))
              {| batch_count := 0; daily_count := 0 |} w3
        end
    end.
Proof.
  intros H. unfold sync_activities. rewrite H. simpl.
  unfold mbind at 1, M_bind at 1. rewrite backoff_check_eq.
  unfold connect, get_activities_list, called. run.
  destruct (failure env (S (calls w))) as [msg|]; simpl; [reflexivity|].
  destruct (failure env (S (S (calls w)))) as [msg|]; simpl; reflexivity.
Qed.


(** ** Claims *)

(** C3. For every activity list [A], in listing order, and every synced set
    [synced], the delta computed by the run is the subsequence of [A] made of
    exactly the activities [a] with [str(a.id)] not in [synced], in the order of
    [A]: it is the order-preserving filter of [A], a sublist of [A], and it
    has the stated members. *)
Theorem delta_is_the_ordered_filter (A : list ActivitySummary) (synced : gset string) :
  new_activities A synced = filter (λ a, Py.str_int (sum_id a) ∉ synced) A
  ∧ new_activities A synced `sublist_of` A
  ∧ (∀ a, a ∈ new_activities A synced ↔ a ∈ A ∧ Py.str_int (sum_id a) ∉ synced).
Proof.
  assert (Hf : new_activities A synced = filter (λ a, Py.str_int (sum_id a) ∉ synced) A).
  { induction A as [|a A IH]; [reflexivity|]. cbn [new_activities].
    case_bool_decide as Hin.
    - rewrite filter_cons_False by (intros Hn; by apply Hn). exact IH.
    - rewrite filter_cons_True by exact Hin. by rewrite IH. }
  split; [exact Hf|]. rewrite Hf. split.
  - apply sublist_filter.
  - intros a. rewrite list_elem_of_filter. tauto.
Qed.


(** C5. At the start of a run, after the configuration check and before
    authentication or anything else, the backoff marker is loaded, once.
    If the loaded marker is strictly in the future the run sleeps for the
    time that is left and authenticates at the marker's instant; if there
    is none, or it has been reached, the run authenticates at once.  Every
    later event (listing, fetching, uploading) happens at or after that
    instant and is no second load, and a stored marker is never removed. *)
Theorem backoff_marker_checked_first
    (fuel : nat) (env : Env) (config : SyncConfig) (w : World) :
  strava_ready config = true →
  let r := sync_activities fuel env config w in
  let wake := wake_time env w in
  ∃ rest,
    trace r.2 = trace w ++ (clock w, EvLoadBackoff) :: backoff_wait env w
                  ++ (wake, EvConnect) :: rest
    ∧ Forall (λ te, wake ≤ te.1 ∧ te.2 ≠ EvLoadBackoff) rest
    ∧ match loaded_marker env w with
      | Some b =>
          if bool_decide (clock w < b)
          then wake = b ∧ backoff_wait env w = [(clock w, EvSleep (b - clock w))]
          else wake = clock w ∧ backoff_wait env w = []
      | None => wake = clock w ∧ backoff_wait env w = []
      end
    ∧ (is_Some (remote_backoff w) → is_Some (remote_backoff r.2)).
Proof.
  intros H r wake. subst r wake. rewrite (sync_activities_ready _ _ _ _ H). cbv zeta.
  set (w1 := after_backoff_check env w).
  set (w2 := called EvConnect w1).
  set (w3 := called EvListActivities w2).
  assert (Hm : match loaded_marker env w with
               | Some b =>
                   if bool_decide (clock w < b)
                   then wake_time env w = b
                        ∧ backoff_wait env w = [(clock w, EvSleep (b - clock w))]
                   else wake_time env w = clock w ∧ backoff_wait env w = []
               | None => wake_time env w = clock w ∧ backoff_wait env w = []
               end).
  { unfold wake_time, backoff_wait. destruct (loaded_marker env w); [|done].
    case_bool_decide; done. }
  assert (Ht2 : trace w2 = trace w ++ (clock w, EvLoadBackoff) :: backoff_wait env w
                  ++ [(wake_time env w, EvConnect)]).
  { simpl. rewrite <- app_assoc. reflexivity. }
  assert (Ht3 : trace w3 = trace w ++ (clock w, EvLoadBackoff) :: backoff_wait env w
                  ++ (wake_time env w, EvConnect) :: [(wake_time env w, EvListActivities)]).
  { change (trace w3) with (trace w2 ++ [(wake_time env w, EvListActivities)]).
    rewrite Ht2. rewrite <- !app_assoc. simpl. rewrite <- app_assoc. reflexivity. }
  destruct (failure env (calls w1)) as [msg|].
  { exists []. cbn [snd]. split; [exact Ht2|]. split; [apply Forall_nil_2|]. split; [exact Hm|done]. }
  destruct (failure env (calls w2)) as [msg|].
  { exists [(wake_time env w, EvListActivities)]. cbn [snd]. split; [exact Ht3|].
    split; [|split; [exact Hm|done]].
    apply Forall_cons_2; [|apply Forall_nil_2]. simpl. split; [lia|done]. }
  pose proof (for_loop_extends fuel env (nextcloud_target_folder config)
                (new_activities (activities env) (synced_ids w3))
                {| batch_count := 0; daily_count := 0 |} w3)
    as (Hc & _ & _ & Hb & evs & Ht & Hf).
  exists ((wake_time env w, EvListActivities) :: evs).
  split; [|split; [|split]].
  - rewrite Ht, Ht3. rewrite <- !app_assoc. simpl. rewrite <- app_assoc. reflexivity.
  - apply Forall_cons_2; [simpl; split; [lia|done]|].
    eapply Forall_impl; [exact Hf|]. simpl. intros te (? & ? & ?). done.
  - exact Hm.
  - exact Hb.
Qed.

(** C4. Whenever [daily_count] has reached 1000 when a delta entry comes
    up, the run hands the next UTC midnight to the state store as backoff
    marker, sleeps until that instant and returns: neither this entry nor a
    later one is fetched or uploaded, and the synced set is left alone.
    The marker is stored whenever the store accepts the write.  (The burst
    check of the same iteration comes first, so a cooldown may precede.) *)
Theorem daily_limit_ends_the_run
    (fuel : nat) (env : Env) (folder : string) (a : ActivitySummary)
    (rest : list ActivitySummary) (c : Counters) (w : World) :
  (DAILY_LIMIT ≤ daily_count c)%nat →
  let c1 := (after_burst_check c w).1 in
  let w1 := (after_burst_check c w).2 in
  let next := next_utc_day (clock w1) in
  let r := for_loop fuel env folder (a :: rest) c w in
  r.1 = Returns c1
  ∧ trace r.2 = trace w1 ++ [(clock w1, EvSaveBackoff next); (clock w1, EvSleep (next - clock w1))]
  ∧ clock r.2 = next
  ∧ (clock w1 < next ∧ next ≤ clock w1 + DAY ∧ next mod DAY = 0)
  ∧ (failure env (calls w1) = None → remote_backoff r.2 = Some next)
  ∧ count is_fetch (since w r.2) = 0%nat
  ∧ count is_upload (since w r.2) = 0%nat
  ∧ synced_ids r.2 = synced_ids w
  ∧ remote_files r.2 = remote_files w.
Proof.
  intros Hd c1 w1 next r. subst r. rewrite for_loop_cons. cbv zeta.
  fold c1 w1.
  assert (Hd1 : (DAILY_LIMIT ≤ daily_count c1)%nat).
  { subst c1. unfold after_burst_check. case_bool_decide; simpl; lia. }
  rewrite bool_decide_eq_true_2 by exact Hd1. cbn [fst snd].
  split; [reflexivity|]. split; [reflexivity|]. split; [reflexivity|].
  split; [apply next_utc_day_spec|]. split.
  { intros Hf. simpl. by rewrite Hf. }
  assert (Hs : since w (backed_off env w1) =
               drop (length (trace w)) (trace w1)
               ++ [(clock w1, EvSaveBackoff next); (clock w1, EvSleep (next - clock w1))]).
  { unfold since. simpl. rewrite drop_app_le; [reflexivity|].
    subst w1. unfold after_burst_check. case_bool_decide; simpl; [|lia].
    rewrite length_app. lia. }
  assert (Hw : drop (length (trace w)) (trace w1) = [] ∨
               drop (length (trace w)) (trace w1) = [(clock w, EvSleep SLEEP_SECONDS)]).
  { subst w1. unfold after_burst_check. case_bool_decide; simpl.
    - right. by rewrite drop_app_length.
    - left. by rewrite drop_all. }
  assert (Hk : synced_ids w1 = synced_ids w ∧ remote_files w1 = remote_files w).
  { subst w1. unfold after_burst_check. case_bool_decide; done. }
  rewrite Hs. destruct Hw as [-> | ->]; repeat split; try reflexivity; simpl; apply Hk.
Qed.

(** ** Counting events *)

Lemma count_app k evs1 evs2 : count k (evs1 ++ evs2) = (count k evs1 + count k evs2)%nat.
Proof. unfold count. by rewrite filter_app, length_app. Qed.

Lemma count_le_length k evs : (count k evs ≤ length evs)%nat.
Proof. unfold count. apply length_filter. Qed.

Lemma since_app w w' evs : trace w' = trace w ++ evs → since w w' = evs.
Proof. intros H. unfold since. rewrite H. apply drop_app_length. Qed.

Lemma completed_all_trace env folder l w :
  clock (completed_all env folder l w) = clock w
  ∧ ∃ evs, trace (completed_all env folder l w) = trace w ++ evs
           ∧ count is_upload evs = length l ∧ count is_sleep evs = 0%nat.
Proof.
  revert w. induction l as [|a l IH]; intros w.
  - split; [reflexivity|]. exists []. simpl. by rewrite app_nil_r.
  - destruct (IH (completed env folder a w)) as (Hc & evs & Ht & Hu & Hs).
    split; [exact Hc|]. unfold completed_all in *. cbn [foldl]. rewrite Ht.
    eexists. split; [simpl; rewrite <- app_assoc; reflexivity|].
    rewrite !count_app, Hu, Hs. split; reflexivity.
Qed.

Lemma bump_by_S k c : bump_by k (bump c) = bump_by (S k) c.
Proof. unfold bump_by, bump. simpl. f_equal; lia. Qed.

(** A stretch of entries that all complete, below both limits. *)
Lemma for_loop_all_complete fuel env folder l1 l2 c w :
  no_errors env →
  (batch_count c + length l1 ≤ RATE_LIMIT)%nat →
  (daily_count c + length l1 ≤ DAILY_LIMIT)%nat →
  for_loop (S fuel) env folder (l1 ++ l2) c w =
    for_loop (S fuel) env folder l2 (bump_by (length l1) c) (completed_all env folder l1 w).
Proof.
  intros Hn. revert c w. induction l1 as [|a l1 IH]; intros c w Hb Hd.
  - destruct c. reflexivity.
  - simpl in Hb, Hd. rewrite <- app_comm_cons, for_loop_cons. cbv zeta.
    unfold after_burst_check.
    rewrite (bool_decide_eq_false_2 (RATE_LIMIT ≤ batch_count c)%nat)
      by (unfold RATE_LIMIT in *; lia).
    cbn [fst snd].
    rewrite bool_decide_eq_false_2 by (unfold DAILY_LIMIT in *; lia).
    unfold mbind, M_bind. rewrite retry_loop_S, Hn.
    rewrite IH by (simpl; lia). simpl length. rewrite bump_by_S. reflexivity.
Qed.

(** C6. At the top of an iteration, once [burst_count] has reached 100 (and
    the daily limit has not), the run sleeps fifteen minutes and attempts
    the entry with [burst_count] back at 0.  Hence, with at least 101
    pending activities and no errors, the trace of the loop is: a first part
    with exactly 100 uploads and no sleep, the fifteen-minute sleep, and
    then the fetch and the upload of the 101st activity, fifteen minutes
    later on the clock. *)
Theorem burst_cooldown_before_101st_upload (env : Env) (folder : string) :
  (∀ fuel a rest c w,
     (RATE_LIMIT ≤ batch_count c)%nat → (daily_count c < DAILY_LIMIT)%nat →
     for_loop fuel env folder (a :: rest) c w =
       (retry_loop fuel env folder a {| batch_count := 0; daily_count := daily_count c |}
          ≫= for_loop fuel env folder rest) (slept SLEEP_SECONDS w))
  ∧ (no_errors env →
     ∀ fuel l1 a l2 w,
       length l1 = RATE_LIMIT →
       let r := for_loop (S fuel) env folder (l1 ++ a :: l2)
                  {| batch_count := 0; daily_count := 0 |} w in
       ∃ first_hundred file later,
         trace r.2 = trace w ++ first_hundred
           ++ (clock w, EvSleep SLEEP_SECONDS)
           :: (clock w + SLEEP_SECONDS, EvGetActivity (sum_id a))
           :: (clock w + SLEEP_SECONDS, EvGetStreams (sum_id a))
           :: (clock w + SLEEP_SECONDS, EvUploadGpx file (remote_path folder a))
           :: later
         ∧ count is_upload first_hundred = 100%nat
         ∧ count is_sleep first_hundred = 0%nat).
Proof.
  split.
  - intros fuel a rest c w Hb Hd. rewrite for_loop_cons. cbv zeta.
    unfold after_burst_check.
    rewrite (bool_decide_eq_true_2 (RATE_LIMIT ≤ batch_count c)%nat) by exact Hb.
    cbn [fst snd].
    rewrite bool_decide_eq_false_2 by (simpl; lia). reflexivity.
  - intros Hn fuel l1 a l2 w Hl r. subst r.
    rewrite for_loop_all_complete by (try done; simpl; rewrite Hl; unfold RATE_LIMIT, DAILY_LIMIT; lia).
    rewrite Hl.
    destruct (completed_all_trace env folder l1 w) as (Hc & evs & Ht & Hu & Hs).
    set (w100 := completed_all env folder l1 w) in *.
    rewrite for_loop_cons. cbv zeta. unfold after_burst_check.
    rewrite (bool_decide_eq_true_2 (RATE_LIMIT ≤ batch_count _)%nat)
      by (unfold bump_by, RATE_LIMIT; cbn; lia).
    cbn [fst snd].
    rewrite bool_decide_eq_false_2 by (unfold bump_by, DAILY_LIMIT, RATE_LIMIT; cbn; lia).
    unfold mbind, M_bind. rewrite retry_loop_S, Hn.
    match goal with |- context [for_loop ?f ?e ?fo ?l ?c ?w0] =>
      pose proof (for_loop_extends f e fo l c w0) as (_ & _ & _ & _ & evs' & Ht' & _) end.
    exists evs, (gpx_filename a (slept SLEEP_SECONDS w100)), ((clock w + SLEEP_SECONDS,
        EvSaveSyncedIds ({[Py.str_int (sum_id a)]} ∪ synced_ids w100))
       :: (clock w + SLEEP_SECONDS, EvRemove (gpx_filename a (slept SLEEP_SECONDS w100))) :: evs').
    split; [|split; [rewrite Hu, Hl; reflexivity | exact Hs]].
    rewrite Ht'. simpl. rewrite Ht, Hc. rewrite <- !app_assoc. simpl.
    replace (Z.max 0 SLEEP_SECONDS) with SLEEP_SECONDS by reflexivity. reflexivity.
Qed.

(** ** The counters against the trace *)




Lemma since_trans w1 w2 w3 :
  extends w1 w2 → extends w2 w3 → since w1 w3 = since w1 w2 ++ since w2 w3.
Proof.
  intros (_ & _ & _ & _ & evs1 & Ht1 & _) (_ & _ & _ & _ & evs2 & Ht2 & _).
  rewrite (since_app _ _ _ Ht1), (since_app _ _ _ Ht2).
  apply since_app. by rewrite Ht2, Ht1, app_assoc.
Qed.






(** ** What ends up in the track-log file *)

Lemma append_assoc (s1 s2 s3 : string) : (s1 +:+ s2) +:+ s3 = s1 +:+ (s2 +:+ s3).
Proof.
  induction s1 as [|ch s1 IH]; [reflexivity|].
  change (String ch ((s1 +:+ s2) +:+ s3) = String ch (s1 +:+ (s2 +:+ s3))).
  by rewrite IH.
Qed.

Lemma length_append (s1 s2 : string) :
  String.length (s1 +:+ s2) = (String.length s1 + String.length s2)%nat.
Proof.
  induction s1 as [|ch s1 IH]; [reflexivity|].
  change (S (String.length (s1 +:+ s2)) = S (String.length s1 + String.length s2)).
  by rewrite IH.
Qed.

Lemma write_to_gpx_mismatch env id out w ll tm :
  failure env (calls w) = None → failure env (S (calls w)) = None →
  ds_latlng (data_streams env id) = Some ll →
  ds_time (data_streams env id) = Some tm →
  original_size ll ≠ original_size tm →
  local_files (write_to_gpx env id out w).2 !! (out +:+ ".gpx")
    = Some (gpx_header (detail env id) +:+ gpx_footer).
Proof.
  intros H0 H1 Hll Htm Hne.
  unfold write_to_gpx, get_strava_activity, get_data_stream, detect_activity_streams.
  run. rewrite H0. simpl. rewrite H1. simpl. rewrite Hll, Htm. simpl.
  rewrite (proj2 (Z.eqb_neq _ _) Hne). simpl. apply lookup_insert_eq.
Qed.

Lemma write_to_gpx_encodes env id out w ll tm pts :
  failure env (calls w) = None → failure env (S (calls w)) = None →
  ds_latlng (data_streams env id) = Some ll →
  ds_time (data_streams env id) = Some tm →
  original_size ll = original_size tm →
  trkpts (detail env id) (flags_of (detail env id)) (data_streams env id)
    (original_size tm) = Some pts →
  local_files (write_to_gpx env id out w).2 !! (out +:+ ".gpx")
    = Some (gpx_header (detail env id) +:+ gpx_footer
            +:+ String.concat "" pts +:+ gpx_footer).
Proof.
  intros H0 H1 Hll Htm Heq Hpts.
  unfold write_to_gpx, get_strava_activity, get_data_stream, detect_activity_streams.
  run. rewrite H0. simpl. rewrite H1. simpl. rewrite Hll, Htm. simpl.
  rewrite (proj2 (Z.eqb_eq _ _) Heq). simpl.
  unfold flags_of in Hpts. rewrite Hpts. simpl.
  rewrite ?lookup_insert_eq. simpl. rewrite ?lookup_insert_eq. simpl.
  by rewrite !append_assoc.
Qed.

(** C9 (refuted on the code). For an activity whose streams arrive with
    matching lengths and encode without error, [write_to_gpx] does build
    one track point per sample, but the file it leaves is the header, the
    footer, then the track points, then the footer again: the footer
    written together with the header is never removed, so the points lie
    after the first [</gpx>] and outside the [<trkseg>], and the file is not
    the single document header, points, footer. *)
Theorem track_points_follow_the_footer
    (env : Env) (id : Z) (out : string) (w : World)
    (ll : Stream (Q * Q)) (tm : Stream Z) (pts : list string) :
  failure env (calls w) = None → failure env (S (calls w)) = None →
  ds_latlng (data_streams env id) = Some ll →
  ds_time (data_streams env id) = Some tm →
  original_size ll = original_size tm →
  trkpts (detail env id) (flags_of (detail env id)) (data_streams env id)
    (original_size tm) = Some pts →
  let file := local_files (write_to_gpx env id out w).2 !! (out +:+ ".gpx") in
  let header := gpx_header (detail env id) in
  length pts = Z.to_nat (original_size tm)
  ∧ file = Some (header +:+ gpx_footer +:+ String.concat "" pts +:+ gpx_footer)
  ∧ file ≠ Some (header +:+ String.concat "" pts +:+ gpx_footer).
Proof.
  intros H0 H1 Hll Htm Heq Hpts file header. subst file header.
  rewrite (write_to_gpx_encodes _ _ _ _ _ _ _ H0 H1 Hll Htm Heq Hpts).
  split; [|split; [reflexivity|]].
  - apply length_mapM in Hpts. by rewrite <- Hpts, length_seq.
  - intros E. injection E as E. apply (f_equal String.length) in E.
    rewrite !length_append in E. simpl in E. lia.
Qed.

(** Activity 7 with its two samples. *)
Lemma track_points_follow_the_footer_witness :
  failure (calm_env [demo_summary 7] demo_streams) (calls demo_world) = None
  ∧ trkpts (demo_activity 7) (flags_of (demo_activity 7)) demo_streams 2 = Some demo_points
  ∧ length demo_points = 2%nat
  ∧ local_files (write_to_gpx (calm_env [demo_summary 7] demo_streams) 7 "temp_gpx"
                   demo_world).2 !! "temp_gpx.gpx"%string
    = Some (gpx_header (demo_activity 7) +:+ gpx_footer
            +:+ String.concat "" demo_points +:+ gpx_footer).
Proof.
  split; [reflexivity|]. split; [vm_compute; reflexivity|].
  pose proof (track_points_follow_the_footer (calm_env [demo_summary 7] demo_streams)
                7 "temp_gpx" demo_world
                latlng2 time2 demo_points
                eq_refl eq_refl eq_refl eq_refl eq_refl
                ltac:(vm_compute; reflexivity)) as (Hl & Hf & _).
  split; [exact Hl | exact Hf].
Defined.

(** ** An entry whose detail request is answered *)

Lemma for_loop_entry_completes fuel env folder a rest c w :
  (batch_count c < RATE_LIMIT)%nat → (daily_count c < DAILY_LIMIT)%nat →
  failure env (calls w) = None →
  for_loop (S fuel) env folder (a :: rest) c w =
    for_loop (S fuel) env folder rest (bump c) (completed env folder a w).
Proof.
  intros Hb Hd H0. rewrite for_loop_cons. cbv zeta. unfold after_burst_check.
  rewrite (bool_decide_eq_false_2 (RATE_LIMIT ≤ batch_count c)%nat) by lia.
  cbn [fst snd]. rewrite bool_decide_eq_false_2 by lia.
  unfold mbind, M_bind. by rewrite retry_loop_S, H0.
Qed.

Lemma synced_after_completed env folder a w :
  Py.str_int (sum_id a) ∈ synced_ids (completed env folder a w).
Proof. simpl. set_solver. Qed.

Lemma synced_at_the_end fuel env folder delta c w id :
  id ∈ synced_ids w → id ∈ synced_ids (for_loop fuel env folder delta c w).2.
Proof.
  intros Hin. destruct (for_loop_extends fuel env folder delta c w) as (_ & _ & Hs & _).
  set_solver.
Qed.

Lemma written_mismatch env id w ll tm :
  failure env (calls w) = None → failure env (S (calls w)) = None →
  ds_latlng (data_streams env id) = Some ll →
  ds_time (data_streams env id) = Some tm →
  original_size ll ≠ original_size tm →
  written env id w = gpx_header (detail env id) +:+ gpx_footer.
Proof.
  intros H0 H1 Hll Htm Hne. unfold written.
  change "temp_gpx.gpx"%string with ("temp_gpx" +:+ ".gpx").
  by rewrite (write_to_gpx_mismatch _ _ _ _ _ _ H0 H1 Hll Htm Hne).
Qed.

Lemma written_streams_fail env id w msg :
  failure env (calls w) = None → failure env (S (calls w)) = Some msg →
  written env id w = gpx_header (detail env id) +:+ gpx_footer.
Proof.
  intros H0 H1. unfold written, write_to_gpx, get_strava_activity, get_data_stream,
    detect_activity_streams.
  run. rewrite H0. simpl. rewrite H1. simpl. by rewrite lookup_insert_eq.
Qed.

(** C1 (refuted on the code). When the detail of an activity is fetched
    and the upload of its track log then fails, [upload_gpx] swallows the
    error: nothing reaches the destination folder, and still the pass runs
    on, adds the identifier to the synced set, persists it (when the store
    accepts the write), counts the entry as done and moves to the next
    one; the identifier is in the synced set when the run ends. *)
Theorem failed_upload_is_marked_synced
    (fuel : nat) (env : Env) (folder : string) (a : ActivitySummary)
    (rest : list ActivitySummary) (c : Counters) (w : World) (msg : string) :
  (batch_count c < RATE_LIMIT)%nat → (daily_count c < DAILY_LIMIT)%nat →
  failure env (calls w) = None →
  failure env (S (S (calls w))) = Some msg →
  let pass := completed env folder a w in
  let r := for_loop (S fuel) env folder (a :: rest) c w in
  r = for_loop (S fuel) env folder rest (bump c) pass
  ∧ remote_files pass = remote_files w
  ∧ Py.str_int (sum_id a) ∈ synced_ids pass
  ∧ (failure env (S (S (S (calls w)))) = None →
     remote_synced pass = Some ({[Py.str_int (sum_id a)]} ∪ synced_ids w))
  ∧ Py.str_int (sum_id a) ∈ synced_ids r.2.
Proof.
  intros Hb Hd H0 Hup pass r. subst r.
  rewrite (for_loop_entry_completes _ _ _ _ _ _ _ Hb Hd H0). fold pass.
  split; [reflexivity|]. split; [|split; [|split]].
  - subst pass. simpl. by rewrite Hup.
  - apply synced_after_completed.
  - intros Hs. subst pass. simpl. by rewrite Hs.
  - apply synced_at_the_end, synced_after_completed.
Qed.

(** C2 (refuted on the code). For an activity whose position stream and
    time stream differ in length, [write_to_gpx] reports the error and
    returns, leaving the header-and-footer file it wrote first.  No
    exception escapes and the loop goes on to the next entry, but the
    activity is not aborted: the empty track log is uploaded, the
    identifier is added to the synced set and persisted, and it is in the
    synced set when the run ends. *)
Theorem mismatched_streams_are_marked_synced
    (fuel : nat) (env : Env) (folder : string) (a : ActivitySummary)
    (rest : list ActivitySummary) (c : Counters) (w : World)
    (ll : Stream (Q * Q)) (tm : Stream Z) :
  (batch_count c < RATE_LIMIT)%nat → (daily_count c < DAILY_LIMIT)%nat →
  no_errors env →
  ds_latlng (data_streams env (sum_id a)) = Some ll →
  ds_time (data_streams env (sum_id a)) = Some tm →
  original_size ll ≠ original_size tm →
  let pass := completed env folder a w in
  let r := for_loop (S fuel) env folder (a :: rest) c w in
  let empty_log := gpx_header (detail env (sum_id a)) +:+ gpx_footer in
  r = for_loop (S fuel) env folder rest (bump c) pass
  ∧ written env (sum_id a) w = empty_log
  ∧ (gpx_filename a w = "temp_gpx.gpx"%string →
     remote_files pass !! remote_path folder a = Some empty_log)
  ∧ Py.str_int (sum_id a) ∈ synced_ids pass
  ∧ remote_synced pass = Some ({[Py.str_int (sum_id a)]} ∪ synced_ids w)
  ∧ Py.str_int (sum_id a) ∈ synced_ids r.2.
Proof.
  intros Hb Hd Hn Hll Htm Hne pass r empty_log. subst r.
  rewrite (for_loop_entry_completes _ _ _ _ _ _ _ Hb Hd (Hn _)). fold pass.
  pose proof (written_mismatch env (sum_id a) w ll tm (Hn _) (Hn _) Hll Htm Hne) as Hw.
  split; [reflexivity|]. split; [exact Hw|]. split; [|split; [|split]].
  - intros Hfile. subst pass. simpl. rewrite (Hn _), Hfile, Hw.
    by rewrite !lookup_insert_eq.
  - apply synced_after_completed.
  - subst pass. simpl. by rewrite (Hn _).
  - apply synced_at_the_end, synced_after_completed.
Qed.

(** C7 (refuted on the code). A rate-limit error (a message with [429] or
    [Rate Limit Exceeded]) of the streams request or of the upload never
    reaches the handler of the retry loop: [write_to_gpx] and [upload_gpx]
    swallow it.  The run does not sleep and does not retry the activity: the
    pass ends in its [break] after two fetches, with the track log left
    without points (streams) or not uploaded at all (upload), the activity
    is marked synced and the loop advances to the next delta entry. *)
Theorem swallowed_rate_limit_is_not_retried
    (fuel : nat) (env : Env) (folder : string) (a : ActivitySummary)
    (rest : list ActivitySummary) (c : Counters) (w : World) (msg : string) :
  (batch_count c < RATE_LIMIT)%nat → (daily_count c < DAILY_LIMIT)%nat →
  failure env (calls w) = None →
  failure env (S (calls w)) = Some msg ∨ failure env (S (S (calls w))) = Some msg →
  is_rate_limit msg = true →
  let pass := completed env folder a w in
  let r := for_loop (S fuel) env folder (a :: rest) c w in
  attempt env folder a c w = (Returns (Break (bump c)), pass)
  ∧ r = for_loop (S fuel) env folder rest (bump c) pass
  ∧ clock pass = clock w
  ∧ count is_sleep (since w pass) = 0%nat
  ∧ count is_fetch (since w pass) = 2%nat
  ∧ (written env (sum_id a) w = gpx_header (detail env (sum_id a)) +:+ gpx_footer
     ∨ remote_files pass = remote_files w)
  ∧ Py.str_int (sum_id a) ∈ synced_ids pass
  ∧ Py.str_int (sum_id a) ∈ synced_ids r.2.
Proof.
  intros Hb Hd H0 Hsw _ pass r. subst r.
  rewrite (for_loop_entry_completes _ _ _ _ _ _ _ Hb Hd H0). fold pass.
  split; [by apply attempt_completes|]. split; [reflexivity|]. split; [reflexivity|].
  split; [|split; [|split; [|split]]].
  - subst pass. erewrite since_app; [|reflexivity]. reflexivity.
  - subst pass. erewrite since_app; [|reflexivity]. reflexivity.
  - destruct Hsw as [Hst | Hup].
    + left. by apply written_streams_fail with msg.
    + right. subst pass. simpl. by rewrite Hup.
  - apply synced_after_completed.
  - apply synced_at_the_end, synced_after_completed.
Qed.

(** ** The claims at concrete inputs *)

(** One hour before a stored marker: load, one hour of sleep, and the token
    refresh at the marker's instant. *)
Lemma backoff_marker_checked_first_witness :
  strava_ready demo_config = true
  ∧ ∃ rest,
      trace (sync_activities 1 (calm_env [demo_summary 7] demo_streams)
               demo_config waiting_world).2
        = [(1709287200000000, EvLoadBackoff);
           (1709287200000000, EvSleep 3600000000);
           (1709290800000000, EvConnect)] ++ rest
      ∧ Forall (λ te, 1709290800000000 ≤ te.1 ∧ te.2 ≠ EvLoadBackoff) rest.
Proof.
  split; [reflexivity|].
  destruct (backoff_marker_checked_first 1 (calm_env [demo_summary 7] demo_streams)
              demo_config waiting_world eq_refl) as (rest & Ht & Hf & _).
  exists rest. split; [exact Ht | exact Hf].
Defined.

(** After a thousand entries, at 10:00 on 2024-03-01: cooldown, marker for
    2024-03-02T00:00:00Z, sleep until then. *)
Lemma daily_limit_ends_the_run_witness :
  (DAILY_LIMIT ≤ daily_count spent)%nat
  ∧ trace (for_loop 1 (calm_env [] demo_streams) "/GPX/Strava"
             [demo_summary 7; demo_summary 8] spent demo_world).2
    = [(1709287200000000, EvSleep SLEEP_SECONDS);
       (1709288100000000, EvSaveBackoff 1709337600000000);
       (1709288100000000, EvSleep 49500000000)]
  ∧ remote_backoff (for_loop 1 (calm_env [] demo_streams) "/GPX/Strava"
                      [demo_summary 7; demo_summary 8] spent demo_world).2
    = Some 1709337600000000.
Proof.
  assert (Hd : (DAILY_LIMIT ≤ daily_count spent)%nat) by (vm_compute; lia).
  split; [exact Hd|].
  destruct (daily_limit_ends_the_run 1 (calm_env [] demo_streams) "/GPX/Strava"
              (demo_summary 7) [demo_summary 8] spent demo_world Hd)
    as (_ & Ht & _ & _ & Hm & _).
  split; [exact Ht | exact (Hm eq_refl)].
Defined.

(** A hundred and one pending activities, every call answered. *)
Lemma burst_cooldown_before_101st_upload_witness :
  no_errors (calm_env [] demo_streams)
  ∧ length hundred = RATE_LIMIT
  ∧ ∃ first_hundred file later,
      trace (for_loop 1 (calm_env [] demo_streams) "/GPX/Strava"
               (hundred ++ [demo_summary 101]) zero demo_world).2
        = first_hundred
          ++ (1709287200000000, EvSleep SLEEP_SECONDS)
          :: (1709288100000000, EvGetActivity 101)
          :: (1709288100000000, EvGetStreams 101)
          :: (1709288100000000,
              EvUploadGpx file "/GPX/Strava/2024-03-01_Morning_Run-2.gpx")
          :: later
      ∧ count is_upload first_hundred = 100%nat
      ∧ count is_sleep first_hundred = 0%nat.
Proof.
  assert (Hn : no_errors (calm_env [] demo_streams)) by (intros n; reflexivity).
  assert (Hl : length hundred = RATE_LIMIT) by reflexivity.
  split; [exact Hn|]. split; [exact Hl|].
  exact (proj2 (burst_cooldown_before_101st_upload (calm_env [] demo_streams) "/GPX/Strava")
           Hn 0%nat hundred (demo_summary 101) [] demo_world Hl).
Defined.

(** Activity 7, whose upload fails with a 503. *)
Lemma failed_upload_is_marked_synced_witness :
  failure (demo_env demo_streams 2 "503 Service Unavailable") 0 = None
  ∧ failure (demo_env demo_streams 2 "503 Service Unavailable") 2
    = Some "503 Service Unavailable"%string
  ∧ remote_files (completed (demo_env demo_streams 2 "503 Service Unavailable")
                    "/GPX/Strava" (demo_summary 7) demo_world) = ∅
  ∧ Py.str_int 7 ∈ synced_ids
      (for_loop 1 (demo_env demo_streams 2 "503 Service Unavailable") "/GPX/Strava"
         [demo_summary 7] zero demo_world).2
  ∧ remote_synced (completed (demo_env demo_streams 2 "503 Service Unavailable")
                     "/GPX/Strava" (demo_summary 7) demo_world)
    = Some ({[Py.str_int 7]} ∪ ∅).
Proof.
  split; [reflexivity|]. split; [reflexivity|].
  destruct (failed_upload_is_marked_synced 0 (demo_env demo_streams 2 "503 Service Unavailable")
              "/GPX/Strava" (demo_summary 7) [] zero demo_world "503 Service Unavailable"
              ltac:(vm_compute; lia) ltac:(vm_compute; lia) eq_refl eq_refl)
    as (_ & Hr & _ & Hp & Hs).
  split; [exact Hr|]. split; [exact Hs | exact (Hp eq_refl)].
Defined.

(** Activity 7 with ten positions against twelve time samples. *)
Lemma mismatched_streams_are_marked_synced_witness :
  no_errors (calm_env [demo_summary 7] mismatched_streams)
  ∧ original_size latlng10 ≠ original_size time12
  ∧ remote_files (completed (calm_env [demo_summary 7] mismatched_streams)
                    "/GPX/Strava" (demo_summary 7) demo_world)
      !! remote_path "/GPX/Strava" (demo_summary 7)
    = Some (gpx_header (demo_activity 7) +:+ gpx_footer)
  ∧ Py.str_int 7 ∈ synced_ids
      (for_loop 1 (calm_env [demo_summary 7] mismatched_streams) "/GPX/Strava"
         [demo_summary 7] zero demo_world).2.
Proof.
  assert (Hn : no_errors (calm_env [demo_summary 7] mismatched_streams))
    by (intros n; reflexivity).
  assert (Hne : original_size latlng10 ≠ original_size time12) by (simpl; lia).
  split; [exact Hn|]. split; [exact Hne|].
  destruct (mismatched_streams_are_marked_synced 0
              (calm_env [demo_summary 7] mismatched_streams) "/GPX/Strava"
              (demo_summary 7) [] zero demo_world latlng10 time12
              ltac:(vm_compute; lia) ltac:(vm_compute; lia) Hn eq_refl eq_refl Hne)
    as (_ & _ & Hf & _ & _ & Hs).
  split; [exact (Hf ltac:(vm_compute; reflexivity)) | exact Hs].
Defined.

(** Activity 7, whose upload fails with a 429. *)
Lemma swallowed_rate_limit_is_not_retried_witness :
  failure (demo_env demo_streams 2 "429 Too Many Requests") 0 = None
  ∧ failure (demo_env demo_streams 2 "429 Too Many Requests") 2
    = Some "429 Too Many Requests"%string
  ∧ is_rate_limit "429 Too Many Requests" = true
  ∧ attempt (demo_env demo_streams 2 "429 Too Many Requests") "/GPX/Strava"
      (demo_summary 7) zero demo_world
    = (Returns (Break (bump zero)),
       completed (demo_env demo_streams 2 "429 Too Many Requests") "/GPX/Strava"
         (demo_summary 7) demo_world)
  ∧ count is_sleep
      (since demo_world
         (completed (demo_env demo_streams 2 "429 Too Many Requests") "/GPX/Strava"
            (demo_summary 7) demo_world)) = 0%nat
  ∧ Py.str_int 7 ∈ synced_ids
      (for_loop 1 (demo_env demo_streams 2 "429 Too Many Requests") "/GPX/Strava"
         [demo_summary 7] zero demo_world).2.
Proof.
  split; [reflexivity|]. split; [reflexivity|]. split; [reflexivity|].
  destruct (swallowed_rate_limit_is_not_retried 0
              (demo_env demo_streams 2 "429 Too Many Requests") "/GPX/Strava"
              (demo_summary 7) [] zero demo_world "429 Too Many Requests"
              ltac:(vm_compute; lia) ltac:(vm_compute; lia) eq_refl
              (or_intror eq_refl) eq_refl)
    as (Ha & _ & _ & Hsl & _ & _ & _ & Hs).
  split; [exact Ha|]. split; [exact Hsl | exact Hs].
Defined.

(** ** Further properties of the orchestrator *)

Lemma new_activities_elem A synced a :
  a ∈ new_activities A synced ↔ a ∈ A ∧ Py.str_int (sum_id a) ∉ synced.
Proof.
  induction A as [|b A IH]; cbn [new_activities].
  - rewrite elem_of_nil. tauto.
  - case_bool_decide as Hin.
    + rewrite IH, elem_of_cons. split; [tauto|]. intros [[-> | ?] ?]; [done | tauto].
    + rewrite !elem_of_cons, IH. split; [intros [-> | ?]; tauto | tauto].
Qed.

Lemma new_activities_nil A synced :
  (∀ a, a ∈ A → Py.str_int (sum_id a) ∈ synced) → new_activities A synced = [].
Proof.
  intros H. destruct (new_activities A synced) as [|a l] eqn:E; [done|].
  assert (Ha : a ∈ new_activities A synced) by (rewrite E; left).
  apply new_activities_elem in Ha as [Ha Hn]. by apply H in Ha.
Qed.

Lemma since_self w : since w w = [].
Proof. apply since_app. by rewrite app_nil_r. Qed.

(** The events of a run before its loop: the backoff load, its wait, the
    token refresh and the listing.  None belongs to the per-activity block. *)
Lemma quiet_prelude env w :
  let w1 := after_backoff_check env w in
  count is_work (since w (called EvConnect w1)) = 0%nat
  ∧ count is_work (since w (called EvListActivities (called EvConnect w1))) = 0%nat.
Proof.
  assert (Hw : count is_work (backoff_wait env w) = 0%nat).
  { unfold backoff_wait. destruct (loaded_marker env w); [|done]. by case_bool_decide. }
  cbv zeta. split.
  - erewrite since_app; [|simpl; rewrite <- app_assoc; reflexivity].
    simpl. change ((clock w, EvLoadBackoff) :: backoff_wait env w
                   ++ [(wake_time env w, EvConnect)])
      with ([(clock w, EvLoadBackoff)] ++ backoff_wait env w ++ [(wake_time env w, EvConnect)]).
    by rewrite !count_app, Hw.
  - erewrite since_app; [|simpl; rewrite <- !app_assoc; reflexivity].
    simpl. change ((clock w, EvLoadBackoff) :: backoff_wait env w
                   ++ [(wake_time env w, EvConnect); (wake_time env w, EvListActivities)])
      with ([(clock w, EvLoadBackoff)] ++ backoff_wait env w
            ++ [(wake_time env w, EvConnect); (wake_time env w, EvListActivities)]).
    by rewrite !count_app, Hw.
Qed.

(** X1. When every listed activity is already in the synced set, a run
    does no work: after the backoff check, the token refresh and the
    listing it fetches nothing, uploads nothing and persists nothing, and
    the synced set and both remote documents are as before; if the two
    requests are answered it returns with both counters at zero. *)
Theorem nothing_new_nothing_done
    (fuel : nat) (env : Env) (config : SyncConfig) (w : World) :
  strava_ready config = true →
  (∀ a, a ∈ activities env → Py.str_int (sum_id a) ∈ synced_ids w) →
  let r := sync_activities fuel env config w in
  count is_work (since w r.2) = 0%nat
  ∧ synced_ids r.2 = synced_ids w
  ∧ remote_files r.2 = remote_files w
  ∧ remote_synced r.2 = remote_synced w
  ∧ remote_backoff r.2 = remote_backoff w
  ∧ (failure env (S (calls w)) = None → failure env (S (S (calls w))) = None →
     r.1 = Returns zero).
Proof.
  intros Hr Hall r. subst r. rewrite (sync_activities_ready _ _ _ _ Hr). cbv zeta.
  destruct (quiet_prelude env w) as [Hq2 Hq3].
  simpl calls. simpl synced_ids. rewrite (new_activities_nil _ _ Hall).
  destruct (failure env (S (calls w))) as [m1|]; [repeat split; done|].
  destruct (failure env (S (S (calls w)))) as [m2|]; repeat split; done.
Qed.

(** ** The retry loop in normal form *)

Lemma cooled_times_S a k w : cooled_times a (S k) w = cooled_times a k (cooled a w).
Proof. unfold cooled_times. apply Nat.iter_succ_r. Qed.

(** Every outcome of the retry loop: some rate-limit waits, then the pass
    that completes, or the pass that is abandoned, or no fuel left. *)
Lemma retry_loop_cases fuel env folder a c w :
  (∃ k, (k < fuel)%nat
        ∧ retry_loop fuel env folder a c w
          = (Returns (bump c), completed env folder a (cooled_times a k w)))
  ∨ (∃ k, (k < fuel)%nat
          ∧ retry_loop fuel env folder a c w
            = (Returns c, failed a (cooled_times a k w)))
  ∨ retry_loop fuel env folder a c w = (OutOfFuel, cooled_times a fuel w).
Proof.
  revert w. induction fuel as [|fuel IH]; intros w; [right; right; reflexivity|].
  rewrite retry_loop_S. destruct (failure env (calls w)) as [msg|].
  - destruct (is_rate_limit msg).
    + destruct (IH (cooled a w)) as [(k & Hk & E) | [(k & Hk & E) | E]].
      * left. exists (S k). split; [lia|]. by rewrite E, cooled_times_S.
      * right. left. exists (S k). split; [lia|]. by rewrite E, cooled_times_S.
      * right. right. by rewrite E, cooled_times_S.
    + right. left. exists 0%nat. split; [lia | reflexivity].
  - left. exists 0%nat. split; [lia | reflexivity].
Qed.

Lemma cooled_times_keeps a k w :
  synced_ids (cooled_times a k w) = synced_ids w
  ∧ remote_files (cooled_times a k w) = remote_files w
  ∧ remote_synced (cooled_times a k w) = remote_synced w
  ∧ local_files (cooled_times a k w) = local_files w
  ∧ clock (cooled_times a k w) = clock w + Z.of_nat k * SLEEP_SECONDS
  ∧ calls (cooled_times a k w) = (calls w + k)%nat
  ∧ extends w (cooled_times a k w)
  ∧ count is_upload (since w (cooled_times a k w)) = 0%nat
  ∧ count is_sleep (since w (cooled_times a k w)) = k.
Proof.
  induction k as [|k IH].
  - unfold cooled_times. simpl. rewrite since_self.
    repeat split; try done; try lia; apply extends_refl.
  - destruct IH as (H1 & H2 & H3 & H4 & H5 & H6 & H7 & H8 & H9).
    change (cooled_times a (S k) w) with (cooled a (cooled_times a k w)).
    pose proof (extends_cooled a (cooled_times a k w)) as He.
    rewrite (since_trans w _ _ H7 He), !count_app, H8, H9.
    erewrite (since_app (cooled_times a k w)); [|reflexivity].
    simpl. rewrite H1, H2, H3, H4, H5, H6.
    split; [done|]. split; [done|]. split; [done|]. split; [done|].
    split; [unfold SLEEP_SECONDS; lia|]. split; [lia|].
    split; [by eapply extends_trans|]. split; [done|].
    unfold count. simpl. lia.
Qed.

(** X5. If the detail request of an activity is refused [k] times in a
    row with a rate-limit error and then answered, the retry loop sleeps
    fifteen minutes after each refusal, asks again, and completes the
    activity at the [k+1]-th request: [k] waits, the clock [k] quarters of
    an hour later, both counters up by one. *)
Theorem rate_limited_detail_is_retried
    (fuel k : nat) (env : Env) (folder : string) (a : ActivitySummary)
    (c : Counters) (w : World) :
  (∀ i, (i < k)%nat →
        ∃ msg, failure env (calls w + i) = Some msg ∧ is_rate_limit msg = true) →
  failure env (calls w + k) = None →
  (k < fuel)%nat →
  let w' := cooled_times a k w in
  retry_loop fuel env folder a c w = (Returns (bump c), completed env folder a w')
  ∧ clock w' = clock w + Z.of_nat k * SLEEP_SECONDS
  ∧ count is_sleep (since w w') = k
  ∧ synced_ids w' = synced_ids w.
Proof.
  intros Hlim Hok Hk w'. subst w'.
  destruct (cooled_times_keeps a k w) as (Hs & _ & _ & _ & Hc & _ & _ & _ & Hsl).
  split; [|done].
  clear Hs Hc Hsl. revert fuel w Hlim Hok Hk. induction k as [|k IH]; intros fuel w Hlim Hok Hk.
  - destruct fuel as [|fuel]; [lia|]. rewrite retry_loop_S.
    rewrite Nat.add_0_r in Hok. by rewrite Hok.
  - destruct fuel as [|fuel]; [lia|]. rewrite retry_loop_S.
    destruct (Hlim 0%nat ltac:(lia)) as (msg & Hf & Hr). rewrite Nat.add_0_r in Hf.
    rewrite Hf, Hr, cooled_times_S. apply IH; [|simpl|lia].
    + intros i Hi. destruct (Hlim (S i) ltac:(lia)) as (m & Hm & Hrm).
      exists m. split; [|done]. simpl. by rewrite <- Nat.add_succ_r.
    + by rewrite <- Nat.add_succ_r.
Qed.

(** X6. If the detail request of an activity is refused with a rate-limit
    error every time, the run never gets past that activity: whatever the
    fuel, the retry loop uses it up in fifteen-minute waits, and the
    [for] loop with it, so no later delta entry is ever reached. *)
Theorem permanent_rate_limit_never_advances
    (fuel : nat) (env : Env) (folder : string) (a : ActivitySummary)
    (rest : list ActivitySummary) (c : Counters) (w : World) :
  (∀ n, (calls w ≤ n)%nat →
        ∃ msg, failure env n = Some msg ∧ is_rate_limit msg = true) →
  (batch_count c < RATE_LIMIT)%nat → (daily_count c < DAILY_LIMIT)%nat →
  let w' := cooled_times a fuel w in
  retry_loop fuel env folder a c w = (OutOfFuel, w')
  ∧ for_loop fuel env folder (a :: rest) c w = (OutOfFuel, w')
  ∧ clock w' = clock w + Z.of_nat fuel * SLEEP_SECONDS
  ∧ synced_ids w' = synced_ids w.
Proof.
  intros Hlim Hb Hd w'. subst w'.
  destruct (cooled_times_keeps a fuel w) as (Hs & _ & _ & _ & Hc & _ & _ & _ & _).
  assert (Hr : retry_loop fuel env folder a c w = (OutOfFuel, cooled_times a fuel w)).
  { clear Hs Hc. revert w Hlim. induction fuel as [|fuel IH]; intros w Hlim; [reflexivity|].
    rewrite retry_loop_S. destruct (Hlim (calls w) ltac:(lia)) as (msg & Hf & Hrl).
    rewrite Hf, Hrl, cooled_times_S. apply IH. intros n Hn. apply Hlim.
    change (calls (cooled a w)) with (S (calls w)) in Hn. lia. }
  split; [exact Hr|]. split; [|done].
  rewrite for_loop_cons. cbv zeta. unfold after_burst_check.
  rewrite (bool_decide_eq_false_2 (RATE_LIMIT ≤ batch_count c)%nat) by lia.
  cbn [fst snd]. rewrite bool_decide_eq_false_2 by lia.
  unfold mbind, M_bind. by rewrite Hr.
Qed.

Lemma prefix_append n s post : String.prefix n s = true → String.prefix n (s +:+ post) = true.
Proof.
  revert s. induction n as [|ch n IH]; intros s H; [by destruct (s +:+ post)|].
  destruct s as [|ch' s]; [done|].
  change (String ch' s +:+ post) with (String ch' (s +:+ post)).
  simpl in *. destruct (ascii_dec ch ch'); [by apply IH | done].
Qed.

Lemma contains_append n s post : Py.contains n s = true → Py.contains n (s +:+ post) = true.
Proof.
  induction s as [|ch s IH]; intros H.
  - cbn [Py.contains] in H. rewrite orb_false_r in H. apply (prefix_append _ _ post) in H.
    change (""%string +:+ post) with post in *.
    destruct post; cbn [Py.contains]; by rewrite H.
  - change (String ch s +:+ post) with (String ch (s +:+ post)).
    cbn [Py.contains] in *. apply orb_true_iff in H as [H | H].
    + apply (prefix_append _ _ post) in H.
      change (String ch s +:+ post) with (String ch (s +:+ post)) in H. by rewrite H.
    + by rewrite (IH H), orb_true_r.
Qed.

Lemma contains_prepend n pre s : Py.contains n s = true → Py.contains n (pre +:+ s) = true.
Proof.
  intros H. induction pre as [|ch pre IH]; [done|].
  change (String ch pre +:+ s) with (String ch (pre +:+ s)).
  cbn [Py.contains]. by rewrite IH, orb_true_r.
Qed.

(** X7. The rate-limit test of the orchestrator looks for [429] anywhere
    in the error text.  So for an activity whose identifier has 429 among
    its digits, every error text that names the detail URL (as HTTP client
    errors do) is taken for a rate limit, whatever the real error. *)
Theorem error_naming_the_url_reads_as_rate_limit
    (activity_id : Z) (before after : string) :
  Py.contains "429" (Py.str_int activity_id) = true →
  is_rate_limit (before +:+ detail_url activity_id +:+ after) = true.
Proof.
  intros H. unfold is_rate_limit, detail_url. apply orb_true_iff. left.
  apply contains_prepend, contains_append, contains_prepend, contains_append, H.
Qed.

(** ** Invariants of the loop, generically *)

Section loop_invariant.
Variables (env : Env) (folder : string).
Variable R : World → World → Prop.
Variable P : ActivitySummary → Prop.
Hypothesis R_refl : ∀ w, R w w.
Hypothesis R_trans : ∀ w1 w2 w3, R w1 w2 → R w2 w3 → R w1 w3.
Hypothesis R_slept : ∀ us w, R w (slept us w).
Hypothesis R_backed_off : ∀ w, R w (backed_off env w).
Hypothesis R_cooled : ∀ a w, R w (cooled a w).
Hypothesis R_failed : ∀ a w, R w (failed a w).
Hypothesis R_completed : ∀ a w, P a → R w (completed env folder a w).

Lemma cooled_times_invariant a k w : R w (cooled_times a k w).
Proof.
  induction k as [|k IH]; [apply R_refl|].
  change (cooled_times a (S k) w) with (cooled a (cooled_times a k w)).
  eapply R_trans; [exact IH | apply R_cooled].
Qed.

Lemma retry_loop_invariant fuel a c w :
  P a → R w (retry_loop fuel env folder a c w).2.
Proof.
  intros Ha.
  destruct (retry_loop_cases fuel env folder a c w) as [(k & _ & E) | [(k & _ & E) | E]];
    rewrite E; cbn [snd].
  - eapply R_trans; [apply cooled_times_invariant | by apply R_completed].
  - eapply R_trans; [apply cooled_times_invariant | apply R_failed].
  - apply cooled_times_invariant.
Qed.

Lemma for_loop_invariant fuel delta c w :
  Forall P delta → R w (for_loop fuel env folder delta c w).2.
Proof.
  intros Hall. revert c w. induction Hall as [|a rest Ha Hrest IH]; intros c w; [apply R_refl|].
  rewrite for_loop_cons. cbv zeta.
  assert (Hb : R w (after_burst_check c w).2).
  { unfold after_burst_check. case_bool_decide; [apply R_slept | apply R_refl]. }
  destruct (after_burst_check c w) as [c1 w1]. cbn [fst snd] in *.
  case_bool_decide; cbn [snd].
  - eapply R_trans; [exact Hb | apply R_backed_off].
  - unfold mbind, M_bind.
    pose proof (retry_loop_invariant fuel a c1 w1 Ha) as Hr.
    destruct (retry_loop fuel env folder a c1 w1) as [[c2| |] w2]; cbn [snd] in *.
    + eapply R_trans; [exact Hb|]. eapply R_trans; [exact Hr | apply IH].
    + by eapply R_trans.
    + by eapply R_trans.
Qed.
End loop_invariant.

Lemma ids_of_cons a l : ids_of (a :: l) = {[Py.str_int (sum_id a)]} ∪ ids_of l.
Proof. reflexivity. Qed.

Lemma elem_of_ids_of s l : s ∈ ids_of l ↔ ∃ a, a ∈ l ∧ s = Py.str_int (sum_id a).
Proof.
  unfold ids_of. rewrite elem_of_list_to_set, list_elem_of_fmap. naive_solver.
Qed.

(** X2. Over a run the in-memory synced set only grows, and only by
    identifiers of listed activities that were not in it; the synced
    document in the store, when the run has written it, holds a set
    between the synced set at the start and the one at the end, so
    whatever else the document held before is gone. *)
Theorem synced_set_grows_by_listed_ids
    (fuel : nat) (env : Env) (config : SyncConfig) (w : World) :
  let r := sync_activities fuel env config w in
  synced_ids w ⊆ synced_ids r.2
  ∧ (∀ s, s ∈ synced_ids r.2 → s ∉ synced_ids w →
          ∃ a, a ∈ activities env ∧ s = Py.str_int (sum_id a))
  ∧ (remote_synced r.2 = remote_synced w
     ∨ ∃ ids, remote_synced r.2 = Some ids
              ∧ synced_ids w ⊆ ids ∧ ids ⊆ synced_ids r.2).
Proof.
  intros r. subst r.
  set (R := λ w0 w' : World,
         synced_ids w0 ⊆ synced_ids w'
         ∧ synced_ids w' ⊆ synced_ids w0 ∪ ids_of (activities env)
         ∧ (remote_synced w' = remote_synced w0
            ∨ ∃ ids, remote_synced w' = Some ids
                     ∧ synced_ids w0 ⊆ ids ∧ ids ⊆ synced_ids w')).
  assert (HR : R w (sync_activities fuel env config w).2).
  { destruct (strava_ready config) eqn:Hr.
    2:{ rewrite (sync_activities_not_ready _ _ _ _ Hr). subst R. simpl.
        split; [done|]. split; [set_solver | by left]. }
    rewrite (sync_activities_ready _ _ _ _ Hr). cbv zeta.
    assert (Hsame : ∀ w0 w', synced_ids w' = synced_ids w0 →
                             remote_synced w' = remote_synced w0 → R w0 w').
    { intros w0 w' E1 E2. subst R. simpl. rewrite E1, E2.
      split; [done|]. split; [set_solver | by left]. }
    destruct (failure env _); [by apply Hsame|]. destruct (failure env _); [by apply Hsame|].
    match goal with |- R w (for_loop ?f ?e ?fo ?d ?c ?w3).2 =>
      change (R w3 (for_loop f e fo d c w3).2) end.
    apply (for_loop_invariant env (nextcloud_target_folder config) R
             (λ a, a ∈ activities env)); subst R; simpl.
    - intros w0. split; [done|]. split; [set_solver | by left].
    - intros w1 w2 w3 (H1 & H2 & H3) (H4 & H5 & H6).
      split; [set_solver|]. split; [set_solver|].
      destruct H3 as [E3 | (i3 & E3 & ? & ?)]; destruct H6 as [E6 | (i6 & E6 & ? & ?)].
      + left. congruence.
      + right. exists i6. split; [done|]. set_solver.
      + right. exists i3. split; [congruence|]. set_solver.
      + right. exists i6. split; [done|]. set_solver.
    - intros us w0. split; [done|]. split; [set_solver | by left].
    - intros w0. split; [done|]. split; [set_solver | by left].
    - intros a w0. split; [done|]. split; [set_solver | by left].
    - intros a w0. split; [done|]. split; [set_solver | by left].
    - intros a w0 Ha. split; [set_solver|]. split.
      + assert (Py.str_int (sum_id a) ∈ ids_of (activities env))
          by (apply elem_of_ids_of; eauto).
        set_solver.
      + destruct (failure env _); [by left|]. right. eexists. split; [done|]. set_solver.
    - apply Forall_forall. intros a Ha. by apply new_activities_elem in Ha as [Ha _]. }
  subst R. simpl in HR. destruct HR as (H1 & H2 & H3).
  split; [exact H1|]. split; [|exact H3].
  intros s Hs Hn. apply elem_of_ids_of. set_solver.
Qed.

(** X3. A run raises only before its loop: the configuration error, or
    the error of the token refresh or of the listing.  In each case
    nothing has been fetched, uploaded or persisted and the synced set is
    untouched; no error of the per-activity work ever reaches the caller. *)
Theorem run_raises_only_before_the_loop
    (fuel : nat) (env : Env) (config : SyncConfig) (w : World) (e : PyExc) :
  (sync_activities fuel env config w).1 = Raises e →
  let r := sync_activities fuel env config w in
  (strava_ready config = false
   ∧ e = ValueError "Strava credentials not properly configured" ∧ r.2 = w
   ∨ strava_ready config = true
     ∧ ∃ msg, e = ServiceError msg
         ∧ (failure env (S (calls w)) = Some msg
            ∨ failure env (S (calls w)) = None ∧ failure env (S (S (calls w))) = Some msg))
  ∧ count is_work (since w r.2) = 0%nat
  ∧ synced_ids r.2 = synced_ids w
  ∧ remote_files r.2 = remote_files w
  ∧ remote_synced r.2 = remote_synced w.
Proof.
  intros H r. subst r. destruct (strava_ready config) eqn:Hr.
  - rewrite (sync_activities_ready _ _ _ _ Hr) in *. cbv zeta in *.
    destruct (quiet_prelude env w) as [Hq2 Hq3]. simpl calls in *.
    destruct (failure env (S (calls w))) as [m1|] eqn:E1.
    { simpl in H. injection H as <-. split; [right; eauto 6|]. repeat split; done. }
    destruct (failure env (S (S (calls w)))) as [m2|] eqn:E2.
    { simpl in H. injection H as <-. split; [right; eauto 6|]. repeat split; done. }
    by apply for_loop_never_raises in H.
  - rewrite (sync_activities_not_ready _ _ _ _ Hr) in *. simpl in H. injection H as <-.
    split; [left; done|]. cbn [snd]. rewrite since_self. repeat split; done.
Qed.

(** ** Uploads against the daily limit and against the synced set *)

Lemma uploads_completed env folder a w :
  count is_upload (since w (completed env folder a w)) = 1%nat.
Proof. erewrite since_app; [|reflexivity]. reflexivity. Qed.

Lemma uploads_failed a w : count is_upload (since w (failed a w)) = 0%nat.
Proof. erewrite since_app; [|reflexivity]. reflexivity. Qed.

Lemma uploads_after_burst_check c w :
  count is_upload (since w (after_burst_check c w).2) = 0%nat.
Proof.
  unfold after_burst_check. case_bool_decide; simpl.
  - erewrite since_app; [|reflexivity]. reflexivity.
  - by rewrite since_self.
Qed.

Lemma uploads_backed_off env w : count is_upload (since w (backed_off env w)) = 0%nat.
Proof. erewrite since_app; [|reflexivity]. reflexivity. Qed.

(** The uploads of one entry, against its counters. *)
Lemma retry_loop_uploads fuel env folder a c w :
  let r := retry_loop fuel env folder a c w in
  match r.1 with
  | Returns c' =>
      (c' = bump c ∧ count is_upload (since w r.2) = 1%nat
       ∧ synced_ids r.2 = {[Py.str_int (sum_id a)]} ∪ synced_ids w)
      ∨ (c' = c ∧ count is_upload (since w r.2) = 0%nat ∧ synced_ids r.2 = synced_ids w)
  | _ => count is_upload (since w r.2) = 0%nat ∧ synced_ids r.2 = synced_ids w
  end.
Proof.
  cbv zeta.
  destruct (retry_loop_cases fuel env folder a c w) as [(k & _ & E) | [(k & _ & E) | E]];
    rewrite E; cbn [fst snd];
    destruct (cooled_times_keeps a k w) as (Hs & _ & _ & _ & _ & _ & He & Hu & _) ||
    destruct (cooled_times_keeps a fuel w) as (Hs & _ & _ & _ & _ & _ & He & Hu & _).
  - left. split; [done|]. split.
    + rewrite (since_trans w _ _ He (extends_completed env folder a _)).
      by rewrite count_app, Hu, uploads_completed.
    + simpl. by rewrite Hs.
  - right. split; [done|]. split.
    + rewrite (since_trans w _ _ He (extends_failed a _)).
      by rewrite count_app, Hu, uploads_failed.
    + simpl. by rewrite Hs.
  - done.
Qed.



(** ** Uploads against the synced set *)

Lemma new_activities_NoDup {B} (f : ActivitySummary → B) A synced :
  NoDup (map f A) → NoDup (map f (new_activities A synced)).
Proof.
  induction A as [|a A IH]; cbn [new_activities map]; [done|].
  intros [Hn Hd]%NoDup_cons. case_bool_decide; [by apply IH|].
  cbn [map]. apply NoDup_cons. split; [|by apply IH].
  intros Hin. apply Hn. apply list_elem_of_fmap in Hin as (b & -> & Hb).
  apply list_elem_of_fmap. exists b. split; [done|].
  by apply new_activities_elem in Hb as [Hb _].
Qed.

Lemma for_loop_uploads_are_new_ids fuel env folder delta c w :
  NoDup (map (λ a, Py.str_int (sum_id a)) delta) →
  (∀ a, a ∈ delta → Py.str_int (sum_id a) ∉ synced_ids w) →
  let r := for_loop fuel env folder delta c w in
  size (synced_ids r.2) = (size (synced_ids w) + count is_upload (since w r.2))%nat.
Proof.
  cbv zeta. revert c w. induction delta as [|a rest IH]; intros c w Hnd Hnew.
  - simpl. rewrite since_self. unfold count. simpl. lia.
  - apply NoDup_cons in Hnd as [Ha Hnd]. rewrite for_loop_cons. cbv zeta.
    pose proof (extends_after_burst_check c w) as Hb.
    pose proof (uploads_after_burst_check c w) as Hu.
    assert (Hs1 : synced_ids (after_burst_check c w).2 = synced_ids w).
    { unfold after_burst_check. by case_bool_decide. }
    destruct (after_burst_check c w) as [c1 w1]. cbn [fst snd] in *.
    case_bool_decide as Hlim; cbn [snd].
    + rewrite (since_trans w w1 _ Hb (extends_backed_off env w1)).
      rewrite count_app, Hu, uploads_backed_off. simpl. rewrite Hs1. lia.
    + unfold mbind, M_bind.
      pose proof (retry_loop_uploads fuel env folder a c1 w1) as Hr.
      pose proof (retry_loop_extends fuel env folder a c1 w1) as He.
      cbv zeta in Hr.
      destruct (retry_loop fuel env folder a c1 w1) as [[c2| |] w2]; cbn [fst snd] in *.
      * pose proof (for_loop_extends fuel env folder rest c2 w2) as Hl.
        rewrite (since_trans w w1 _ Hb (extends_trans _ _ _ He Hl)).
        rewrite (since_trans w1 w2 _ He Hl). rewrite !count_app, Hu.
        assert (Hfresh : Py.str_int (sum_id a) ∉ synced_ids w) by (apply Hnew; left).
        destruct Hr as [(-> & Hq & Hs2) | (-> & Hq & Hs2)]; rewrite Hq.
        -- rewrite IH; [|done|].
           ++ rewrite Hs2, Hs1, size_union, size_singleton by set_solver. lia.
           ++ intros b Hb'. rewrite Hs2, Hs1. intros [Hx | Hx]%elem_of_union.
              ** apply elem_of_singleton in Hx. apply Ha. rewrite <- Hx.
                 apply list_elem_of_fmap. by exists b.
              ** revert Hx. apply Hnew. by right.
        -- rewrite IH; [|done|].
           ++ rewrite Hs2, Hs1. lia.
           ++ intros b Hb'. rewrite Hs2, Hs1. apply Hnew. by right.
      * rewrite (since_trans w w1 _ Hb He), count_app, Hu.
        destruct Hr as [-> ->]. rewrite Hs1. lia.
      * rewrite (since_trans w w1 _ Hb He), count_app, Hu.
        destruct Hr as [-> ->]. rewrite Hs1. lia.
Qed.

(** X8. When the listing names no activity twice, every upload of a run
    goes with exactly one new identifier in the synced set: the set grows
    by the number of uploads, whether they succeeded or not. *)
Theorem synced_set_grows_with_each_upload
    (fuel : nat) (env : Env) (config : SyncConfig) (w : World) :
  NoDup (map sum_id (activities env)) →
  let r := sync_activities fuel env config w in
  size (synced_ids r.2) = (size (synced_ids w) + count is_upload (since w r.2))%nat.
Proof.
  intros Hnd r. subst r. destruct (strava_ready config) eqn:Hr.
  2:{ rewrite (sync_activities_not_ready _ _ _ _ Hr). simpl. rewrite since_self.
      unfold count. simpl. lia. }
  rewrite (sync_activities_ready _ _ _ _ Hr). cbv zeta.
  set (w1 := after_backoff_check env w).
  set (w2 := called EvConnect w1). set (w3 := called EvListActivities w2).
  assert (E2 : ∃ evs, trace w2 = trace w ++ evs ∧ count is_upload evs = 0%nat).
  { eexists. split; [simpl; rewrite <- app_assoc; reflexivity|].
    simpl. change ((clock w, EvLoadBackoff) :: backoff_wait env w ++ ?l)
      with ([(clock w, EvLoadBackoff)] ++ backoff_wait env w ++ l).
    rewrite !count_app. unfold backoff_wait. destruct (loaded_marker env w); [|done].
    by case_bool_decide. }
  assert (E3 : ∃ evs, trace w3 = trace w ++ evs ∧ count is_upload evs = 0%nat).
  { destruct E2 as (evs & Ht & Hc). exists (evs ++ [(clock w2, EvListActivities)]).
    split; [|by rewrite count_app, Hc].
    change (trace w3) with (trace w2 ++ [(clock w2, EvListActivities)]).
    by rewrite Ht, app_assoc. }
  destruct (failure env (calls w1)).
  { cbn [snd]. destruct E2 as (evs & Ht & Hc). rewrite (since_app _ _ _ Ht), Hc.
    simpl. lia. }
  destruct (failure env (calls w2)).
  { cbn [snd]. destruct E3 as (evs & Ht & Hc). rewrite (since_app _ _ _ Ht), Hc.
    simpl. lia. }
  match goal with |- context [for_loop ?f ?e ?fo ?d ?c ?w0] =>
    pose proof (for_loop_uploads_are_new_ids f e fo d c w0) as Hup;
    pose proof (for_loop_extends f e fo d c w0) as He end.
  cbv zeta in Hup. rewrite Hup.
  - destruct E3 as (evs & Ht & Hc). destruct He as (_ & _ & _ & _ & evs' & Ht' & _).
    rewrite (since_app _ _ _ Ht').
    erewrite (since_app w); [|rewrite Ht', Ht, <- app_assoc; reflexivity].
    rewrite count_app, Hc. simpl. lia.
  - apply (new_activities_NoDup (λ a, Py.str_int (sum_id a))).
    rewrite <- (map_map sum_id Py.str_int).
    apply (NoDup_fmap_2 Py.str_int). exact Hnd.
  - intros a Ha. by apply new_activities_elem in Ha as [_ Ha].
Qed.

(** ** The remote file name *)

Lemma replace_char_length old new s :
  String.length (Py.replace_char old new s) = String.length s.
Proof. induction s as [|c s IH]; simpl; [done | by rewrite IH]. Qed.

Lemma replace_char_get old new s i :
  String.get i (Py.replace_char old new s)
  = (λ c, if Ascii.eqb c old then new else c) <$> String.get i s.
Proof.
  revert i. induction s as [|c s IH]; intros i; [done|].
  destruct i as [|i]; simpl; [done | apply IH].
Qed.

(** X9. The remote file name is the first ten characters of the start
    date, an underscore, the sanitised activity name and [.gpx]; the
    sanitised name has the length of the name, with [_] for every space,
    [-] for every slash and every other character unchanged, so it holds
    neither a space nor a slash.  The date part is taken as it comes. *)
Theorem remote_filename_is_sanitised (a : ActivitySummary) :
  remote_filename a
  = Py.slice_to 10 (sum_start_date a) +:+ "_" +:+ safe_name (sum_name a) +:+ ".gpx"
  ∧ String.length (safe_name (sum_name a)) = String.length (sum_name a)
  ∧ (∀ i, String.get i (safe_name (sum_name a))
          = (λ c, if Ascii.eqb c "/" then "-"%char
                  else if Ascii.eqb c " " then "_"%char else c)
            <$> String.get i (sum_name a))
  ∧ (∀ i c, String.get i (safe_name (sum_name a)) = Some c → c ≠ " "%char ∧ c ≠ "/"%char).
Proof.
  assert (Hget : ∀ i, String.get i (safe_name (sum_name a))
                      = (λ c, if Ascii.eqb c "/" then "-"%char
                              else if Ascii.eqb c " " then "_"%char else c)
                        <$> String.get i (sum_name a)).
  { intros i. unfold safe_name. rewrite !replace_char_get.
    destruct (String.get i (sum_name a)) as [c|]; [|done]. simpl. f_equal.
    destruct (Ascii.eqb c " ") eqn:E1.
    - apply Ascii.eqb_eq in E1 as ->. reflexivity.
    - reflexivity. }
  split; [reflexivity|]. split; [unfold safe_name; by rewrite !replace_char_length|].
  split; [exact Hget|].
  intros i c. rewrite Hget. destruct (String.get i (sum_name a)) as [c0|]; [|done].
  simpl. intros [= <-].
  destruct (Ascii.eqb c0 "/") eqn:E1; [done|].
  destruct (Ascii.eqb c0 " ") eqn:E2; [done|].
  apply Ascii.eqb_neq in E1, E2. done.
Qed.

(** X10. Two activities with the same name that start on the same day
    get the same remote path.  When both are completed one after the other
    and both uploads are accepted, the folder holds one track log for the
    two, that of the second; the first one is overwritten, and both are
    marked synced. *)
Theorem same_day_same_name_overwrites
    (fuel : nat) (env : Env) (folder : string) (a b : ActivitySummary) (w : World) :
  sum_name a = sum_name b →
  Py.slice_to 10 (sum_start_date a) = Py.slice_to 10 (sum_start_date b) →
  failure env (calls w) = None → failure env (2 + calls w) = None →
  failure env (4 + calls w) = None → failure env (6 + calls w) = None →
  let r := for_loop (S fuel) env folder [a; b] zero w in
  r.1 = Returns (bump (bump zero))
  ∧ remote_path folder a = remote_path folder b
  ∧ (∃ log, remote_files r.2 = <[remote_path folder b := log]> (remote_files w))
  ∧ Py.str_int (sum_id a) ∈ synced_ids r.2
  ∧ Py.str_int (sum_id b) ∈ synced_ids r.2.
Proof.
  intros Hname Hdate Ha Hup1 Hb Hup2 r. subst r. cbn [Nat.add] in Hup1, Hb, Hup2.
  assert (Hp : remote_path folder a = remote_path folder b).
  { unfold remote_path, remote_filename. by rewrite Hname, Hdate. }
  rewrite for_loop_entry_completes by (try done; vm_compute; lia).
  rewrite for_loop_entry_completes by (try done; vm_compute; lia).
  cbn [for_loop]. unfold mret, M_ret. cbn [fst snd].
  split; [reflexivity|]. split; [exact Hp|]. split; [|split].
  - cbn [completed remote_files calls]. rewrite Hup2. cbn [completed remote_files calls].
    rewrite Hup1, Hp. eexists. apply insert_insert_eq.
  - simpl. set_solver.
  - simpl. set_solver.
Qed.

(** ** The working directory and the store after a pass *)

(** X11. A pass whose detail request is answered uploads the file
    [temp_gpx_<id>.gpx] when such a file already lies in the working
    directory, and the log it has just written to [temp_gpx.gpx]
    otherwise.  It removes the file it uploaded; so in the first case the
    fresh log is never uploaded and stays behind in [temp_gpx.gpx]. *)
Theorem working_directory_after_a_pass
    (fuel : nat) (env : Env) (folder : string) (a : ActivitySummary)
    (c : Counters) (w : World) :
  failure env (calls w) = None → failure env (2 + calls w) = None →
  let r := retry_loop (S fuel) env folder a c w in
  let fresh := written env (sum_id a) w in
  match local_files w !! by_id_file a with
  | Some old =>
      remote_files r.2 !! remote_path folder a = Some old
      ∧ local_files r.2 !! by_id_file a = None
      ∧ local_files r.2 !! "temp_gpx.gpx"%string = Some fresh
  | None =>
      remote_files r.2 !! remote_path folder a = Some fresh
      ∧ local_files r.2 = delete "temp_gpx.gpx"%string (local_files w)
  end.
Proof.
  intros H0 Hup r fresh. subst r fresh. cbn [Nat.add] in Hup.
  rewrite retry_loop_S, H0. cbn [snd completed remote_files local_files].
  rewrite Hup. unfold gpx_filename, by_id_file.
  destruct (local_files w !! _) as [old|] eqn:Hold.
  - rewrite bool_decide_eq_true_2 by eauto.
    rewrite lookup_by_id, Hold. simpl. rewrite lookup_insert_eq.
    split; [done|]. split; [apply lookup_delete_eq|].
    rewrite lookup_delete_ne by (simpl; discriminate). apply lookup_insert_eq.
  - rewrite bool_decide_eq_false_2 by (intros [? ?]; congruence).
    rewrite !lookup_insert_eq. simpl. split; [by rewrite ?lookup_insert_eq|].
    apply delete_insert_eq.
Qed.

Lemma init_eq env w :
  init env w =
    (Returns tt,
     {| clock := clock w; calls := S (calls w); local_files := local_files w;
        remote_files := remote_files w; remote_synced := remote_synced w;
        remote_backoff := remote_backoff w;
        synced_ids := match failure env (calls w) with
                      | None => default ∅ (remote_synced w)
                      | Some _ => ∅
                      end;
        streams := streams w; trace := trace w |}).
Proof.
  unfold init, load_synced_ids. run.
  destruct (failure env (calls w)); simpl; [reflexivity|].
  destruct (remote_synced w); reflexivity.
Qed.

(** X12. When the detail request, the upload and the write of the synced
    document are all answered, the activity is durably done: its track log
    is in the folder, the stored document is the synced set with its
    identifier in it, and an orchestrator built afterwards that reads the
    document does not find the activity among the new ones. *)
Theorem completed_activity_is_not_synced_again
    (fuel : nat) (env : Env) (folder : string) (a : ActivitySummary)
    (c : Counters) (w : World) (listing : list ActivitySummary) :
  failure env (calls w) = None → failure env (2 + calls w) = None →
  failure env (3 + calls w) = None → failure env (4 + calls w) = None →
  let r := retry_loop (S fuel) env folder a c w in
  let restarted := (init env r.2).2 in
  r.1 = Returns (bump c)
  ∧ is_Some (remote_files r.2 !! remote_path folder a)
  ∧ remote_synced r.2 = Some (synced_ids r.2)
  ∧ Py.str_int (sum_id a) ∈ synced_ids r.2
  ∧ synced_ids restarted = synced_ids r.2
  ∧ (a ∉ new_activities listing (synced_ids restarted)).
Proof.
  intros H0 Hup Hsave Hload r restarted. subst r restarted. cbn [Nat.add] in *.
  rewrite retry_loop_S, H0. cbn [fst snd]. rewrite init_eq.
  cbn [snd synced_ids completed remote_files remote_synced calls].
  rewrite Hup, Hsave, Hload. simpl.
  split; [done|]. split; [rewrite lookup_insert_eq; eauto|]. split; [done|].
  split; [set_solver|]. split; [done|].
  rewrite new_activities_elem. set_solver.
Qed.

(** X13. When the upload is accepted but the write of the synced document
    fails, and the store holds no synced document yet, the two entry points
    differ.  The orchestrator object that did the upload keeps the
    identifier in memory and will not list the activity as new; an
    orchestrator built afterwards reads an empty set and uploads the
    activity again. *)
Theorem failed_persist_is_uploaded_again_after_restart
    (fuel : nat) (env : Env) (folder : string) (a : ActivitySummary)
    (c : Counters) (w : World) (listing : list ActivitySummary) (msg : string) :
  failure env (calls w) = None → failure env (2 + calls w) = None →
  failure env (3 + calls w) = Some msg →
  remote_synced w = None →
  a ∈ listing →
  let r := retry_loop (S fuel) env folder a c w in
  let restarted := (init env r.2).2 in
  r.1 = Returns (bump c)
  ∧ is_Some (remote_files r.2 !! remote_path folder a)
  ∧ remote_synced r.2 = None
  ∧ (a ∉ new_activities listing (synced_ids r.2))
  ∧ synced_ids restarted = ∅
  ∧ a ∈ new_activities listing (synced_ids restarted).
Proof.
  intros H0 Hup Hsave Hnone Hin r restarted. subst r restarted. cbn [Nat.add] in *.
  rewrite retry_loop_S, H0. cbn [fst snd]. rewrite init_eq.
  cbn [snd synced_ids completed remote_files remote_synced calls].
  rewrite Hup, Hsave, Hnone. simpl.
  split; [done|]. split; [rewrite lookup_insert_eq; eauto|]. split; [done|].
  split; [rewrite new_activities_elem; set_solver|].
  destruct (failure env (S (S (S (S (calls w))))));
    (split; [done|]; rewrite new_activities_elem; set_solver).
Qed.

(** X14. A failed read of the synced document when the orchestrator is
    built counts as an empty set.  The first activity completed after that
    stores a document with its identifier alone: the identifiers the store
    held before are lost. *)
Theorem failed_read_loses_the_stored_ids
    (fuel : nat) (env : Env) (folder : string) (a : ActivitySummary)
    (c : Counters) (w : World) (stored : gset string) (msg : string) :
  remote_synced w = Some stored →
  failure env (calls w) = Some msg →
  failure env (1 + calls w) = None → failure env (4 + calls w) = None →
  let built := (init env w).2 in
  let r := retry_loop (S fuel) env folder a c built in
  synced_ids built = ∅
  ∧ r.1 = Returns (bump c)
  ∧ remote_synced r.2 = Some {[Py.str_int (sum_id a)]}
  ∧ (∀ s, s ∈ stored → s ≠ Py.str_int (sum_id a) →
          ∀ ids, remote_synced r.2 = Some ids → s ∉ ids).
Proof.
  intros Hst Hload H0 Hsave built r. subst r built. cbn [Nat.add] in *.
  rewrite init_eq, Hload. cbn [snd synced_ids].
  rewrite retry_loop_S. cbn [calls]. rewrite H0. cbn [fst snd completed remote_synced calls].
  rewrite Hsave. cbn [synced_ids].
  assert (E : ({[Py.str_int (sum_id a)]} ∪ ∅ : gset string) = {[Py.str_int (sum_id a)]})
    by set_solver.
  rewrite E. split; [done|]. split; [done|]. split; [done|].
  intros s _ Hne ids [= <-]. set_solver.
Qed.

(** ** The state store *)

(** X15. Reading from the state store never fails.  A failed request and a
    missing document both read as nothing: the empty set for the synced
    identifiers, no marker for the backoff.  Apart from the request made,
    the world is left as it was. *)
Theorem state_store_reads_never_fail (env : Env) (w : World) :
  load_synced_ids env w
  = (Returns (match failure env (calls w) with
              | None => default ∅ (remote_synced w)
              | Some _ => ∅
              end),
     {| clock := clock w; calls := S (calls w); local_files := local_files w;
        remote_files := remote_files w; remote_synced := remote_synced w;
        remote_backoff := remote_backoff w; synced_ids := synced_ids w;
        streams := streams w; trace := trace w |})
  ∧ load_backoff_until env w
    = (Returns (match failure env (calls w) with
                | None => remote_backoff w
                | Some _ => None
                end),
       called EvLoadBackoff w).
Proof.
  split.
  - unfold load_synced_ids. run. destruct (failure env (calls w)); simpl; [reflexivity|].
    destruct (remote_synced w); reflexivity.
  - unfold load_backoff_until, called. run.
    destruct (failure env (calls w)); simpl; [reflexivity|].
    destruct (remote_backoff w); reflexivity.
Qed.

(** X16. Writing to the state store never fails either, and what was
    written is what is read back: after [save_synced_ids ids] a load
    returns [ids], after [save_backoff_until t] a load returns [t],
    provided the requests are answered.  When the write is refused the
    load returns what the store held before. *)
Theorem state_store_round_trip (env : Env) (w : World) (ids : gset string) (t : Z) :
  failure env (S (calls w)) = None →
  ((save_synced_ids env ids ≫= λ _, load_synced_ids env) w).1
  = Returns (match failure env (calls w) with
             | None => ids
             | Some _ => default ∅ (remote_synced w)
             end)
  ∧ ((save_backoff_until env t ≫= λ _, load_backoff_until env) w).1
    = Returns (match failure env (calls w) with
               | None => Some t
               | Some _ => remote_backoff w
               end).
Proof.
  intros H1. split.
  - unfold save_synced_ids, load_synced_ids. run.
    destruct (failure env (calls w)); simpl; rewrite H1; simpl; [|reflexivity].
    destruct (remote_synced w); reflexivity.
  - unfold save_backoff_until, load_backoff_until. run.
    destruct (failure env (calls w)); simpl; rewrite H1; simpl; [|reflexivity].
    destruct (remote_backoff w); reflexivity.
Qed.

(** X17. [upload_gpx] never raises.  It sends the content of the local
    file to its path under the target folder when the file exists and the
    request is answered, and changes nothing in the folder otherwise; a
    missing local file costs no request.  The local files and the synced
    set are never touched. *)
Theorem upload_gpx_never_raises
    (env : Env) (folder local_path name : string) (w : World) :
  let r := upload_gpx env folder local_path name w in
  let path := folder +:+ "/" +:+ name in
  r.1 = Returns tt
  ∧ remote_files r.2
    = match local_files w !! local_path, failure env (calls w) with
      | Some content, None => <[path := content]> (remote_files w)
      | _, _ => remote_files w
      end
  ∧ calls r.2 = match local_files w !! local_path with
                 | Some _ => S (calls w)
                 | None => calls w
                 end
  ∧ local_files r.2 = local_files w
  ∧ synced_ids r.2 = synced_ids w
  ∧ remote_synced r.2 = remote_synced w
  ∧ trace r.2 = trace w ++ [(clock w, EvUploadGpx local_path path)].
Proof.
  cbv zeta. unfold upload_gpx. run.
  destruct (local_files w !! local_path) as [content|]; simpl; [|done].
  destruct (failure env (calls w)); simpl; done.
Qed.

(** ** The encoder *)

(** X18. What [write_to_gpx] leaves in the file, in every case in which
    the detail request is answered: the header followed by the footer, and
    after them the track points and the footer once more when the encoding
    went through.  When it did not (the streams request failed, the
    position or the time stream is missing, their sizes differ, or a sample
    could not be encoded) the file is the header and footer alone; no
    exception leaves [write_to_gpx] in either case. *)
Theorem track_log_in_every_case (env : Env) (activity_id : Z) (w : World) :
  failure env (calls w) = None →
  (write_to_gpx env activity_id "temp_gpx" w).1 = Returns tt
  ∧ written env activity_id w
    = gpx_header (detail env activity_id) +:+ gpx_footer
      +:+ match encoded env activity_id w with
          | Some pts => String.concat "" pts +:+ gpx_footer
          | None => ""
          end.
Proof.
  intros H0. split; [by rewrite (write_to_gpx_written _ _ _ H0)|].
  assert (Hnil : ∀ s : string, s +:+ "" = s).
  { induction s as [|c s IH]; [done|].
    change (String c s +:+ "") with (String c (s +:+ "")). by rewrite IH. }
  unfold encoded. destruct (failure env (S (calls w))) as [msg|] eqn:H1.
  { rewrite (written_streams_fail _ _ _ _ H0 H1). by rewrite Hnil. }
  unfold written, write_to_gpx, get_strava_activity, get_data_stream, detect_activity_streams.
  run. rewrite H0. simpl. rewrite H1. simpl.
  destruct (ds_latlng _) as [ll|]; simpl; [|by rewrite lookup_insert_eq, Hnil].
  destruct (ds_time _) as [tm|]; simpl; [|by rewrite lookup_insert_eq, Hnil].
  destruct (original_size ll =? original_size tm); simpl;
    [|by rewrite lookup_insert_eq, Hnil].
  unfold flags_of.
  destruct (trkpts _ _ _ _) as [pts|]; simpl; [|by rewrite lookup_insert_eq, Hnil].
  rewrite !lookup_insert_eq. simpl. rewrite ?lookup_insert_eq. simpl.
  by rewrite !append_assoc.
Qed.

(** X19. The streams request asks for [time], [latlng] and [altitude]
    always, and for heart rate, cadence, power and temperature exactly when
    the switch of that stream is on, in this order. *)
Theorem requested_streams (fl : StreamFlags) :
  String.prefix "time,latlng,altitude" (query_params fl) = true
  ∧ Py.contains ",heartrate" (query_params fl) = fl_heartrate fl
  ∧ Py.contains ",cadence" (query_params fl) = fl_cadence fl
  ∧ Py.contains ",watts" (query_params fl) = fl_watts fl
  ∧ Py.contains ",temp" (query_params fl) = fl_temp fl
  ∧ query_params fl
    = Py.join ","
        (concat
           [ ["time"; "latlng"; "altitude"];
             if fl_heartrate fl then ["heartrate"] else [];
             if fl_cadence fl then ["cadence"] else [];
             if fl_watts fl then ["watts"] else [];
             if fl_temp fl then ["temp"] else [] ])%string.
Proof.
  destruct fl as [[] [] [] []]; vm_compute; repeat split.
Qed.

Lemma extension_same flag tag (s s' : option (Stream Z)) i :
  (flag = true → s = s') → extension flag tag s i = extension flag tag s' i.
Proof. intros H. unfold extension. destruct flag; [by rewrite H | done]. Qed.

(** X20. The encoder reads a stream only if it was asked for: two stream
    answers that agree on [time], [latlng], [altitude] and on every
    optional stream whose switch is on give the same track points, and the
    same failure. *)
Theorem encoding_reads_only_requested_streams
    (activity : Activity) (fl : StreamFlags) (ds ds' : DataStreams) (n : Z) :
  same_requested fl ds ds' →
  trkpts activity fl ds n = trkpts activity fl ds' n.
Proof.
  intros (Ht & Hl & Ha & Hh & Hc & Hw & Hp). unfold trkpts.
  apply mapM_ext. intros i. unfold trkpt. rewrite Ht, Hl, Ha.
  by rewrite (extension_same _ _ _ _ i Hp), (extension_same _ _ _ _ i Hw),
    (extension_same _ _ _ _ i Hh), (extension_same _ _ _ _ i Hc).
Qed.

(** ** The listing, page by page *)

Lemma get_strava_activities_eq env pages page w :
  get_strava_activities env pages page w =
    match failure env (calls w) with
    | Some msg => (Raises (ServiceError msg), called EvListActivities w)
    | None => (Returns (pages page), called EvListActivities w)
    end.
Proof.
  unfold get_strava_activities, called. run. by destruct (failure env (calls w)).
Qed.

Lemma listed_times_S k w :
  listed_times (S k) w = listed_times k (called EvListActivities w).
Proof. unfold listed_times. apply Nat.iter_succ_r. Qed.

Lemma listed_times_calls k w : calls (listed_times k w) = (k + calls w)%nat.
Proof.
  induction k as [|k IH]; [done|].
  change (listed_times (S k) w) with (called EvListActivities (listed_times k w)).
  simpl. by rewrite IH.
Qed.

Lemma pages_up_to_S pages k :
  pages_up_to pages (S k) = pages_up_to pages k ++ pages (Z.of_nat (S k)).
Proof.
  unfold pages_up_to. rewrite seq_S, map_app, concat_app. simpl. by rewrite app_nil_r.
Qed.

(** The loop, entered with page [j] in hand and pages [1..j] in the list. *)
Lemma next_pages_runs fuel env pages (j k : nat) w :
  (j ≤ k)%nat → (1 ≤ j)%nat →
  (∀ i, (j ≤ i ≤ k)%nat → pages (Z.of_nat i) ≠ []) →
  pages (Z.of_nat (S k)) = [] →
  (∀ i, (i ≤ k - j)%nat → failure env (calls w + i) = None) →
  (k - j + 1 < fuel)%nat →
  next_pages fuel env pages (Z.of_nat j) (pages (Z.of_nat j)) (pages_up_to pages j) w
  = (Returns (pages_up_to pages k), listed_times (S k - j) w).
Proof.
  intros Hjk Hj. remember (k - j)%nat as d eqn:Hd.
  revert j w fuel Hjk Hj Hd. induction d as [|d IH]; intros j w fuel Hjk Hj Hd Hne Hend Hok Hfuel.
  - assert (j = k) as -> by lia.
    destruct fuel as [|[|fuel]]; [lia | lia |]. cbn [next_pages].
    rewrite bool_decide_eq_true_2
      by (specialize (Hne k ltac:(lia)); destruct (pages (Z.of_nat k)); [done | simpl; lia]).
    unfold mbind at 1, M_bind at 1. rewrite get_strava_activities_eq.
    rewrite <- (Nat.add_0_r (calls w)), (Hok 0%nat ltac:(lia)).
    replace (Z.of_nat k + 1) with (Z.of_nat (S k)) by lia. rewrite Hend.
    rewrite bool_decide_eq_false_2 by (simpl; lia).
    rewrite app_nil_r. replace (S k - k)%nat with 1%nat by lia. reflexivity.
  - destruct fuel as [|fuel]; [lia|]. cbn [next_pages].
    rewrite bool_decide_eq_true_2
      by (specialize (Hne j ltac:(lia)); destruct (pages (Z.of_nat j)); [done | simpl; lia]).
    unfold mbind at 1, M_bind at 1. rewrite get_strava_activities_eq.
    rewrite <- (Nat.add_0_r (calls w)), (Hok 0%nat ltac:(lia)).
    replace (Z.of_nat j + 1) with (Z.of_nat (S j)) by lia.
    rewrite <- pages_up_to_S.
    rewrite (IH (S j)); try lia.
    + replace (S k - j)%nat with (S (S k - S j)) by lia. by rewrite listed_times_S.
    + intros i Hi. apply Hne. lia.
    + done.
    + intros i Hi. simpl. rewrite <- Nat.add_succ_r. apply Hok. lia.
Qed.

(** X21. When pages 1 to [k] of the listing hold activities, page [k+1] is
    empty and the [k+1] requests are answered, [get_activities_list]
    returns the activities of pages 1 to [k] in page order, each page in
    its own order, after exactly [k+1] requests.  With an empty first page
    ([k = 0]) that is the empty list after a single request. *)
Theorem listing_is_all_pages_in_order
    (fuel k : nat) (env : Env) (pages : Z → list ActivitySummary) (w : World) :
  (∀ i, (1 ≤ i ≤ k)%nat → pages (Z.of_nat i) ≠ []) →
  pages (Z.of_nat (S k)) = [] →
  (∀ i, (i ≤ k)%nat → failure env (calls w + i) = None) →
  (k < fuel)%nat →
  let r := get_activities_list_paged fuel env pages w in
  r = (Returns (pages_up_to pages k), listed_times (S k) w)
  ∧ calls r.2 = (S k + calls w)%nat
  ∧ clock r.2 = clock w.
Proof.
  intros Hne Hend Hok Hfuel r. subst r.
  assert (E : get_activities_list_paged fuel env pages w
              = (Returns (pages_up_to pages k), listed_times (S k) w)).
  { unfold get_activities_list_paged. unfold mbind at 1, M_bind at 1.
    rewrite get_strava_activities_eq.
    rewrite <- (Nat.add_0_r (calls w)), (Hok 0%nat ltac:(lia)).
    destruct k as [|k].
    - change (Z.of_nat 1) with 1 in Hend. rewrite Hend.
      destruct fuel as [|fuel]; [lia|]. reflexivity.
    - change 1 with (Z.of_nat 1).
      replace (pages (Z.of_nat 1)) with (pages_up_to pages 1) at 2
        by (unfold pages_up_to; simpl; by rewrite app_nil_r).
      rewrite (next_pages_runs fuel env pages 1 (S k)); try lia; try done.
      + replace (S (S k) - 1)%nat with (S k) by lia. by rewrite <- listed_times_S.
      + intros i Hi. simpl. rewrite <- Nat.add_succ_r. apply Hok. lia. }
  rewrite E. split; [done|]. cbn [snd]. split; [apply listed_times_calls|].
  clear. induction (S k) as [|n IH]; [done|].
  change (listed_times (S n) w) with (called EvListActivities (listed_times n w)).
  simpl. exact IH.
Qed.

Lemma next_pages_sound fuel env pages (j : nat) w l w' :
  (1 ≤ j)%nat →
  (∀ i, (1 ≤ i < j)%nat → pages (Z.of_nat i) ≠ []) →
  next_pages fuel env pages (Z.of_nat j) (pages (Z.of_nat j)) (pages_up_to pages j) w
  = (Returns l, w') →
  ∃ k, (j ≤ S k)%nat ∧ l = pages_up_to pages k
       ∧ pages (Z.of_nat (S k)) = []
       ∧ (∀ i, (1 ≤ i ≤ k)%nat → pages (Z.of_nat i) ≠ [])
       ∧ w' = listed_times (S k - j) w
       ∧ (∀ i, (i < S k - j)%nat → failure env (calls w + i) = None).
Proof.
  revert j w. induction fuel as [|fuel IH]; intros j w Hj Hne E; [done|].
  cbn [next_pages] in E. case_bool_decide as Hlen.
  - unfold mbind at 1, M_bind at 1 in E. rewrite get_strava_activities_eq in E.
    destruct (failure env (calls w)) as [msg|] eqn:Hf; [done|].
    replace (Z.of_nat j + 1) with (Z.of_nat (S j)) in E by lia.
    rewrite <- pages_up_to_S in E.
    apply IH in E as (k & Hk & -> & Hend & Hall & -> & Hok); [|lia|].
    + exists k. split; [lia|]. split; [done|]. split; [done|]. split; [done|]. split.
      * replace (S k - j)%nat with (S (S k - S j)) by lia. by rewrite listed_times_S.
      * intros i Hi. destruct i as [|i]; [by rewrite Nat.add_0_r|].
        rewrite Nat.add_succ_r. apply (Hok i). lia.
    + intros i Hi. destruct (decide (i = j)) as [->|]; [|apply Hne; lia].
      intros Hnil. apply Hlen. by rewrite Hnil.
  - injection E as <- <-. destruct j as [|j]; [lia|].
    assert (Hnil : pages (Z.of_nat (S j)) = []).
    { destruct (pages (Z.of_nat (S j))); [done | simpl in Hlen; lia]. }
    exists j. split; [lia|]. split; [by rewrite pages_up_to_S, Hnil, app_nil_r|].
    split; [done|]. split; [intros i Hi; apply Hne; lia|].
    split; [by replace (S j - S j)%nat with 0%nat by lia | intros i Hi; lia].
Qed.

(** X22. Whatever [get_activities_list] returns is the whole listing: the
    activities of every page up to the first empty one, in order, with
    every request on the way answered.  A listing cut short by a failed
    request is never returned. *)
Theorem listing_is_never_partial
    (fuel : nat) (env : Env) (pages : Z → list ActivitySummary) (w : World)
    (l : list ActivitySummary) :
  (get_activities_list_paged fuel env pages w).1 = Returns l →
  ∃ k, l = pages_up_to pages k
       ∧ pages (Z.of_nat (S k)) = []
       ∧ (∀ i, (1 ≤ i ≤ k)%nat → pages (Z.of_nat i) ≠ [])
       ∧ (∀ i, (i ≤ k)%nat → failure env (calls w + i) = None)
       ∧ (get_activities_list_paged fuel env pages w).2 = listed_times (S k) w.
Proof.
  assert (Eq : get_activities_list_paged fuel env pages w
               = match failure env (calls w) with
                 | Some msg => (Raises (ServiceError msg), called EvListActivities w)
                 | None => next_pages fuel env pages 1 (pages 1) (pages 1)
                             (called EvListActivities w)
                 end).
  { unfold get_activities_list_paged. unfold mbind at 1, M_bind at 1.
    rewrite get_strava_activities_eq. by destruct (failure env (calls w)). }
  rewrite Eq. clear Eq.
  destruct (failure env (calls w)) as [msg|] eqn:Hf; [done|].
  destruct (next_pages fuel env pages 1 (pages 1) (pages 1)
              (called EvListActivities w)) as [o w'] eqn:E.
  cbn [fst snd]. intros ->.
  change 1 with (Z.of_nat 1) in E.
  replace (pages (Z.of_nat 1)) with (pages_up_to pages 1) in E at 2
    by (unfold pages_up_to; simpl; by rewrite app_nil_r).
  apply next_pages_sound in E as (k & Hk & -> & Hend & Hall & -> & Hok); [|lia|intros; lia].
  exists k. split; [done|]. split; [done|]. split; [done|]. split.
  - intros i Hi. destruct i as [|i]; [by rewrite Nat.add_0_r|].
    rewrite Nat.add_succ_r. apply (Hok i). lia.
  - replace (S k - 1)%nat with k by lia. by rewrite <- listed_times_S.
Qed.

(** ** The request executor *)

(** The wait [_handle_rate_limit] computes. *)
Lemma make_request_S {A} fuel utc_offset (http : nat → Response A) w :
  make_request (S fuel) utc_offset http w =
    let r := http (calls w) in
    let w1 := requested_times 1 w in
    if status r =? 200 then (Returns (body r), w1)
    else if status r =? 429 then
      match reset r with
      | ResetAt t =>
          make_request fuel utc_offset http
            (slept (Z.max 0 (t * SECOND - (clock w - utc_offset)) + 10 * SECOND) w1)
      | BadReset v =>
          (Raises (ValueError ("invalid literal for int() with base 10: '" +:+ v +:+ "'")),
           w1)
      | NoReset => (Raises (http_error r), w1)
      end
    else if 400 <=? status r then (Raises (http_error r), w1)
    else make_request fuel utc_offset http w1.
Proof.
  cbn [make_request]. unfold request, handle_rate_limit, raise_for_status, requested_times,
    utcnow_timestamp.
  run. destruct (status (http (calls w)) =? 200) eqn:E200; [reflexivity|].
  destruct (status (http (calls w)) =? 429) eqn:E429; simpl.
  - destruct (reset (http (calls w))); simpl; try reflexivity.
    apply Z.eqb_eq in E429. rewrite E429. reflexivity.
  - destruct (400 <=? status (http (calls w))); reflexivity.
Qed.

(** X23. [_make_request] returns nothing but the body of a response with
    status 200, the last one it received; every response before it was one
    the executor asks again for: a 429 with a reset time, or a status below
    400. *)
Theorem only_a_200_body_is_returned
    {A : Type} (fuel : nat) (utc_offset : Z) (http : nat → Response A)
    (w w' : World) (a : A) :
  make_request fuel utc_offset http w = (Returns a, w') →
  ∃ n, calls w' = S n ∧ (calls w ≤ n)%nat
       ∧ status (http n) = 200 ∧ body (http n) = a
       ∧ (∀ m, (calls w ≤ m < n)%nat →
               status (http m) ≠ 200
               ∧ (status (http m) < 400
                  ∨ status (http m) = 429 ∧ ∃ t, reset (http m) = ResetAt t))
       ∧ clock w ≤ clock w'.
Proof.
  revert w. induction fuel as [|fuel IH]; intros w E; [done|].
  rewrite make_request_S in E. cbv zeta in E.
  destruct (status (http (calls w)) =? 200) eqn:E200.
  { injection E as <- <-. apply Z.eqb_eq in E200. exists (calls w).
    split; [done|]. split; [lia|]. split; [done|]. split; [done|].
    split; [intros; lia | simpl; lia]. }
  apply Z.eqb_neq in E200.
  assert (Hstep : ∀ w1, calls w1 = S (calls w) → clock w ≤ clock w1 →
            (status (http (calls w)) < 400
             ∨ status (http (calls w)) = 429 ∧ ∃ t, reset (http (calls w)) = ResetAt t) →
            make_request fuel utc_offset http w1 = (Returns a, w') →
            ∃ n, calls w' = S n ∧ (calls w ≤ n)%nat
                 ∧ status (http n) = 200 ∧ body (http n) = a
                 ∧ (∀ m, (calls w ≤ m < n)%nat →
                         status (http m) ≠ 200
                         ∧ (status (http m) < 400
                            ∨ status (http m) = 429 ∧ ∃ t, reset (http m) = ResetAt t))
                 ∧ clock w ≤ clock w').
  { intros w1 Hc Hk Hkind E1. apply IH in E1 as (n & Hn & Hle & Hs & Hb & Hall & Hcl).
    exists n. split; [done|]. split; [lia|]. split; [done|]. split; [done|].
    split; [|lia]. intros m Hm. destruct (decide (m = calls w)) as [->|]; [done|].
    apply Hall. lia. }
  destruct (status (http (calls w)) =? 429) eqn:E429.
  - apply Z.eqb_eq in E429. destruct (reset (http (calls w))) as [|v|t] eqn:Er; [done|done|].
    eapply Hstep; [| |right; eauto|exact E]; simpl; lia.
  - destruct (400 <=? status (http (calls w))) eqn:E400; [done|].
    apply Z.leb_gt in E400. eapply Hstep; [| |left; exact E400|exact E]; simpl; lia.
Qed.


Lemma prefix_refl_append s rest : String.prefix s (s +:+ rest) = true.
Proof.
  induction s as [|c s IH]; [by destruct (""%string +:+ rest)|].
  change (String c s +:+ rest) with (String c (s +:+ rest)). simpl.
  destruct (ascii_dec c c); [exact IH | done].
Qed.

Lemma contains_of_prefix n s : String.prefix n s = true → Py.contains n s = true.
Proof. intros H. destruct s; cbn [Py.contains]; by rewrite H. Qed.

(** X25. A 429 without a reset time is not handled by the executor: it is
    raised at once, without a wait, as an error whose text begins with the
    status code.  The orchestrator's test takes that text for a rate limit,
    so when it comes from the detail request the retry loop sleeps its
    fifteen minutes and tries the activity again. *)
Theorem bare_429_reaches_the_retry_loop
    {A : Type} (fuel : nat) (utc_offset : Z) (http : nat → Response A) (w : World) :
  status (http (calls w)) = 429 →
  reset (http (calls w)) = NoReset →
  let e := http_error (http (calls w)) in
  make_request (S fuel) utc_offset http w = (Raises e, requested_times 1 w)
  ∧ is_rate_limit (exc_str e) = true
  ∧ (∀ fuel' env folder a c w0,
       failure env (calls w0) = Some (exc_str e) →
       retry_loop (S fuel') env folder a c w0
       = retry_loop fuel' env folder a c (cooled a w0)).
Proof.
  intros Hs Hr e. subst e.
  assert (Hm : make_request (S fuel) utc_offset http w
               = (Raises (http_error (http (calls w))), requested_times 1 w)).
  { rewrite make_request_S. cbv zeta. by rewrite Hs, Hr. }
  assert (Hrl : is_rate_limit (exc_str (http_error (http (calls w)))) = true).
  { unfold http_error, exc_str, is_rate_limit. rewrite Hs.
    change (Py.str_int 429) with "429"%string.
    apply orb_true_iff. left. apply contains_of_prefix, prefix_refl_append. }
  split; [exact Hm|]. split; [exact Hrl|].
  intros fuel' env folder a c w0 Hf. by rewrite retry_loop_S, Hf, Hrl.
Qed.

(** X26. A response whose status is neither 200 nor an error (below 400)
    is asked for again at once.  While such responses keep coming the
    executor neither returns nor raises nor waits: it uses up any fuel with
    the clock standing still. *)
Theorem other_success_status_spins
    {A : Type} (fuel : nat) (utc_offset : Z) (http : nat → Response A) (w : World) :
  (∀ n, (calls w ≤ n)%nat → status (http n) ≠ 200 ∧ status (http n) < 400) →
  make_request fuel utc_offset http w = (OutOfFuel, requested_times fuel w)
  ∧ clock (requested_times fuel w) = clock w.
Proof.
  intros Hall. split; [|reflexivity].
  revert w Hall. induction fuel as [|fuel IH]; intros w Hall.
  - destruct w. reflexivity.
  - rewrite make_request_S. cbv zeta.
    destruct (Hall (calls w) ltac:(lia)) as [H200 H400].
    rewrite (proj2 (Z.eqb_neq _ _) H200).
    rewrite (proj2 (Z.eqb_neq _ 429)) by lia.
    rewrite (proj2 (Z.leb_gt _ _)) by lia.
    rewrite IH.
    + unfold requested_times. simpl. do 2 f_equal. lia.
    + intros n Hn. apply Hall. simpl in Hn. lia.
Qed.

(** ** The service loop *)

Lemma waited_S k w : waited (S k) w = waited k (slept SECOND w).
Proof. unfold waited. apply Nat.iter_succ_r. Qed.

Lemma waited_clock k w : clock (waited k w) = clock w + Z.of_nat k * SECOND.
Proof.
  induction k as [|k IH]; [simpl; lia|].
  change (waited (S k) w) with (slept SECOND (waited k w)).
  simpl. rewrite IH. unfold SECOND. lia.
Qed.

Lemma waited_calls k w : calls (waited k w) = calls w.
Proof.
  induction k as [|k IH]; [done|].
  change (waited (S k) w) with (slept SECOND (waited k w)). simpl. exact IH.
Qed.

(** X27. The interruptible wait of the service sleeps second by second
    while the shutdown flag is up, [n] seconds at most.  It never raises;
    it ends early exactly when it finds the flag down at a check, so once
    the flag is down for good the wait is over less than a second later. *)
Theorem wait_ends_within_a_second_of_shutdown
    (running : Z → bool) (n : nat) (w : World) :
  ∃ k, (k ≤ n)%nat
       ∧ wait_running running n w = (Returns tt, waited k w)
       ∧ clock (waited k w) = clock w + Z.of_nat k * SECOND
       ∧ (∀ i, (i < k)%nat → running (clock w + Z.of_nat i * SECOND) = true)
       ∧ ((k < n)%nat → running (clock w + Z.of_nat k * SECOND) = false)
       ∧ (∀ t0, clock w ≤ t0 → (∀ t, t0 ≤ t → running t = false) →
                clock (waited k w) < t0 + SECOND).
Proof.
  revert w. induction n as [|n IH]; intros w.
  - exists 0%nat. split; [lia|]. split; [reflexivity|]. split; [simpl; lia|].
    split; [intros; lia|]. split; [intros; lia|]. intros t0 Ht0 _. simpl. unfold SECOND. lia.
  - cbn [wait_running]. unfold mbind at 1, M_bind at 1, get_world at 1.
    destruct (running (clock w)) eqn:Hrun.
    + destruct (IH (slept SECOND w)) as (k & Hk & E & Hc & Hup & Hdown & Hstop).
      exists (S k). split; [lia|]. split.
      { unfold mbind, M_bind, sleep. unfold slept in E. rewrite E. by rewrite waited_S. }
      rewrite waited_clock. split; [done|].
      assert (Hcl : clock (slept SECOND w) = clock w + SECOND) by (simpl; unfold SECOND; lia).
      split; [|split].
      * intros i Hi. destruct i as [|i];
          [by replace (clock w + Z.of_nat 0 * SECOND) with (clock w) by (simpl; lia)|].
        specialize (Hup i ltac:(lia)). rewrite Hcl in Hup.
        replace (clock w + Z.of_nat (S i) * SECOND)
          with (clock w + SECOND + Z.of_nat i * SECOND) by lia. exact Hup.
      * intros Hlt. specialize (Hdown ltac:(lia)). rewrite Hcl in Hdown.
        replace (clock w + Z.of_nat (S k) * SECOND)
          with (clock w + SECOND + Z.of_nat k * SECOND) by lia. exact Hdown.
      * intros t0 Ht0 Hoff.
        destruct (decide (t0 ≤ clock w)) as [Hle|Hgt].
        { rewrite (Hoff (clock w) Hle) in Hrun. done. }
        destruct (decide (clock w + SECOND ≤ t0)) as [Hle2|Hgt2].
        -- specialize (Hstop t0 ltac:(lia) Hoff). rewrite waited_clock in Hstop. lia.
        -- destruct k as [|k]; [unfold SECOND in *; lia|].
           specialize (Hup 0%nat ltac:(lia)). rewrite Hcl in Hup.
           rewrite Hoff in Hup by (unfold SECOND in *; lia). done.
    + exists 0%nat. split; [lia|]. split; [reflexivity|]. split; [simpl; lia|].
      split; [intros; lia|].
      split; [intros _; by replace (clock w + Z.of_nat 0 * SECOND) with (clock w)
                             by (simpl; lia)|].
      intros t0 Ht0 _. simpl. unfold SECOND. lia.
Qed.

Lemma wait_running_returns running n w :
  ∃ w', wait_running running n w = (Returns tt, w').
Proof.
  revert w. induction n as [|n IH]; intros w; [by eexists|].
  cbn [wait_running]. unfold mbind at 1, M_bind at 1, get_world at 1.
  destruct (running (clock w)); [|by eexists].
  unfold mbind, M_bind, sleep. apply IH.
Qed.

(** X28. The service loop never raises, whatever a run does: an exception
    of a run (or of building the orchestrator) only sends the loop through
    its backoff wait.  When the shutdown flag is down at the top of a
    cycle, the loop ends there and then without touching anything. *)
Theorem service_never_raises
    (cycles fuel : nat) (env : Env) (config : SyncConfig) (running : Z → bool)
    (sleep_interval backoff : Z) (w : World) (e : PyExc) :
  (service_loop cycles fuel env config running sleep_interval backoff w).1 ≠ Raises e
  ∧ (running (clock w) = false →
     service_loop (S cycles) fuel env config running sleep_interval backoff w
     = (Returns tt, w)).
Proof.
  split.
  - revert backoff w. induction cycles as [|cycles IH]; intros backoff w; [done|].
    cbn [service_loop]. unfold mbind at 1, M_bind at 1, get_world at 1.
    destruct (running (clock w)); [|done].
    unfold mbind at 1, M_bind at 1, try_except at 1.
    match goal with |- context [match ?body w with _ => _ end] =>
      destruct (body w) as [[b| e'|] w1] end.
    + apply IH.
    + unfold mbind at 1, M_bind at 1.
      destruct (wait_running_returns running (Z.to_nat backoff) w1) as (w2 & ->).
      apply IH.
    + done.
  - intros Hoff. cbn [service_loop]. unfold mbind at 1, M_bind at 1, get_world at 1.
    by rewrite Hoff.
Qed.

Lemma wait_running_all running n w :
  (∀ t, running t = true) → wait_running running n w = (Returns tt, waited n w).
Proof.
  intros Hon. revert w. induction n as [|n IH]; intros w; [reflexivity|].
  cbn [wait_running]. unfold mbind at 1, M_bind at 1, get_world at 1. rewrite Hon.
  unfold mbind, M_bind, sleep. rewrite waited_S. apply IH.
Qed.

(** A cycle whose run fails on the credentials. *)
Lemma failing_cycle cycles fuel env config running sleep_interval backoff w :
  strava_ready config = false → (∀ t, running t = true) →
  service_loop (S cycles) fuel env config running sleep_interval backoff w
  = service_loop cycles fuel env config running sleep_interval (Z.min (backoff * 2) 3600)
      (waited (Z.to_nat backoff) (init env w).2).
Proof.
  intros Hr Hon. cbn [service_loop]. unfold mbind at 1, M_bind at 1, get_world at 1.
  rewrite Hon. unfold mbind at 1, M_bind at 1, try_except at 1.
  unfold mbind at 1, M_bind at 1. rewrite init_eq. cbn [snd].
  unfold mbind at 1, M_bind at 1. rewrite (sync_activities_not_ready _ _ _ _ Hr).
  unfold mbind at 1, M_bind at 1. rewrite (wait_running_all _ _ _ Hon).
  reflexivity.
Qed.

Lemma init_clock env w : clock (init env w).2 = clock w ∧ calls (init env w).2 = S (calls w).
Proof. rewrite init_eq. done. Qed.

Lemma failing_cycles_at_the_cap cycles fuel env config running sleep_interval w :
  strava_ready config = false → (∀ t, running t = true) →
  ∃ w', service_loop cycles fuel env config running sleep_interval 3600 w = (OutOfFuel, w')
        ∧ clock w' = clock w + Z.of_nat cycles * 3600 * SECOND
        ∧ calls w' = (cycles + calls w)%nat.
Proof.
  intros Hr Hon. revert w. induction cycles as [|cycles IH]; intros w.
  - exists w. split; [reflexivity|]. split; [simpl; lia | done].
  - rewrite (failing_cycle _ _ _ _ _ _ _ _ Hr Hon).
    change (Z.min (3600 * 2) 3600) with 3600.
    destruct (IH (waited (Z.to_nat 3600) (init env w).2)) as (w' & E & Hc & Hn).
    exists w'. split; [exact E|]. destruct (init_clock env w) as [Hic Hin].
    rewrite waited_clock, Hic in Hc. rewrite waited_calls, Hin in Hn.
    split; [rewrite Hc; unfold SECOND; lia | lia].
Qed.

(** X29. With source credentials missing every run fails at once, and the
    service retries after fifteen minutes, then thirty, then every hour:
    after [cycles] runs the clock has moved by 900, 2700, and from then on
    3600 more seconds per run.  Each cycle costs one request, the read of
    the synced document by the orchestrator it builds. *)
Theorem missing_credentials_back_off_to_an_hour
    (cycles fuel : nat) (env : Env) (config : SyncConfig) (running : Z → bool)
    (sleep_interval : Z) (w : World) :
  strava_ready config = false → (∀ t, running t = true) →
  ∃ w', service_main cycles fuel env config running sleep_interval w = (OutOfFuel, w')
        ∧ clock w' = clock w
            + match cycles with
              | O => 0
              | S O => 900
              | S (S more) => 2700 + 3600 * Z.of_nat more
              end * SECOND
        ∧ calls w' = (cycles + calls w)%nat.
Proof.
  intros Hr Hon. unfold service_main.
  destruct cycles as [|[|more]].
  - exists w. split; [reflexivity|]. split; [lia | done].
  - rewrite (failing_cycle _ _ _ _ _ _ _ _ Hr Hon). eexists. split; [reflexivity|].
    destruct (init_clock env w) as [Hic Hin].
    rewrite waited_clock, waited_calls, Hic, Hin. split; [simpl; unfold SECOND; lia | lia].
  - rewrite (failing_cycle _ _ _ _ _ _ _ _ Hr Hon).
    rewrite (failing_cycle _ _ _ _ _ _ _ _ Hr Hon).
    change (Z.min (Z.min (900 * 2) 3600 * 2) 3600) with 3600.
    change (Z.min (900 * 2) 3600) with 1800.
    match goal with |- context [service_loop more _ _ _ _ _ 3600 ?w0] =>
      destruct (failing_cycles_at_the_cap more fuel env config running sleep_interval
                  w0 Hr Hon) as (w' & E & Hc & Hn) end.
    exists w'. split; [exact E|].
    destruct (init_clock env w) as [Hic Hin].
    rewrite waited_clock in Hc. rewrite waited_calls in Hn.
    destruct (init_clock env (waited (Z.to_nat 900) (init env w).2)) as [Hic2 Hin2].
    rewrite Hic2, waited_clock, Hic in Hc. rewrite Hin2, waited_calls, Hin in Hn.
    split; [rewrite Hc; simpl; unfold SECOND; lia | lia].
Qed.

(** ** The further properties at concrete inputs *)

(** Activity 7 is listed and already synced. *)
Lemma nothing_new_nothing_done_witness :
  strava_ready demo_config = true
  ∧ (∀ a, a ∈ activities (calm_env [demo_summary 7] demo_streams) →
          Py.str_int (sum_id a) ∈ synced_ids synced_world)
  ∧ (sync_activities 1 (calm_env [demo_summary 7] demo_streams) demo_config
       synced_world).1 = Returns zero
  ∧ count is_work
      (since synced_world
         (sync_activities 1 (calm_env [demo_summary 7] demo_streams) demo_config
            synced_world).2) = 0%nat.
Proof.
  assert (Hall : ∀ a, a ∈ activities (calm_env [demo_summary 7] demo_streams) →
                      Py.str_int (sum_id a) ∈ synced_ids synced_world).
  { intros a Ha. apply list_elem_of_singleton in Ha as ->.
    change (synced_ids synced_world) with ({["7"%string]} : gset string).
    apply elem_of_singleton_2. vm_compute. reflexivity. }
  split; [reflexivity|]. split; [exact Hall|].
  destruct (nothing_new_nothing_done 1 (calm_env [demo_summary 7] demo_streams)
              demo_config synced_world eq_refl Hall) as (Hq & _ & _ & _ & _ & Hr).
  split; [exact (Hr eq_refl eq_refl) | exact Hq].
Defined.

(** The client secret is missing. *)
Lemma run_raises_only_before_the_loop_witness :
  (sync_activities 1 (calm_env [demo_summary 7] demo_streams) bare_config demo_world).1
  = Raises (ValueError "Strava credentials not properly configured")
  ∧ (sync_activities 1 (calm_env [demo_summary 7] demo_streams) bare_config demo_world).2
    = demo_world.
Proof.
  split; [reflexivity|].
  destruct (run_raises_only_before_the_loop 1 (calm_env [demo_summary 7] demo_streams)
              bare_config demo_world
              (ValueError "Strava credentials not properly configured") eq_refl)
    as ([(_ & _ & Hw) | (Hr & _)] & _).
  - exact Hw.
  - discriminate Hr.
Defined.

(** Two refusals, then the answer. *)
Lemma rate_limited_detail_is_retried_witness :
  failure (throttled_env 2) 2 = None
  ∧ retry_loop 3 (throttled_env 2) "/GPX/Strava" (demo_summary 7) zero demo_world
    = (Returns (bump zero),
       completed (throttled_env 2) "/GPX/Strava" (demo_summary 7)
         (cooled_times (demo_summary 7) 2 demo_world))
  ∧ clock (cooled_times (demo_summary 7) 2 demo_world)
    = 1709287200000000 + 2 * SLEEP_SECONDS.
Proof.
  split; [reflexivity|].
  destruct (rate_limited_detail_is_retried 3 2 (throttled_env 2) "/GPX/Strava"
              (demo_summary 7) zero demo_world) as (E & Hc & _).
  - intros i Hi. exists "429 Too Many Requests"%string. split; [|reflexivity].
    destruct i as [|[|i]]; [reflexivity | reflexivity | lia].
  - reflexivity.
  - lia.
  - split; [exact E | exact Hc].
Defined.

(** Nothing but refusals. *)
Lemma permanent_rate_limit_never_advances_witness :
  (∀ n, (calls demo_world ≤ n)%nat →
        ∃ msg, failure jammed_env n = Some msg ∧ is_rate_limit msg = true)
  ∧ for_loop 5 jammed_env "/GPX/Strava" [demo_summary 7; demo_summary 8] zero demo_world
    = (OutOfFuel, cooled_times (demo_summary 7) 5 demo_world).
Proof.
  assert (Hall : ∀ n, (calls demo_world ≤ n)%nat →
                      ∃ msg, failure jammed_env n = Some msg ∧ is_rate_limit msg = true).
  { intros n _. exists "429 Too Many Requests"%string. split; reflexivity. }
  split; [exact Hall|].
  destruct (permanent_rate_limit_never_advances 5 jammed_env "/GPX/Strava"
              (demo_summary 7) [demo_summary 8] zero demo_world Hall
              ltac:(vm_compute; lia) ltac:(vm_compute; lia)) as (_ & E & _).
  exact E.
Defined.

(** Activity 14290001 is gone: a 404 that names its URL. *)
Lemma error_naming_the_url_reads_as_rate_limit_witness :
  Py.contains "429" (Py.str_int 14290001) = true
  ∧ is_rate_limit ("404, message='Not Found', url='" +:+ detail_url 14290001 +:+ "'")
    = true.
Proof.
  split; [vm_compute; reflexivity|].
  exact (error_naming_the_url_reads_as_rate_limit 14290001
           "404, message='Not Found', url='" "'" ltac:(vm_compute; reflexivity)).
Defined.

(** Activities 7 and 8, both new. *)
Lemma synced_set_grows_with_each_upload_witness :
  NoDup (map sum_id (activities (calm_env [demo_summary 7; demo_summary 8] demo_streams)))
  ∧ size (synced_ids
            (sync_activities 1 (calm_env [demo_summary 7; demo_summary 8] demo_streams)
               demo_config demo_world).2)
    = (size (synced_ids demo_world)
       + count is_upload
           (since demo_world
              (sync_activities 1 (calm_env [demo_summary 7; demo_summary 8] demo_streams)
                 demo_config demo_world).2))%nat.
Proof.
  assert (Hnd : NoDup (map sum_id
                         (activities (calm_env [demo_summary 7; demo_summary 8]
                                        demo_streams)))).
  { simpl. apply NoDup_cons. split.
    - intros Hin. apply list_elem_of_singleton in Hin. discriminate Hin.
    - apply NoDup_singleton. }
  split; [exact Hnd|].
  exact (synced_set_grows_with_each_upload 1
           (calm_env [demo_summary 7; demo_summary 8] demo_streams)
           demo_config demo_world Hnd).
Defined.

(** Activities 7 and 8 have the same name and start date. *)
Lemma same_day_same_name_overwrites_witness :
  sum_name (demo_summary 7) = sum_name (demo_summary 8)
  ∧ remote_path "/GPX/Strava" (demo_summary 7) = remote_path "/GPX/Strava" (demo_summary 8)
  ∧ ∃ log,
      remote_files
        (for_loop 1 (calm_env [] demo_streams) "/GPX/Strava"
           [demo_summary 7; demo_summary 8] zero demo_world).2
      = <[remote_path "/GPX/Strava" (demo_summary 8) := log]> (remote_files demo_world).
Proof.
  split; [reflexivity|].
  destruct (same_day_same_name_overwrites 0 (calm_env [] demo_streams) "/GPX/Strava"
              (demo_summary 7) (demo_summary 8) demo_world
              eq_refl eq_refl eq_refl eq_refl eq_refl eq_refl) as (_ & Hp & Hl & _).
  split; [exact Hp | exact Hl].
Defined.

(** A stale [temp_gpx_7.gpx] is uploaded in place of the fresh log. *)
Lemma working_directory_after_a_pass_witness :
  local_files stale_world !! by_id_file (demo_summary 7) = Some "stale"%string
  ∧ remote_files
      (retry_loop 1 (calm_env [] demo_streams) "/GPX/Strava" (demo_summary 7) zero
         stale_world).2 !! remote_path "/GPX/Strava" (demo_summary 7)
    = Some "stale"%string
  ∧ local_files
      (retry_loop 1 (calm_env [] demo_streams) "/GPX/Strava" (demo_summary 7) zero
         stale_world).2 !! "temp_gpx.gpx"%string
    = Some (written (calm_env [] demo_streams) 7 stale_world).
Proof.
  assert (Hl : local_files stale_world !! by_id_file (demo_summary 7)
               = Some "stale"%string) by (vm_compute; reflexivity).
  split; [exact Hl|].
  pose proof (working_directory_after_a_pass 0 (calm_env [] demo_streams) "/GPX/Strava"
                (demo_summary 7) zero stale_world eq_refl eq_refl) as H.
  cbv zeta in H. rewrite Hl in H. destruct H as (Hr & _ & Ht).
  split; [exact Hr | exact Ht].
Defined.

(** Activity 7, every request answered. *)
Lemma completed_activity_is_not_synced_again_witness :
  failure (calm_env [demo_summary 7] demo_streams) (calls demo_world) = None
  ∧ remote_synced
      (retry_loop 1 (calm_env [demo_summary 7] demo_streams) "/GPX/Strava"
         (demo_summary 7) zero demo_world).2
    = Some (synced_ids
              (retry_loop 1 (calm_env [demo_summary 7] demo_streams) "/GPX/Strava"
                 (demo_summary 7) zero demo_world).2)
  ∧ demo_summary 7
    ∉ new_activities [demo_summary 7]
        (synced_ids
           (init (calm_env [demo_summary 7] demo_streams)
              (retry_loop 1 (calm_env [demo_summary 7] demo_streams) "/GPX/Strava"
                 (demo_summary 7) zero demo_world).2).2).
Proof.
  split; [reflexivity|].
  destruct (completed_activity_is_not_synced_again 0
              (calm_env [demo_summary 7] demo_streams) "/GPX/Strava" (demo_summary 7)
              zero demo_world [demo_summary 7] eq_refl eq_refl eq_refl eq_refl)
    as (_ & _ & Hs & _ & _ & Hn).
  split; [exact Hs | exact Hn].
Defined.

(** Activity 7, the write of the synced document refused. *)
Lemma failed_persist_is_uploaded_again_after_restart_witness :
  failure (demo_env demo_streams 3 "507 Insufficient Storage") 3
  = Some "507 Insufficient Storage"%string
  ∧ demo_summary 7
    ∈ new_activities [demo_summary 7]
        (synced_ids
           (init (demo_env demo_streams 3 "507 Insufficient Storage")
              (retry_loop 1 (demo_env demo_streams 3 "507 Insufficient Storage")
                 "/GPX/Strava" (demo_summary 7) zero demo_world).2).2)
  ∧ demo_summary 7
    ∉ new_activities [demo_summary 7]
        (synced_ids
           (retry_loop 1 (demo_env demo_streams 3 "507 Insufficient Storage")
              "/GPX/Strava" (demo_summary 7) zero demo_world).2).
Proof.
  split; [reflexivity|].
  destruct (failed_persist_is_uploaded_again_after_restart 0
              (demo_env demo_streams 3 "507 Insufficient Storage") "/GPX/Strava"
              (demo_summary 7) zero demo_world [demo_summary 7]
              "507 Insufficient Storage" eq_refl eq_refl eq_refl eq_refl
              ltac:(apply list_elem_of_singleton; reflexivity))
    as (_ & _ & _ & Hmem & _ & Hagain).
  split; [exact Hagain | exact Hmem].
Defined.

(** The read at start-up times out; the store held 1 and 2. *)
Lemma failed_read_loses_the_stored_ids_witness :
  remote_synced stored_world = Some {["1"%string; "2"%string]}
  ∧ failure (demo_env demo_streams 0 "timed out") (calls stored_world)
    = Some "timed out"%string
  ∧ remote_synced
      (retry_loop 1 (demo_env demo_streams 0 "timed out") "/GPX/Strava" (demo_summary 7)
         zero (init (demo_env demo_streams 0 "timed out") stored_world).2).2
    = Some {[Py.str_int 7]}.
Proof.
  split; [reflexivity|]. split; [reflexivity|].
  destruct (failed_read_loses_the_stored_ids 0 (demo_env demo_streams 0 "timed out")
              "/GPX/Strava" (demo_summary 7) zero stored_world
              {["1"%string; "2"%string]} "timed out" eq_refl eq_refl eq_refl eq_refl)
    as (_ & _ & Hs & _).
  exact Hs.
Defined.

(** Both requests answered. *)
Lemma state_store_round_trip_witness :
  failure (calm_env [] demo_streams) (S (calls demo_world)) = None
  ∧ ((save_synced_ids (calm_env [] demo_streams) {["7"%string]}
        ≫= λ _, load_synced_ids (calm_env [] demo_streams)) demo_world).1
    = Returns {["7"%string]}
  ∧ ((save_backoff_until (calm_env [] demo_streams) 1709337600000000
        ≫= λ _, load_backoff_until (calm_env [] demo_streams)) demo_world).1
    = Returns (Some 1709337600000000).
Proof.
  split; [reflexivity|].
  exact (state_store_round_trip (calm_env [] demo_streams) demo_world {["7"%string]}
           1709337600000000 eq_refl).
Defined.

(** Activity 7 with its two samples: the encoding goes through. *)
Lemma track_log_in_every_case_witness :
  failure (calm_env [] demo_streams) (calls demo_world) = None
  ∧ encoded (calm_env [] demo_streams) 7 demo_world = Some demo_points
  ∧ written (calm_env [] demo_streams) 7 demo_world
    = gpx_header (demo_activity 7) +:+ gpx_footer
      +:+ String.concat "" demo_points +:+ gpx_footer.
Proof.
  assert (He : encoded (calm_env [] demo_streams) 7 demo_world = Some demo_points)
    by (vm_compute; reflexivity).
  split; [reflexivity|]. split; [exact He|].
  destruct (track_log_in_every_case (calm_env [] demo_streams) 7 demo_world eq_refl)
    as [_ Hw].
  rewrite He in Hw. exact Hw.
Defined.

(** The temperature stream is not asked for, so it makes no difference. *)
Lemma encoding_reads_only_requested_streams_witness :
  same_requested (flags_of (demo_activity 7)) demo_streams demo_streams_with_temp
  ∧ trkpts (demo_activity 7) (flags_of (demo_activity 7)) demo_streams 2
    = trkpts (demo_activity 7) (flags_of (demo_activity 7)) demo_streams_with_temp 2.
Proof.
  assert (Hs : same_requested (flags_of (demo_activity 7)) demo_streams
                 demo_streams_with_temp).
  { unfold same_requested. simpl. repeat split; try reflexivity; intros H; discriminate H. }
  split; [exact Hs|].
  exact (encoding_reads_only_requested_streams (demo_activity 7)
           (flags_of (demo_activity 7)) demo_streams demo_streams_with_temp 2 Hs).
Defined.

(** Two pages and the empty third. *)
Lemma listing_is_all_pages_in_order_witness :
  demo_pages 3 = []
  ∧ get_activities_list_paged 3 (calm_env [] demo_streams) demo_pages demo_world
    = (Returns [demo_summary 7; demo_summary 8; demo_summary 9],
       listed_times 3 demo_world)
  ∧ calls (get_activities_list_paged 3 (calm_env [] demo_streams) demo_pages demo_world).2
    = 3%nat.
Proof.
  split; [reflexivity|].
  destruct (listing_is_all_pages_in_order 3 2 (calm_env [] demo_streams) demo_pages
              demo_world) as (E & Hc & _).
  - intros i Hi. destruct i as [|[|[|i]]]; [lia | discriminate | discriminate | lia].
  - reflexivity.
  - intros i _. reflexivity.
  - lia.
  - split; [exact E | exact Hc].
Defined.

Lemma listing_is_never_partial_witness :
  (get_activities_list_paged 3 (calm_env [] demo_streams) demo_pages demo_world).1
  = Returns [demo_summary 7; demo_summary 8; demo_summary 9]
  ∧ ∃ k, [demo_summary 7; demo_summary 8; demo_summary 9] = pages_up_to demo_pages k
         ∧ demo_pages (Z.of_nat (S k)) = [].
Proof.
  assert (E : (get_activities_list_paged 3 (calm_env [] demo_streams) demo_pages
                 demo_world).1
              = Returns [demo_summary 7; demo_summary 8; demo_summary 9])
    by (vm_compute; reflexivity).
  split; [exact E|].
  destruct (listing_is_never_partial 3 (calm_env [] demo_streams) demo_pages demo_world
              [demo_summary 7; demo_summary 8; demo_summary 9] E)
    as (k & Hl & Hend & _).
  exists k. split; [exact Hl | exact Hend].
Defined.

(** A 429 with a reset time, then the 200. *)
Lemma only_a_200_body_is_returned_witness :
  make_request 2 0 demo_http demo_world
  = (Returns "[]"%string,
     requested_times 1
       (slept (Z.max 0 (1709288100 * SECOND - (clock demo_world - 0)) + 10 * SECOND)
          (requested_times 1 demo_world)))
  ∧ ∃ n, status (demo_http n) = 200 ∧ body (demo_http n) = "[]"%string.
Proof.
  assert (E : make_request 2 0 demo_http demo_world
              = (Returns "[]"%string,
                 requested_times 1
                   (slept (Z.max 0 (1709288100 * SECOND - (clock demo_world - 0))
                           + 10 * SECOND)
                      (requested_times 1 demo_world)))) by reflexivity.
  split; [exact E|].
  destruct (only_a_200_body_is_returned 2 0 demo_http demo_world _ "[]"%string E)
    as (n & _ & _ & Hs & Hb & _).
  exists n. split; [exact Hs | exact Hb].
Defined.


Lemma bare_429_reaches_the_retry_loop_witness :
  status (bare_429 (calls demo_world)) = 429
  ∧ reset (bare_429 (calls demo_world)) = NoReset
  ∧ make_request 1 0 bare_429 demo_world
    = (Raises (http_error (bare_429 (calls demo_world))), requested_times 1 demo_world)
  ∧ is_rate_limit (exc_str (http_error (bare_429 (calls demo_world)))) = true.
Proof.
  split; [reflexivity|]. split; [reflexivity|].
  destruct (bare_429_reaches_the_retry_loop 0 0 bare_429 demo_world eq_refl eq_refl)
    as (E & Hr & _).
  split; [exact E | exact Hr].
Defined.

Lemma other_success_status_spins_witness :
  (∀ n, (calls demo_world ≤ n)%nat →
        status (only_204 n) ≠ 200 ∧ status (only_204 n) < 400)
  ∧ make_request 7 0 only_204 demo_world = (OutOfFuel, requested_times 7 demo_world).
Proof.
  assert (Hall : ∀ n, (calls demo_world ≤ n)%nat →
                      status (only_204 n) ≠ 200 ∧ status (only_204 n) < 400).
  { intros n _. simpl. split; [discriminate | reflexivity]. }
  split; [exact Hall|].
  exact (proj1 (other_success_status_spins 7 0 only_204 demo_world Hall)).
Defined.

(** Three runs without the client secret: 900 + 1800 + 3600 seconds. *)
Lemma missing_credentials_back_off_to_an_hour_witness :
  strava_ready bare_config = false
  ∧ ∃ w', service_main 3 1 (calm_env [] demo_streams) bare_config (λ _, true) 600
            demo_world = (OutOfFuel, w')
          ∧ clock w' = clock demo_world + 6300 * SECOND.
Proof.
  split; [reflexivity|].
  destruct (missing_credentials_back_off_to_an_hour 3 1 (calm_env [] demo_streams)
              bare_config (λ _, true) 600 demo_world eq_refl (λ _, eq_refl))
    as (w' & E & Hc & _).
  exists w'. split; [exact E | exact Hc].
Defined.
